(** * metamaska: payload normalisation, inference wrapper, training gate,
      artifact loader and dataset collector.

    A shallow embedding of
      - [metamaska/payload_classifier.py]  ([_ensure_model], [PayloadClassifier]),
      - [scripts/train.py]                 ([main]),
      - [scripts/collect_data.py]          ([_make_record], the collectors,
                                            [deduplicate], [main]),
    together with the three text helpers of [metamaska/utils.py]
    ([unquote], [remove_new_line], [remove_whitespace]).

    A Python [str] is modelled as the list of its code points; [str.lower],
    [str.isspace], [str.strip], [str.split] and [str.splitlines] are given
    the meaning CPython gives them, from the character tables of Unicode. *)

From Stdlib Require Import Ascii String List NArith ZArith QArith Lia.
From stdpp Require Import base list gmap strings.

Local Open Scope list_scope.

(** ** Unicode data

    The character tables of CPython 3.11 (Unicode 14.0) as [str.isspace],
    [str.splitlines] and [str.lower] read them: the whitespace and the
    line-break code points, the lowercase mapping of every code point that
    has one, and the ranges of cased and of case-ignorable code points,
    which decide between the two small sigmas.  All are sorted by code
    point. *)

Module Unicode.

Definition WHITESPACE : list N :=
  [
    9; 10; 11; 12; 13; 28; 29; 30; 31; 32; 133; 160; 5760; 8192; 8193; 8194; 8195; 8196;
    8197; 8198; 8199; 8200; 8201; 8202; 8232; 8233; 8239; 8287; 12288 ]%N.

Definition LINEBREAK : list N :=
  [
    10; 11; 12; 13; 28; 29; 30; 133; 8232; 8233 ]%N.

Definition LOWER : list (N * list N) :=
  [
    (65, [97]); (66, [98]); (67, [99]); (68, [100]); (69, [101]); (70, [102]);
    (71, [103]); (72, [104]); (73, [105]); (74, [106]); (75, [107]); (76, [108]);
    (77, [109]); (78, [110]); (79, [111]); (80, [112]); (81, [113]); (82, [114]);
    (83, [115]); (84, [116]); (85, [117]); (86, [118]); (87, [119]); (88, [120]);
    (89, [121]); (90, [122]); (192, [224]); (193, [225]); (194, [226]); (195, [227]);
    (196, [228]); (197, [229]); (198, [230]); (199, [231]); (200, [232]); (201, [233]);
    (202, [234]); (203, [235]); (204, [236]); (205, [237]); (206, [238]); (207, [239]);
    (208, [240]); (209, [241]); (210, [242]); (211, [243]); (212, [244]); (213, [245]);
    (214, [246]); (216, [248]); (217, [249]); (218, [250]); (219, [251]); (220, [252]);
    (221, [253]); (222, [254]); (256, [257]); (258, [259]); (260, [261]); (262, [263]);
    (264, [265]); (266, [267]); (268, [269]); (270, [271]); (272, [273]); (274, [275]);
    (276, [277]); (278, [279]); (280, [281]); (282, [283]); (284, [285]); (286, [287]);
    (288, [289]); (290, [291]); (292, [293]); (294, [295]); (296, [297]); (298, [299]);
    (300, [301]); (302, [303]); (304, [105; 775]); (306, [307]); (308, [309]);
    (310, [311]); (313, [314]); (315, [316]); (317, [318]); (319, [320]); (321, [322]);
    (323, [324]); (325, [326]); (327, [328]); (330, [331]); (332, [333]); (334, [335]);
    (336, [337]); (338, [339]); (340, [341]); (342, [343]); (344, [345]); (346, [347]);
    (348, [349]); (350, [351]); (352, [353]); (354, [355]); (356, [357]); (358, [359]);
    (360, [361]); (362, [363]); (364, [365]); (366, [367]); (368, [369]); (370, [371]);
    (372, [373]); (374, [375]); (376, [255]); (377, [378]); (379, [380]); (381, [382]);
    (385, [595]); (386, [387]); (388, [389]); (390, [596]); (391, [392]); (393, [598]);
    (394, [599]); (395, [396]); (398, [477]); (399, [601]); (400, [603]); (401, [402]);
    (403, [608]); (404, [611]); (406, [617]); (407, [616]); (408, [409]); (412, [623]);
    (413, [626]); (415, [629]); (416, [417]); (418, [419]); (420, [421]); (422, [640]);
    (423, [424]); (425, [643]); (428, [429]); (430, [648]); (431, [432]); (433, [650]);
    (434, [651]); (435, [436]); (437, [438]); (439, [658]); (440, [441]); (444, [445]);
    (452, [454]); (453, [454]); (455, [457]); (456, [457]); (458, [460]); (459, [460]);
    (461, [462]); (463, [464]); (465, [466]); (467, [468]); (469, [470]); (471, [472]);
    (473, [474]); (475, [476]); (478, [479]); (480, [481]); (482, [483]); (484, [485]);
    (486, [487]); (488, [489]); (490, [491]); (492, [493]); (494, [495]); (497, [499]);
    (498, [499]); (500, [501]); (502, [405]); (503, [447]); (504, [505]); (506, [507]);
    (508, [509]); (510, [511]); (512, [513]); (514, [515]); (516, [517]); (518, [519]);
    (520, [521]); (522, [523]); (524, [525]); (526, [527]); (528, [529]); (530, [531]);
    (532, [533]); (534, [535]); (536, [537]); (538, [539]); (540, [541]); (542, [543]);
    (544, [414]); (546, [547]); (548, [549]); (550, [551]); (552, [553]); (554, [555]);
    (556, [557]); (558, [559]); (560, [561]); (562, [563]); (570, [11365]);
    (571, [572]); (573, [410]); (574, [11366]); (577, [578]); (579, [384]);
    (580, [649]); (581, [652]); (582, [583]); (584, [585]); (586, [587]); (588, [589]);
    (590, [591]); (880, [881]); (882, [883]); (886, [887]); (895, [1011]); (902, [940]);
    (904, [941]); (905, [942]); (906, [943]); (908, [972]); (910, [973]); (911, [974]);
    (913, [945]); (914, [946]); (915, [947]); (916, [948]); (917, [949]); (918, [950]);
    (919, [951]); (920, [952]); (921, [953]); (922, [954]); (923, [955]); (924, [956]);
    (925, [957]); (926, [958]); (927, [959]); (928, [960]); (929, [961]); (931, [963]);
    (932, [964]); (933, [965]); (934, [966]); (935, [967]); (936, [968]); (937, [969]);
    (938, [970]); (939, [971]); (975, [983]); (984, [985]); (986, [987]); (988, [989]);
    (990, [991]); (992, [993]); (994, [995]); (996, [997]); (998, [999]);
    (1000, [1001]); (1002, [1003]); (1004, [1005]); (1006, [1007]); (1012, [952]);
    (1015, [1016]); (1017, [1010]); (1018, [1019]); (1021, [891]); (1022, [892]);
    (1023, [893]); (1024, [1104]); (1025, [1105]); (1026, [1106]); (1027, [1107]);
    (1028, [1108]); (1029, [1109]); (1030, [1110]); (1031, [1111]); (1032, [1112]);
    (1033, [1113]); (1034, [1114]); (1035, [1115]); (1036, [1116]); (1037, [1117]);
    (1038, [1118]); (1039, [1119]); (1040, [1072]); (1041, [1073]); (1042, [1074]);
    (1043, [1075]); (1044, [1076]); (1045, [1077]); (1046, [1078]); (1047, [1079]);
    (1048, [1080]); (1049, [1081]); (1050, [1082]); (1051, [1083]); (1052, [1084]);
    (1053, [1085]); (1054, [1086]); (1055, [1087]); (1056, [1088]); (1057, [1089]);
    (1058, [1090]); (1059, [1091]); (1060, [1092]); (1061, [1093]); (1062, [1094]);
    (1063, [1095]); (1064, [1096]); (1065, [1097]); (1066, [1098]); (1067, [1099]);
    (1068, [1100]); (1069, [1101]); (1070, [1102]); (1071, [1103]); (1120, [1121]);
    (1122, [1123]); (1124, [1125]); (1126, [1127]); (1128, [1129]); (1130, [1131]);
    (1132, [1133]); (1134, [1135]); (1136, [1137]); (1138, [1139]); (1140, [1141]);
    (1142, [1143]); (1144, [1145]); (1146, [1147]); (1148, [1149]); (1150, [1151]);
    (1152, [1153]); (1162, [1163]); (1164, [1165]); (1166, [1167]); (1168, [1169]);
    (1170, [1171]); (1172, [1173]); (1174, [1175]); (1176, [1177]); (1178, [1179]);
    (1180, [1181]); (1182, [1183]); (1184, [1185]); (1186, [1187]); (1188, [1189]);
    (1190, [1191]); (1192, [1193]); (1194, [1195]); (1196, [1197]); (1198, [1199]);
    (1200, [1201]); (1202, [1203]); (1204, [1205]); (1206, [1207]); (1208, [1209]);
    (1210, [1211]); (1212, [1213]); (1214, [1215]); (1216, [1231]); (1217, [1218]);
    (1219, [1220]); (1221, [1222]); (1223, [1224]); (1225, [1226]); (1227, [1228]);
    (1229, [1230]); (1232, [1233]); (1234, [1235]); (1236, [1237]); (1238, [1239]);
    (1240, [1241]); (1242, [1243]); (1244, [1245]); (1246, [1247]); (1248, [1249]);
    (1250, [1251]); (1252, [1253]); (1254, [1255]); (1256, [1257]); (1258, [1259]);
    (1260, [1261]); (1262, [1263]); (1264, [1265]); (1266, [1267]); (1268, [1269]);
    (1270, [1271]); (1272, [1273]); (1274, [1275]); (1276, [1277]); (1278, [1279]);
    (1280, [1281]); (1282, [1283]); (1284, [1285]); (1286, [1287]); (1288, [1289]);
    (1290, [1291]); (1292, [1293]); (1294, [1295]); (1296, [1297]); (1298, [1299]);
    (1300, [1301]); (1302, [1303]); (1304, [1305]); (1306, [1307]); (1308, [1309]);
    (1310, [1311]); (1312, [1313]); (1314, [1315]); (1316, [1317]); (1318, [1319]);
    (1320, [1321]); (1322, [1323]); (1324, [1325]); (1326, [1327]); (1329, [1377]);
    (1330, [1378]); (1331, [1379]); (1332, [1380]); (1333, [1381]); (1334, [1382]);
    (1335, [1383]); (1336, [1384]); (1337, [1385]); (1338, [1386]); (1339, [1387]);
    (1340, [1388]); (1341, [1389]); (1342, [1390]); (1343, [1391]); (1344, [1392]);
    (1345, [1393]); (1346, [1394]); (1347, [1395]); (1348, [1396]); (1349, [1397]);
    (1350, [1398]); (1351, [1399]); (1352, [1400]); (1353, [1401]); (1354, [1402]);
    (1355, [1403]); (1356, [1404]); (1357, [1405]); (1358, [1406]); (1359, [1407]);
    (1360, [1408]); (1361, [1409]); (1362, [1410]); (1363, [1411]); (1364, [1412]);
    (1365, [1413]); (1366, [1414]); (4256, [11520]); (4257, [11521]); (4258, [11522]);
    (4259, [11523]); (4260, [11524]); (4261, [11525]); (4262, [11526]); (4263, [11527]);
    (4264, [11528]); (4265, [11529]); (4266, [11530]); (4267, [11531]); (4268, [11532]);
    (4269, [11533]); (4270, [11534]); (4271, [11535]); (4272, [11536]); (4273, [11537]);
    (4274, [11538]); (4275, [11539]); (4276, [11540]); (4277, [11541]); (4278, [11542]);
    (4279, [11543]); (4280, [11544]); (4281, [11545]); (4282, [11546]); (4283, [11547]);
    (4284, [11548]); (4285, [11549]); (4286, [11550]); (4287, [11551]); (4288, [11552]);
    (4289, [11553]); (4290, [11554]); (4291, [11555]); (4292, [11556]); (4293, [11557]);
    (4295, [11559]); (4301, [11565]); (5024, [43888]); (5025, [43889]); (5026, [43890]);
    (5027, [43891]); (5028, [43892]); (5029, [43893]); (5030, [43894]); (5031, [43895]);
    (5032, [43896]); (5033, [43897]); (5034, [43898]); (5035, [43899]); (5036, [43900]);
    (5037, [43901]); (5038, [43902]); (5039, [43903]); (5040, [43904]); (5041, [43905]);
    (5042, [43906]); (5043, [43907]); (5044, [43908]); (5045, [43909]); (5046, [43910]);
    (5047, [43911]); (5048, [43912]); (5049, [43913]); (5050, [43914]); (5051, [43915]);
    (5052, [43916]); (5053, [43917]); (5054, [43918]); (5055, [43919]); (5056, [43920]);
    (5057, [43921]); (5058, [43922]); (5059, [43923]); (5060, [43924]); (5061, [43925]);
    (5062, [43926]); (5063, [43927]); (5064, [43928]); (5065, [43929]); (5066, [43930]);
    (5067, [43931]); (5068, [43932]); (5069, [43933]); (5070, [43934]); (5071, [43935]);
    (5072, [43936]); (5073, [43937]); (5074, [43938]); (5075, [43939]); (5076, [43940]);
    (5077, [43941]); (5078, [43942]); (5079, [43943]); (5080, [43944]); (5081, [43945]);
    (5082, [43946]); (5083, [43947]); (5084, [43948]); (5085, [43949]); (5086, [43950]);
    (5087, [43951]); (5088, [43952]); (5089, [43953]); (5090, [43954]); (5091, [43955]);
    (5092, [43956]); (5093, [43957]); (5094, [43958]); (5095, [43959]); (5096, [43960]);
    (5097, [43961]); (5098, [43962]); (5099, [43963]); (5100, [43964]); (5101, [43965]);
    (5102, [43966]); (5103, [43967]); (5104, [5112]); (5105, [5113]); (5106, [5114]);
    (5107, [5115]); (5108, [5116]); (5109, [5117]); (7312, [4304]); (7313, [4305]);
    (7314, [4306]); (7315, [4307]); (7316, [4308]); (7317, [4309]); (7318, [4310]);
    (7319, [4311]); (7320, [4312]); (7321, [4313]); (7322, [4314]); (7323, [4315]);
    (7324, [4316]); (7325, [4317]); (7326, [4318]); (7327, [4319]); (7328, [4320]);
    (7329, [4321]); (7330, [4322]); (7331, [4323]); (7332, [4324]); (7333, [4325]);
    (7334, [4326]); (7335, [4327]); (7336, [4328]); (7337, [4329]); (7338, [4330]);
    (7339, [4331]); (7340, [4332]); (7341, [4333]); (7342, [4334]); (7343, [4335]);
    (7344, [4336]); (7345, [4337]); (7346, [4338]); (7347, [4339]); (7348, [4340]);
    (7349, [4341]); (7350, [4342]); (7351, [4343]); (7352, [4344]); (7353, [4345]);
    (7354, [4346]); (7357, [4349]); (7358, [4350]); (7359, [4351]); (7680, [7681]);
    (7682, [7683]); (7684, [7685]); (7686, [7687]); (7688, [7689]); (7690, [7691]);
    (7692, [7693]); (7694, [7695]); (7696, [7697]); (7698, [7699]); (7700, [7701]);
    (7702, [7703]); (7704, [7705]); (7706, [7707]); (7708, [7709]); (7710, [7711]);
    (7712, [7713]); (7714, [7715]); (7716, [7717]); (7718, [7719]); (7720, [7721]);
    (7722, [7723]); (7724, [7725]); (7726, [7727]); (7728, [7729]); (7730, [7731]);
    (7732, [7733]); (7734, [7735]); (7736, [7737]); (7738, [7739]); (7740, [7741]);
    (7742, [7743]); (7744, [7745]); (7746, [7747]); (7748, [7749]); (7750, [7751]);
    (7752, [7753]); (7754, [7755]); (7756, [7757]); (7758, [7759]); (7760, [7761]);
    (7762, [7763]); (7764, [7765]); (7766, [7767]); (7768, [7769]); (7770, [7771]);
    (7772, [7773]); (7774, [7775]); (7776, [7777]); (7778, [7779]); (7780, [7781]);
    (7782, [7783]); (7784, [7785]); (7786, [7787]); (7788, [7789]); (7790, [7791]);
    (7792, [7793]); (7794, [7795]); (7796, [7797]); (7798, [7799]); (7800, [7801]);
    (7802, [7803]); (7804, [7805]); (7806, [7807]); (7808, [7809]); (7810, [7811]);
    (7812, [7813]); (7814, [7815]); (7816, [7817]); (7818, [7819]); (7820, [7821]);
    (7822, [7823]); (7824, [7825]); (7826, [7827]); (7828, [7829]); (7838, [223]);
    (7840, [7841]); (7842, [7843]); (7844, [7845]); (7846, [7847]); (7848, [7849]);
    (7850, [7851]); (7852, [7853]); (7854, [7855]); (7856, [7857]); (7858, [7859]);
    (7860, [7861]); (7862, [7863]); (7864, [7865]); (7866, [7867]); (7868, [7869]);
    (7870, [7871]); (7872, [7873]); (7874, [7875]); (7876, [7877]); (7878, [7879]);
    (7880, [7881]); (7882, [7883]); (7884, [7885]); (7886, [7887]); (7888, [7889]);
    (7890, [7891]); (7892, [7893]); (7894, [7895]); (7896, [7897]); (7898, [7899]);
    (7900, [7901]); (7902, [7903]); (7904, [7905]); (7906, [7907]); (7908, [7909]);
    (7910, [7911]); (7912, [7913]); (7914, [7915]); (7916, [7917]); (7918, [7919]);
    (7920, [7921]); (7922, [7923]); (7924, [7925]); (7926, [7927]); (7928, [7929]);
    (7930, [7931]); (7932, [7933]); (7934, [7935]); (7944, [7936]); (7945, [7937]);
    (7946, [7938]); (7947, [7939]); (7948, [7940]); (7949, [7941]); (7950, [7942]);
    (7951, [7943]); (7960, [7952]); (7961, [7953]); (7962, [7954]); (7963, [7955]);
    (7964, [7956]); (7965, [7957]); (7976, [7968]); (7977, [7969]); (7978, [7970]);
    (7979, [7971]); (7980, [7972]); (7981, [7973]); (7982, [7974]); (7983, [7975]);
    (7992, [7984]); (7993, [7985]); (7994, [7986]); (7995, [7987]); (7996, [7988]);
    (7997, [7989]); (7998, [7990]); (7999, [7991]); (8008, [8000]); (8009, [8001]);
    (8010, [8002]); (8011, [8003]); (8012, [8004]); (8013, [8005]); (8025, [8017]);
    (8027, [8019]); (8029, [8021]); (8031, [8023]); (8040, [8032]); (8041, [8033]);
    (8042, [8034]); (8043, [8035]); (8044, [8036]); (8045, [8037]); (8046, [8038]);
    (8047, [8039]); (8072, [8064]); (8073, [8065]); (8074, [8066]); (8075, [8067]);
    (8076, [8068]); (8077, [8069]); (8078, [8070]); (8079, [8071]); (8088, [8080]);
    (8089, [8081]); (8090, [8082]); (8091, [8083]); (8092, [8084]); (8093, [8085]);
    (8094, [8086]); (8095, [8087]); (8104, [8096]); (8105, [8097]); (8106, [8098]);
    (8107, [8099]); (8108, [8100]); (8109, [8101]); (8110, [8102]); (8111, [8103]);
    (8120, [8112]); (8121, [8113]); (8122, [8048]); (8123, [8049]); (8124, [8115]);
    (8136, [8050]); (8137, [8051]); (8138, [8052]); (8139, [8053]); (8140, [8131]);
    (8152, [8144]); (8153, [8145]); (8154, [8054]); (8155, [8055]); (8168, [8160]);
    (8169, [8161]); (8170, [8058]); (8171, [8059]); (8172, [8165]); (8184, [8056]);
    (8185, [8057]); (8186, [8060]); (8187, [8061]); (8188, [8179]); (8486, [969]);
    (8490, [107]); (8491, [229]); (8498, [8526]); (8544, [8560]); (8545, [8561]);
    (8546, [8562]); (8547, [8563]); (8548, [8564]); (8549, [8565]); (8550, [8566]);
    (8551, [8567]); (8552, [8568]); (8553, [8569]); (8554, [8570]); (8555, [8571]);
    (8556, [8572]); (8557, [8573]); (8558, [8574]); (8559, [8575]); (8579, [8580]);
    (9398, [9424]); (9399, [9425]); (9400, [9426]); (9401, [9427]); (9402, [9428]);
    (9403, [9429]); (9404, [9430]); (9405, [9431]); (9406, [9432]); (9407, [9433]);
    (9408, [9434]); (9409, [9435]); (9410, [9436]); (9411, [9437]); (9412, [9438]);
    (9413, [9439]); (9414, [9440]); (9415, [9441]); (9416, [9442]); (9417, [9443]);
    (9418, [9444]); (9419, [9445]); (9420, [9446]); (9421, [9447]); (9422, [9448]);
    (9423, [9449]); (11264, [11312]); (11265, [11313]); (11266, [11314]);
    (11267, [11315]); (11268, [11316]); (11269, [11317]); (11270, [11318]);
    (11271, [11319]); (11272, [11320]); (11273, [11321]); (11274, [11322]);
    (11275, [11323]); (11276, [11324]); (11277, [11325]); (11278, [11326]);
    (11279, [11327]); (11280, [11328]); (11281, [11329]); (11282, [11330]);
    (11283, [11331]); (11284, [11332]); (11285, [11333]); (11286, [11334]);
    (11287, [11335]); (11288, [11336]); (11289, [11337]); (11290, [11338]);
    (11291, [11339]); (11292, [11340]); (11293, [11341]); (11294, [11342]);
    (11295, [11343]); (11296, [11344]); (11297, [11345]); (11298, [11346]);
    (11299, [11347]); (11300, [11348]); (11301, [11349]); (11302, [11350]);
    (11303, [11351]); (11304, [11352]); (11305, [11353]); (11306, [11354]);
    (11307, [11355]); (11308, [11356]); (11309, [11357]); (11310, [11358]);
    (11311, [11359]); (11360, [11361]); (11362, [619]); (11363, [7549]); (11364, [637]);
    (11367, [11368]); (11369, [11370]); (11371, [11372]); (11373, [593]);
    (11374, [625]); (11375, [592]); (11376, [594]); (11378, [11379]); (11381, [11382]);
    (11390, [575]); (11391, [576]); (11392, [11393]); (11394, [11395]);
    (11396, [11397]); (11398, [11399]); (11400, [11401]); (11402, [11403]);
    (11404, [11405]); (11406, [11407]); (11408, [11409]); (11410, [11411]);
    (11412, [11413]); (11414, [11415]); (11416, [11417]); (11418, [11419]);
    (11420, [11421]); (11422, [11423]); (11424, [11425]); (11426, [11427]);
    (11428, [11429]); (11430, [11431]); (11432, [11433]); (11434, [11435]);
    (11436, [11437]); (11438, [11439]); (11440, [11441]); (11442, [11443]);
    (11444, [11445]); (11446, [11447]); (11448, [11449]); (11450, [11451]);
    (11452, [11453]); (11454, [11455]); (11456, [11457]); (11458, [11459]);
    (11460, [11461]); (11462, [11463]); (11464, [11465]); (11466, [11467]);
    (11468, [11469]); (11470, [11471]); (11472, [11473]); (11474, [11475]);
    (11476, [11477]); (11478, [11479]); (11480, [11481]); (11482, [11483]);
    (11484, [11485]); (11486, [11487]); (11488, [11489]); (11490, [11491]);
    (11499, [11500]); (11501, [11502]); (11506, [11507]); (42560, [42561]);
    (42562, [42563]); (42564, [42565]); (42566, [42567]); (42568, [42569]);
    (42570, [42571]); (42572, [42573]); (42574, [42575]); (42576, [42577]);
    (42578, [42579]); (42580, [42581]); (42582, [42583]); (42584, [42585]);
    (42586, [42587]); (42588, [42589]); (42590, [42591]); (42592, [42593]);
    (42594, [42595]); (42596, [42597]); (42598, [42599]); (42600, [42601]);
    (42602, [42603]); (42604, [42605]); (42624, [42625]); (42626, [42627]);
    (42628, [42629]); (42630, [42631]); (42632, [42633]); (42634, [42635]);
    (42636, [42637]); (42638, [42639]); (42640, [42641]); (42642, [42643]);
    (42644, [42645]); (42646, [42647]); (42648, [42649]); (42650, [42651]);
    (42786, [42787]); (42788, [42789]); (42790, [42791]); (42792, [42793]);
    (42794, [42795]); (42796, [42797]); (42798, [42799]); (42802, [42803]);
    (42804, [42805]); (42806, [42807]); (42808, [42809]); (42810, [42811]);
    (42812, [42813]); (42814, [42815]); (42816, [42817]); (42818, [42819]);
    (42820, [42821]); (42822, [42823]); (42824, [42825]); (42826, [42827]);
    (42828, [42829]); (42830, [42831]); (42832, [42833]); (42834, [42835]);
    (42836, [42837]); (42838, [42839]); (42840, [42841]); (42842, [42843]);
    (42844, [42845]); (42846, [42847]); (42848, [42849]); (42850, [42851]);
    (42852, [42853]); (42854, [42855]); (42856, [42857]); (42858, [42859]);
    (42860, [42861]); (42862, [42863]); (42873, [42874]); (42875, [42876]);
    (42877, [7545]); (42878, [42879]); (42880, [42881]); (42882, [42883]);
    (42884, [42885]); (42886, [42887]); (42891, [42892]); (42893, [613]);
    (42896, [42897]); (42898, [42899]); (42902, [42903]); (42904, [42905]);
    (42906, [42907]); (42908, [42909]); (42910, [42911]); (42912, [42913]);
    (42914, [42915]); (42916, [42917]); (42918, [42919]); (42920, [42921]);
    (42922, [614]); (42923, [604]); (42924, [609]); (42925, [620]); (42926, [618]);
    (42928, [670]); (42929, [647]); (42930, [669]); (42931, [43859]); (42932, [42933]);
    (42934, [42935]); (42936, [42937]); (42938, [42939]); (42940, [42941]);
    (42942, [42943]); (42944, [42945]); (42946, [42947]); (42948, [42900]);
    (42949, [642]); (42950, [7566]); (42951, [42952]); (42953, [42954]);
    (42960, [42961]); (42966, [42967]); (42968, [42969]); (42997, [42998]);
    (65313, [65345]); (65314, [65346]); (65315, [65347]); (65316, [65348]);
    (65317, [65349]); (65318, [65350]); (65319, [65351]); (65320, [65352]);
    (65321, [65353]); (65322, [65354]); (65323, [65355]); (65324, [65356]);
    (65325, [65357]); (65326, [65358]); (65327, [65359]); (65328, [65360]);
    (65329, [65361]); (65330, [65362]); (65331, [65363]); (65332, [65364]);
    (65333, [65365]); (65334, [65366]); (65335, [65367]); (65336, [65368]);
    (65337, [65369]); (65338, [65370]); (66560, [66600]); (66561, [66601]);
    (66562, [66602]); (66563, [66603]); (66564, [66604]); (66565, [66605]);
    (66566, [66606]); (66567, [66607]); (66568, [66608]); (66569, [66609]);
    (66570, [66610]); (66571, [66611]); (66572, [66612]); (66573, [66613]);
    (66574, [66614]); (66575, [66615]); (66576, [66616]); (66577, [66617]);
    (66578, [66618]); (66579, [66619]); (66580, [66620]); (66581, [66621]);
    (66582, [66622]); (66583, [66623]); (66584, [66624]); (66585, [66625]);
    (66586, [66626]); (66587, [66627]); (66588, [66628]); (66589, [66629]);
    (66590, [66630]); (66591, [66631]); (66592, [66632]); (66593, [66633]);
    (66594, [66634]); (66595, [66635]); (66596, [66636]); (66597, [66637]);
    (66598, [66638]); (66599, [66639]); (66736, [66776]); (66737, [66777]);
    (66738, [66778]); (66739, [66779]); (66740, [66780]); (66741, [66781]);
    (66742, [66782]); (66743, [66783]); (66744, [66784]); (66745, [66785]);
    (66746, [66786]); (66747, [66787]); (66748, [66788]); (66749, [66789]);
    (66750, [66790]); (66751, [66791]); (66752, [66792]); (66753, [66793]);
    (66754, [66794]); (66755, [66795]); (66756, [66796]); (66757, [66797]);
    (66758, [66798]); (66759, [66799]); (66760, [66800]); (66761, [66801]);
    (66762, [66802]); (66763, [66803]); (66764, [66804]); (66765, [66805]);
    (66766, [66806]); (66767, [66807]); (66768, [66808]); (66769, [66809]);
    (66770, [66810]); (66771, [66811]); (66928, [66967]); (66929, [66968]);
    (66930, [66969]); (66931, [66970]); (66932, [66971]); (66933, [66972]);
    (66934, [66973]); (66935, [66974]); (66936, [66975]); (66937, [66976]);
    (66938, [66977]); (66940, [66979]); (66941, [66980]); (66942, [66981]);
    (66943, [66982]); (66944, [66983]); (66945, [66984]); (66946, [66985]);
    (66947, [66986]); (66948, [66987]); (66949, [66988]); (66950, [66989]);
    (66951, [66990]); (66952, [66991]); (66953, [66992]); (66954, [66993]);
    (66956, [66995]); (66957, [66996]); (66958, [66997]); (66959, [66998]);
    (66960, [66999]); (66961, [67000]); (66962, [67001]); (66964, [67003]);
    (66965, [67004]); (68736, [68800]); (68737, [68801]); (68738, [68802]);
    (68739, [68803]); (68740, [68804]); (68741, [68805]); (68742, [68806]);
    (68743, [68807]); (68744, [68808]); (68745, [68809]); (68746, [68810]);
    (68747, [68811]); (68748, [68812]); (68749, [68813]); (68750, [68814]);
    (68751, [68815]); (68752, [68816]); (68753, [68817]); (68754, [68818]);
    (68755, [68819]); (68756, [68820]); (68757, [68821]); (68758, [68822]);
    (68759, [68823]); (68760, [68824]); (68761, [68825]); (68762, [68826]);
    (68763, [68827]); (68764, [68828]); (68765, [68829]); (68766, [68830]);
    (68767, [68831]); (68768, [68832]); (68769, [68833]); (68770, [68834]);
    (68771, [68835]); (68772, [68836]); (68773, [68837]); (68774, [68838]);
    (68775, [68839]); (68776, [68840]); (68777, [68841]); (68778, [68842]);
    (68779, [68843]); (68780, [68844]); (68781, [68845]); (68782, [68846]);
    (68783, [68847]); (68784, [68848]); (68785, [68849]); (68786, [68850]);
    (71840, [71872]); (71841, [71873]); (71842, [71874]); (71843, [71875]);
    (71844, [71876]); (71845, [71877]); (71846, [71878]); (71847, [71879]);
    (71848, [71880]); (71849, [71881]); (71850, [71882]); (71851, [71883]);
    (71852, [71884]); (71853, [71885]); (71854, [71886]); (71855, [71887]);
    (71856, [71888]); (71857, [71889]); (71858, [71890]); (71859, [71891]);
    (71860, [71892]); (71861, [71893]); (71862, [71894]); (71863, [71895]);
    (71864, [71896]); (71865, [71897]); (71866, [71898]); (71867, [71899]);
    (71868, [71900]); (71869, [71901]); (71870, [71902]); (71871, [71903]);
    (93760, [93792]); (93761, [93793]); (93762, [93794]); (93763, [93795]);
    (93764, [93796]); (93765, [93797]); (93766, [93798]); (93767, [93799]);
    (93768, [93800]); (93769, [93801]); (93770, [93802]); (93771, [93803]);
    (93772, [93804]); (93773, [93805]); (93774, [93806]); (93775, [93807]);
    (93776, [93808]); (93777, [93809]); (93778, [93810]); (93779, [93811]);
    (93780, [93812]); (93781, [93813]); (93782, [93814]); (93783, [93815]);
    (93784, [93816]); (93785, [93817]); (93786, [93818]); (93787, [93819]);
    (93788, [93820]); (93789, [93821]); (93790, [93822]); (93791, [93823]);
    (125184, [125218]); (125185, [125219]); (125186, [125220]); (125187, [125221]);
    (125188, [125222]); (125189, [125223]); (125190, [125224]); (125191, [125225]);
    (125192, [125226]); (125193, [125227]); (125194, [125228]); (125195, [125229]);
    (125196, [125230]); (125197, [125231]); (125198, [125232]); (125199, [125233]);
    (125200, [125234]); (125201, [125235]); (125202, [125236]); (125203, [125237]);
    (125204, [125238]); (125205, [125239]); (125206, [125240]); (125207, [125241]);
    (125208, [125242]); (125209, [125243]); (125210, [125244]); (125211, [125245]);
    (125212, [125246]); (125213, [125247]); (125214, [125248]); (125215, [125249]);
    (125216, [125250]); (125217, [125251]) ]%N.

Definition CASED : list (N * N) :=
  [
    (65, 90); (97, 122); (170, 170); (181, 181); (186, 186); (192, 214); (216, 246);
    (248, 442); (444, 447); (452, 659); (661, 696); (704, 705); (736, 740); (837, 837);
    (880, 883); (886, 887); (890, 893); (895, 895); (902, 902); (904, 906); (908, 908);
    (910, 929); (931, 1013); (1015, 1153); (1162, 1327); (1329, 1366); (1376, 1416);
    (4256, 4293); (4295, 4295); (4301, 4301); (4304, 4346); (4349, 4351); (5024, 5109);
    (5112, 5117); (7296, 7304); (7312, 7354); (7357, 7359); (7424, 7615); (7680, 7957);
    (7960, 7965); (7968, 8005); (8008, 8013); (8016, 8023); (8025, 8025); (8027, 8027);
    (8029, 8029); (8031, 8061); (8064, 8116); (8118, 8124); (8126, 8126); (8130, 8132);
    (8134, 8140); (8144, 8147); (8150, 8155); (8160, 8172); (8178, 8180); (8182, 8188);
    (8305, 8305); (8319, 8319); (8336, 8348); (8450, 8450); (8455, 8455); (8458, 8467);
    (8469, 8469); (8473, 8477); (8484, 8484); (8486, 8486); (8488, 8488); (8490, 8493);
    (8495, 8500); (8505, 8505); (8508, 8511); (8517, 8521); (8526, 8526); (8544, 8575);
    (8579, 8580); (9398, 9449); (11264, 11492); (11499, 11502); (11506, 11507);
    (11520, 11557); (11559, 11559); (11565, 11565); (42560, 42605); (42624, 42653);
    (42786, 42887); (42891, 42894); (42896, 42954); (42960, 42961); (42963, 42963);
    (42965, 42969); (42997, 42998); (43000, 43002); (43824, 43866); (43868, 43880);
    (43888, 43967); (64256, 64262); (64275, 64279); (65313, 65338); (65345, 65370);
    (66560, 66639); (66736, 66771); (66776, 66811); (66928, 66938); (66940, 66954);
    (66956, 66962); (66964, 66965); (66967, 66977); (66979, 66993); (66995, 67001);
    (67003, 67004); (67456, 67456); (67459, 67461); (67463, 67504); (67506, 67514);
    (68736, 68786); (68800, 68850); (71840, 71903); (93760, 93823); (119808, 119892);
    (119894, 119964); (119966, 119967); (119970, 119970); (119973, 119974);
    (119977, 119980); (119982, 119993); (119995, 119995); (119997, 120003);
    (120005, 120069); (120071, 120074); (120077, 120084); (120086, 120092);
    (120094, 120121); (120123, 120126); (120128, 120132); (120134, 120134);
    (120138, 120144); (120146, 120485); (120488, 120512); (120514, 120538);
    (120540, 120570); (120572, 120596); (120598, 120628); (120630, 120654);
    (120656, 120686); (120688, 120712); (120714, 120744); (120746, 120770);
    (120772, 120779); (122624, 122633); (122635, 122654); (125184, 125251);
    (127280, 127305); (127312, 127337); (127344, 127369) ]%N.

Definition CASE_IGNORABLE : list (N * N) :=
  [
    (39, 39); (46, 46); (58, 58); (94, 94); (96, 96); (168, 168); (173, 173);
    (175, 175); (180, 180); (183, 184); (688, 879); (884, 885); (890, 890); (900, 901);
    (903, 903); (1155, 1161); (1369, 1369); (1375, 1375); (1425, 1469); (1471, 1471);
    (1473, 1474); (1476, 1477); (1479, 1479); (1524, 1524); (1536, 1541); (1552, 1562);
    (1564, 1564); (1600, 1600); (1611, 1631); (1648, 1648); (1750, 1757); (1759, 1768);
    (1770, 1773); (1807, 1807); (1809, 1809); (1840, 1866); (1958, 1968); (2027, 2037);
    (2042, 2042); (2045, 2045); (2070, 2093); (2137, 2139); (2184, 2184); (2192, 2193);
    (2200, 2207); (2249, 2306); (2362, 2362); (2364, 2364); (2369, 2376); (2381, 2381);
    (2385, 2391); (2402, 2403); (2417, 2417); (2433, 2433); (2492, 2492); (2497, 2500);
    (2509, 2509); (2530, 2531); (2558, 2558); (2561, 2562); (2620, 2620); (2625, 2626);
    (2631, 2632); (2635, 2637); (2641, 2641); (2672, 2673); (2677, 2677); (2689, 2690);
    (2748, 2748); (2753, 2757); (2759, 2760); (2765, 2765); (2786, 2787); (2810, 2815);
    (2817, 2817); (2876, 2876); (2879, 2879); (2881, 2884); (2893, 2893); (2901, 2902);
    (2914, 2915); (2946, 2946); (3008, 3008); (3021, 3021); (3072, 3072); (3076, 3076);
    (3132, 3132); (3134, 3136); (3142, 3144); (3146, 3149); (3157, 3158); (3170, 3171);
    (3201, 3201); (3260, 3260); (3263, 3263); (3270, 3270); (3276, 3277); (3298, 3299);
    (3328, 3329); (3387, 3388); (3393, 3396); (3405, 3405); (3426, 3427); (3457, 3457);
    (3530, 3530); (3538, 3540); (3542, 3542); (3633, 3633); (3636, 3642); (3654, 3662);
    (3761, 3761); (3764, 3772); (3782, 3782); (3784, 3789); (3864, 3865); (3893, 3893);
    (3895, 3895); (3897, 3897); (3953, 3966); (3968, 3972); (3974, 3975); (3981, 3991);
    (3993, 4028); (4038, 4038); (4141, 4144); (4146, 4151); (4153, 4154); (4157, 4158);
    (4184, 4185); (4190, 4192); (4209, 4212); (4226, 4226); (4229, 4230); (4237, 4237);
    (4253, 4253); (4348, 4348); (4957, 4959); (5906, 5908); (5938, 5939); (5970, 5971);
    (6002, 6003); (6068, 6069); (6071, 6077); (6086, 6086); (6089, 6099); (6103, 6103);
    (6109, 6109); (6155, 6159); (6211, 6211); (6277, 6278); (6313, 6313); (6432, 6434);
    (6439, 6440); (6450, 6450); (6457, 6459); (6679, 6680); (6683, 6683); (6742, 6742);
    (6744, 6750); (6752, 6752); (6754, 6754); (6757, 6764); (6771, 6780); (6783, 6783);
    (6823, 6823); (6832, 6862); (6912, 6915); (6964, 6964); (6966, 6970); (6972, 6972);
    (6978, 6978); (7019, 7027); (7040, 7041); (7074, 7077); (7080, 7081); (7083, 7085);
    (7142, 7142); (7144, 7145); (7149, 7149); (7151, 7153); (7212, 7219); (7222, 7223);
    (7288, 7293); (7376, 7378); (7380, 7392); (7394, 7400); (7405, 7405); (7412, 7412);
    (7416, 7417); (7468, 7530); (7544, 7544); (7579, 7679); (8125, 8125); (8127, 8129);
    (8141, 8143); (8157, 8159); (8173, 8175); (8189, 8190); (8203, 8207); (8216, 8217);
    (8228, 8228); (8231, 8231); (8234, 8238); (8288, 8292); (8294, 8303); (8305, 8305);
    (8319, 8319); (8336, 8348); (8400, 8432); (11388, 11389); (11503, 11505);
    (11631, 11631); (11647, 11647); (11744, 11775); (11823, 11823); (12293, 12293);
    (12330, 12333); (12337, 12341); (12347, 12347); (12441, 12446); (12540, 12542);
    (40981, 40981); (42232, 42237); (42508, 42508); (42607, 42610); (42612, 42621);
    (42623, 42623); (42652, 42655); (42736, 42737); (42752, 42785); (42864, 42864);
    (42888, 42890); (42994, 42996); (43000, 43001); (43010, 43010); (43014, 43014);
    (43019, 43019); (43045, 43046); (43052, 43052); (43204, 43205); (43232, 43249);
    (43263, 43263); (43302, 43309); (43335, 43345); (43392, 43394); (43443, 43443);
    (43446, 43449); (43452, 43453); (43471, 43471); (43493, 43494); (43561, 43566);
    (43569, 43570); (43573, 43574); (43587, 43587); (43596, 43596); (43632, 43632);
    (43644, 43644); (43696, 43696); (43698, 43700); (43703, 43704); (43710, 43711);
    (43713, 43713); (43741, 43741); (43756, 43757); (43763, 43764); (43766, 43766);
    (43867, 43871); (43881, 43883); (44005, 44005); (44008, 44008); (44013, 44013);
    (64286, 64286); (64434, 64450); (65024, 65039); (65043, 65043); (65056, 65071);
    (65106, 65106); (65109, 65109); (65279, 65279); (65287, 65287); (65294, 65294);
    (65306, 65306); (65342, 65342); (65344, 65344); (65392, 65392); (65438, 65439);
    (65507, 65507); (65529, 65531); (66045, 66045); (66272, 66272); (66422, 66426);
    (67456, 67461); (67463, 67504); (67506, 67514); (68097, 68099); (68101, 68102);
    (68108, 68111); (68152, 68154); (68159, 68159); (68325, 68326); (68900, 68903);
    (69291, 69292); (69446, 69456); (69506, 69509); (69633, 69633); (69688, 69702);
    (69744, 69744); (69747, 69748); (69759, 69761); (69811, 69814); (69817, 69818);
    (69821, 69821); (69826, 69826); (69837, 69837); (69888, 69890); (69927, 69931);
    (69933, 69940); (70003, 70003); (70016, 70017); (70070, 70078); (70089, 70092);
    (70095, 70095); (70191, 70193); (70196, 70196); (70198, 70199); (70206, 70206);
    (70367, 70367); (70371, 70378); (70400, 70401); (70459, 70460); (70464, 70464);
    (70502, 70508); (70512, 70516); (70712, 70719); (70722, 70724); (70726, 70726);
    (70750, 70750); (70835, 70840); (70842, 70842); (70847, 70848); (70850, 70851);
    (71090, 71093); (71100, 71101); (71103, 71104); (71132, 71133); (71219, 71226);
    (71229, 71229); (71231, 71232); (71339, 71339); (71341, 71341); (71344, 71349);
    (71351, 71351); (71453, 71455); (71458, 71461); (71463, 71467); (71727, 71735);
    (71737, 71738); (71995, 71996); (71998, 71998); (72003, 72003); (72148, 72151);
    (72154, 72155); (72160, 72160); (72193, 72202); (72243, 72248); (72251, 72254);
    (72263, 72263); (72273, 72278); (72281, 72283); (72330, 72342); (72344, 72345);
    (72752, 72758); (72760, 72765); (72767, 72767); (72850, 72871); (72874, 72880);
    (72882, 72883); (72885, 72886); (73009, 73014); (73018, 73018); (73020, 73021);
    (73023, 73029); (73031, 73031); (73104, 73105); (73109, 73109); (73111, 73111);
    (73459, 73460); (78896, 78904); (92912, 92916); (92976, 92982); (92992, 92995);
    (94031, 94031); (94095, 94111); (94176, 94177); (94179, 94180); (110576, 110579);
    (110581, 110587); (110589, 110590); (113821, 113822); (113824, 113827);
    (118528, 118573); (118576, 118598); (119143, 119145); (119155, 119170);
    (119173, 119179); (119210, 119213); (119362, 119364); (121344, 121398);
    (121403, 121452); (121461, 121461); (121476, 121476); (121499, 121503);
    (121505, 121519); (122880, 122886); (122888, 122904); (122907, 122913);
    (122915, 122916); (122918, 122922); (123184, 123197); (123566, 123566);
    (123628, 123631); (125136, 125142); (125252, 125259); (127995, 127999);
    (917505, 917505); (917536, 917631); (917760, 917999) ]%N.

End Unicode.

(** ** Characters and strings *)

Module Py.

(** A character is its code point; a [str] is the list of its characters. *)
Abbreviation char := N (only parsing).
Abbreviation str := (list N) (only parsing).

(** An ASCII literal read as a Python [str]. *)
Definition py (lit : string) : str := map N_of_ascii (list_ascii_of_string lit).

Definition chr (n : N) : char := n.

Definition LF : char := chr 10.
Definition CR : char := chr 13.
Definition SP : char := chr 32.
Definition PLUS : char := chr 43.
Definition PERCENT : char := chr 37.
Definition SLASH : char := chr 47.
Definition DQ : char := chr 34.

(** [c.isspace()] *)
Definition isspace (c : char) : bool := existsb (N.eqb c) Unicode.WHITESPACE.

Fixpoint drop_while (f : char -> bool) (x : str) : str :=
  match x with
  | c :: t => if f c then drop_while f t else x
  | [] => []
  end.

(** Looking a code point up in a table sorted by code point. *)
Fixpoint assoc (c : char) (table : list (N * list N)) : option (list N) :=
  match table with
  | [] => None
  | (k, v) :: rest =>
      if (c =? k)%N then Some v
      else if (c <? k)%N then None
      else assoc c rest
  end.

Fixpoint in_ranges (c : char) (ranges : list (N * N)) : bool :=
  match ranges with
  | [] => false
  | (lo, hi) :: rest =>
      if (c <? lo)%N then false
      else if (c <=? hi)%N then true
      else in_ranges c rest
  end.

(** The full lowercase mapping of one code point ([_PyUnicode_ToLowerFull]). *)
Definition to_lower_full (c : char) : str :=
  match assoc c Unicode.LOWER with
  | Some v => v
  | None => [c]
  end.

Definition is_cased (c : char) : bool := in_ranges c Unicode.CASED.
Definition is_case_ignorable (c : char) : bool := in_ranges c Unicode.CASE_IGNORABLE.

Definition CAPITAL_SIGMA : char := chr 931.
Definition SMALL_SIGMA : char := chr 963.
Definition SMALL_FINAL_SIGMA : char := chr 962.

(** The capital sigma is in final position when a cased character comes
    before it and none after it, case-ignorable characters skipped on both
    sides.  [before] is the text before the sigma, nearest character first;
    [after] is the text after it. *)
Definition final_sigma (before after : str) : bool :=
  match drop_while is_case_ignorable before with
  | c :: _ =>
      is_cased c
      && match drop_while is_case_ignorable after with
         | d :: _ => negb (is_cased d)
         | [] => true
         end
  | [] => false
  end.

(** [s.lower()]: every character is replaced by its lowercase mapping, the
    capital sigma by the final or the non-final small sigma. *)
Fixpoint lower_go (before : str) (x : str) : str :=
  match x with
  | [] => []
  | c :: t =>
      (if decide (c = CAPITAL_SIGMA)
       then [if final_sigma before t then SMALL_FINAL_SIGMA else SMALL_SIGMA]
       else to_lower_full c)
      ++ lower_go (c :: before) t
  end.

Definition lower (x : str) : str := lower_go [] x.

(** [s.lstrip()], [s.rstrip()], [s.strip()] with no argument. *)
Fixpoint lstrip (x : str) : str :=
  match x with
  | c :: t => if isspace c then lstrip t else x
  | [] => []
  end.

Fixpoint rstrip (x : str) : str :=
  match x with
  | [] => []
  | c :: t =>
      match rstrip t with
      | [] => if isspace c then [] else [c]
      | t' => c :: t'
      end
  end.

Definition strip (x : str) : str := rstrip (lstrip x).

(** [s.split()] with no argument: the maximal runs of non-whitespace
    characters, in order.  [cur] is the word being read, reversed. *)
Fixpoint split_go (cur : str) (x : str) : list str :=
  match x with
  | [] => match cur with [] => [] | _ => [rev cur] end
  | c :: t =>
      if isspace c
      then match cur with
           | [] => split_go [] t
           | _ => rev cur :: split_go [] t
           end
      else split_go (c :: cur) t
  end.

Definition split (x : str) : list str := split_go [] x.

Definition nonspace (c : char) : Prop := isspace c = false.

(** A word, as [split] produces them: not empty, no whitespace in it. *)
Definition is_word (w : str) : Prop := w <> [] /\ Forall nonspace w.

(** [sep.join(parts)] *)
Fixpoint join (sep : str) (parts : list str) : str :=
  match parts with
  | [] => []
  | [w] => w
  | w :: rest => w ++ sep ++ join sep rest
  end.

(** [s.replace(old, new)] for a one-character [old]. *)
Definition replace1 (old : char) (new : str) (x : str) : str :=
  flat_map (fun c => if decide (c = old) then new else [c]) x.

(** [os.path.dirname] (posixpath): the part up to the last slash, its
    trailing slashes dropped unless it consists of slashes only. *)
Definition all_slashes (x : str) : bool := forallb (fun c => bool_decide (c = SLASH)) x.

Definition dirname (p : str) : str :=
  let head := rev (drop_while (fun c => negb (bool_decide (c = SLASH))) (rev p)) in
  if all_slashes head then head
  else rev (drop_while (fun c => bool_decide (c = SLASH)) (rev head)).

(** [s.splitlines()]: the lines of [s], cut at LF, CR, CR LF, VT, FF, FS, GS,
    RS, NEL, LS and PS; no empty last line. *)
Definition is_linebreak (c : char) : bool := existsb (N.eqb c) Unicode.LINEBREAK.

Fixpoint splitlines_go (cur : str) (x : str) : list str :=
  match x with
  | [] => match cur with [] => [] | _ => [rev cur] end
  | c :: t =>
      if is_linebreak c then
        rev cur ::
          match t with
          | c' :: t' =>
              if bool_decide (c = CR) && bool_decide (c' = LF)
              then splitlines_go [] t' else splitlines_go [] t
          | [] => splitlines_go [] t
          end
      else splitlines_go (c :: cur) t
  end.

Definition splitlines (x : str) : list str := splitlines_go [] x.

(** [s.endswith(suffix)] *)
Definition endswith (x suffix : str) : bool := bool_decide (suffix `suffix_of` x).

End Py.

Import Py.

(** ** Exceptions and results *)

Inductive exn : Type :=
| ValueError (msg : string)
| KeyError (key : string)
| AttributeError (msg : string)
| OSError (msg : string)
| HubError (msg : string)
| SystemExit (code : Z).

Inductive result (A : Type) : Type :=
| Ok (a : A)
| Raise (e : exn).
Arguments Ok {A} a.
Arguments Raise {A} e.

(** ** [metamaska/utils.py] *)

Module utils.

Definition hex_val (c : char) : option N :=
  if ((48 <=? c) && (c <=? 57))%N then Some (c - 48)%N
  else if ((65 <=? c) && (c <=? 70))%N then Some (c - 55)%N
  else if ((97 <=? c) && (c <=? 102))%N then Some (c - 87)%N
  else None.

(** What one left-to-right pass over the [%XX] escapes reads: a ['%']
    followed by two hexadecimal digits is an escaped byte, any other
    character, a ['%'] included, stands for itself. *)
Inductive token : Type :=
| Raw (c : char)
| Esc (byte : N).

Fixpoint tokenize (x : str) : list token :=
  match x with
  | [] => []
  | c :: t =>
      if decide (c = PERCENT) then
        match t with
        | h :: l :: rest =>
            match hex_val h, hex_val l with
            | Some a, Some b => Esc (16 * a + b) :: tokenize rest
            | _, _ => Raw c :: tokenize t
            end
        | _ => Raw c :: tokenize t
        end
      else Raw c :: tokenize t
  end.

(** U+FFFD, which stands for bytes that are not UTF-8. *)
Definition REPLACEMENT : char := chr 65533.

(** Decoding escaped bytes as UTF-8 with [errors='replace'].  Between two
    characters the decoder is [Idle]; inside a sequence it has read a lead
    byte and perhaps continuation bytes, [need] more are to come, [acc]
    holds the bits read so far, and the next byte has to lie in [lo..hi]
    (which rules out overlong forms, surrogates and code points above
    U+10FFFF). *)
Inductive utf8_state : Type :=
| Idle
| Pending (need : nat) (acc lo hi : N).

(** A sequence cut short is replaced by one U+FFFD. *)
Definition flush (st : utf8_state) : str :=
  match st with
  | Idle => []
  | Pending _ _ _ _ => [REPLACEMENT]
  end.

(** A byte read when no sequence is open: what it emits, and the state. *)
Definition lead (b : N) : str * utf8_state :=
  if (b <? 128)%N then ([b], Idle)
  else if (b <? 194)%N then ([REPLACEMENT], Idle)
  else if (b <? 224)%N then ([], Pending 1 (b - 192) 128 191)
  else if (b <? 240)%N then
    ([], Pending 2 (b - 224) (if (b =? 224)%N then 160 else 128)%N
                             (if (b =? 237)%N then 159 else 191)%N)
  else if (b <? 245)%N then
    ([], Pending 3 (b - 240) (if (b =? 240)%N then 144 else 128)%N
                             (if (b =? 244)%N then 143 else 191)%N)
  else ([REPLACEMENT], Idle).

(** A byte read inside a sequence, when it continues the sequence. *)
Definition continue (st : utf8_state) (b : N) : option (str * utf8_state) :=
  match st with
  | Idle => None
  | Pending need acc lo hi =>
      if ((lo <=? b) && (b <=? hi))%N then
        let acc := (acc * 64 + (b - 128))%N in
        match need with
        | S (S n) => Some ([], Pending (S n) acc 128 191)
        | _ => Some ([acc], Idle)
        end
      else None
  end.

Fixpoint utf8_decode (st : utf8_state) (ts : list token) : str :=
  match ts with
  | [] => flush st
  | Raw c :: rest => flush st ++ c :: utf8_decode Idle rest
  | Esc b :: rest =>
      match continue st b with
      | Some (out, st') => out ++ utf8_decode st' rest
      | None =>
          let '(out, st') := lead b in
          flush st ++ out ++ utf8_decode st' rest
      end
  end.

(** Modelled from the spec: [metamaska.utils.unquote] is not among the source
    files.  Section 4.1 step 1: a single decode pass over [%XX] escape
    sequences and ['+']-as-space, following standard URL-decoding semantics,
    malformed escapes passing through unchanged; that is
    [urllib.parse.unquote_plus]: ['+'] is replaced first (so [%2B] yields a
    literal ['+']), then the escaped bytes are decoded as UTF-8, U+FFFD
    standing for bytes that are not. *)
Definition unquote (text : str) : str :=
  utf8_decode Idle (tokenize (replace1 PLUS [SP] text)).

(** Modelled from the spec: [metamaska.utils.remove_new_line] is not among the
    source files.  Section 4.1 step 2: every LF and CR is removed, nothing is
    put in its place. *)
Definition remove_new_line (text : str) : str :=
  replace1 CR [] (replace1 LF [] text).

(** Modelled from the spec: [metamaska.utils.remove_whitespace] is not among
    the source files.  Section 4.1 step 4: leading and trailing whitespace is
    stripped and every inner run of whitespace becomes one space, which is
    [" ".join(text.split())]. *)
Definition remove_whitespace (text : str) : str :=
  join [SP] (split text).

End utils.

Import utils.

(** ** Programs with external calls

    A program either returns, raises, or calls the outside world ([Vis]) and
    continues with the answer.  [E X] is the type of calls answered by an [X]. *)

Inductive prog (E : Type -> Type) (R : Type) : Type :=
| Ret (r : R)
| Throw (e : exn)
| Vis {X : Type} (c : E X) (k : X -> prog E R).
Arguments Ret {E R} r.
Arguments Throw {E R} e.
Arguments Vis {E R X} c k.

Fixpoint bind {E A B} (m : prog E A) (f : A -> prog E B) : prog E B :=
  match m with
  | Ret r => f r
  | Throw e => Throw e
  | Vis c k => Vis c (fun x => bind (k x) f)
  end.

Definition call {E X} (c : E X) : prog E X := Vis c Ret.

#[global] Instance prog_ret {E} : MRet (prog E) := fun _ r => Ret r.
#[global] Instance prog_bind {E} : MBind (prog E) := fun _ _ f m => bind m f.

(** [for x in xs: acc = body(acc, x)] *)
Fixpoint for_each {E A B} (xs : list A) (acc : B) (body : B -> A -> prog E B) : prog E B :=
  match xs with
  | [] => Ret acc
  | x :: rest => acc' ← body acc x; for_each rest acc' body
  end.

(** One entry of a run's trace: the call made and what the world answered. *)
Inductive entry (E : Type -> Type) : Type :=
| Called {X : Type} (c : E X) (r : result X).
Arguments Called {E X} c r.

(** The outside world: a state [W] and, for every call, an answer (a value
    or an exception) and the state after it. *)
Definition handler (E : Type -> Type) (W : Type) : Type :=
  forall X, E X -> W -> result X * W.

Fixpoint run {E W R} (h : handler E W) (m : prog E R) (w : W)
  : result R * W * list (entry E) :=
  match m with
  | Ret r => (Ok r, w, [])
  | Throw e => (Raise e, w, [])
  | Vis c k =>
      match h _ c w with
      | (Ok x, w') =>
          let '(r, w'', tr) := run h (k x) w' in (r, w'', Called c (Ok x) :: tr)
      | (Raise e, w') => (Raise e, w', [Called c (Raise e)])
      end
  end.

(** ** [metamaska/payload_classifier.py]: the artifact loader and the wrapper *)

Module payload_classifier.

Definition HF_REPO_ID : str := py "happyhackingspace/metamaska".
Definition HF_FILENAME : str := py "models/payload_clf.joblib".

(** The fitted scikit-learn pipeline stored in the model file, as far as the
    wrapper uses it: [classes_], [predict] and [predict_proba], the last two
    on a batch of texts.  Probabilities are rationals. *)
Record Pipeline : Type := {
  pipe_classes_ : list str;
  pipe_predict : list str -> result (list str);
  pipe_predict_proba : list str -> result (list (list Q))
}.

(** The specification's [InvalidInputError] is the [ValueError] that
    [_transform] raises, and its [ArtifactUnavailableError] for a missing path
    the [ValueError] that [_ensure_model] raises. *)
Definition InvalidInputError : exn := ValueError "payload is required.".
Definition ArtifactUnavailableError : exn :=
  ValueError "payload clf model file doesn't exist".

(** What the loader and the constructor ask of the outside world. *)
Inductive loadE : Type -> Type :=
| IsFile (path : str) : loadE bool                         (* os.path.isfile *)
| Makedirs (path : str) (exist_ok : bool) : loadE unit     (* os.makedirs *)
| HfHubDownload (repo_id filename local_dir : str) : loadE str
| JoblibLoad (path : str) : loadE Pipeline.

(** [_ensure_model(path)]; [None] is Python's [None]. *)
Definition _ensure_model (path : option str) : prog loadE str :=
  match path with
  | None | Some [] => Throw ArtifactUnavailableError
  | Some path =>
      present ← call (IsFile path);
      if (present : bool) then Ret path
      else
        call (Makedirs (dirname path) true);;
        call (HfHubDownload HF_REPO_ID HF_FILENAME (dirname (dirname path)))
  end.

(** [PayloadClassifier._transform].  The argument is [None] when the caller
    passes Python's [None]; [not payload] holds for [None] and for the empty
    string. *)
Definition _transform (payload : option str) : result str :=
  match payload with
  | None | Some [] => Raise InvalidInputError
  | Some p =>
      let p := unquote p in
      let p := remove_new_line p in
      let p := lower p in
      let p := remove_whitespace p in
      Ok p
  end.

Record PayloadClassifier : Type := {
  payload_clf : Pipeline;
  classes_ : list str
}.

(** [PayloadClassifier.__init__]; a caller that gives no file name passes
    [DEFAULT_LOCATION], the model file next to the module. *)
Definition __init__ (payload_clf_filename : option str) : prog loadE PayloadClassifier :=
  model_path ← _ensure_model payload_clf_filename;
  clf ← call (JoblibLoad model_path);
  Ret {| payload_clf := clf; classes_ := pipe_classes_ clf |}.

(** [PayloadClassifier.predict] *)
Definition predict (self : PayloadClassifier) (payload : option str) : result (list str) :=
  match _transform payload with
  | Raise e => Raise e
  | Ok payload => pipe_predict (payload_clf self) [payload]
  end.

(** [PayloadClassifier.predict_proba] *)
Definition predict_proba (self : PayloadClassifier) (payload : option str)
  : result (list (list Q)) :=
  match _transform payload with
  | Raise e => Raise e
  | Ok payload => pipe_predict_proba (payload_clf self) [payload]
  end.

End payload_classifier.

Import payload_classifier.

(** ** The normaliser in the words of the specification (section 4.1)

    What the steps are measured against: hexadecimal digits, percent-encoding
    and UTF-8 encoding as the standards give them, and steps 2 and 4 written
    as one scan of the text. *)

Module spec.

Definition HEX_UPPER : str := py "0123456789ABCDEF".
Definition HEX_LOWER : str := py "0123456789abcdef".

(** [c] is a hexadecimal digit of value [v], in either case. *)
Definition hexdigit (c : char) (v : N) : Prop :=
  nth_error HEX_UPPER (N.to_nat v) = Some c
  \/ nth_error HEX_LOWER (N.to_nat v) = Some c.

(** The text begins with two hexadecimal digits. *)
Definition two_hexdigits (y : str) : Prop :=
  exists h l rest a b, y = h :: l :: rest /\ hexdigit h a /\ hexdigit l b.

(** The escape [%XX] of a byte (RFC 3986, section 2.1). *)
Definition escape (b : N) : str :=
  [PERCENT; nth (N.to_nat (b / 16)) HEX_UPPER 0%N; nth (N.to_nat (b mod 16)) HEX_UPPER 0%N].

(** A Unicode scalar value: a code point that is not a surrogate. *)
Definition scalar (cp : N) : Prop :=
  (cp < 55296 \/ 57343 < cp < 1114112)%N.

(** The UTF-8 encoding of a scalar value (RFC 3629, section 3). *)
Definition utf8_encode (cp : N) : list N :=
  if (cp <? 128)%N then [cp]
  else if (cp <? 2048)%N then [192 + cp / 64; 128 + cp mod 64]%N
  else if (cp <? 65536)%N then
    [224 + cp / 4096; 128 + (cp / 64) mod 64; 128 + cp mod 64]%N
  else [240 + cp / 262144; 128 + (cp / 4096) mod 64;
        128 + (cp / 64) mod 64; 128 + cp mod 64]%N.

(** A character written as the escapes of its UTF-8 bytes. *)
Definition percent_encode (cp : N) : str := flat_map escape (utf8_encode cp).

(** Step 2: LF and CR are dropped. *)
Definition strip_newlines (x : str) : str :=
  List.filter (fun c => negb (bool_decide (c = LF)) && negb (bool_decide (c = CR))) x.

(** Step 4: inside the stripped text, the first character of a whitespace run
    becomes one space and the rest of the run is dropped. *)
Fixpoint collapse_runs (in_run : bool) (x : str) : str :=
  match x with
  | [] => []
  | c :: t =>
      if isspace c
      then if in_run then collapse_runs true t else SP :: collapse_runs true t
      else c :: collapse_runs false t
  end.

Definition collapse_whitespace (x : str) : str := collapse_runs false (strip x).

End spec.

(** ** [argmax] over a row of probabilities *)

(** [np.argmax(row)]: the index of the first largest entry. *)
Fixpoint argmax_from (i best_i : nat) (best : Q) (row : list Q) : nat :=
  match row with
  | [] => best_i
  | q :: rest =>
      if Qle_bool q best
      then argmax_from (S i) best_i best rest
      else argmax_from (S i) i q rest
  end.

Definition argmax (row : list Q) : option nat :=
  match row with
  | [] => None
  | q :: rest => Some (argmax_from 1 0 q rest)
  end.

(** [classes_[np.argmax(row)]] *)
Definition argmax_label (classes : list str) (row : list Q) : option str :=
  match argmax row with
  | Some i => nth_error classes i
  | None => None
  end.

(** A pipeline whose [predict] is, on the batch [X], the argmax label of each
    row of its own [predict_proba]. *)
Definition predict_is_argmax (clf : Pipeline) (X : list str) : Prop :=
  exists rows,
    pipe_predict_proba clf X = Ok rows
    /\ exists labels, pipe_predict clf X = Ok labels
         /\ map Some labels = map (argmax_label (pipe_classes_ clf)) rows.

(** ** A small world for the loader: a set of files, a set of directories and
    the files a remote hub offers. *)

Module loader_world.

Record world : Type := {
  files : list str;
  dirs : list str;
  hub : list (str * str);
  stored : list (str * Pipeline)
}.

Definition os : handler loadE world :=
  fun X c w =>
    match c in loadE X return result X * world with
    | IsFile p => (Ok (bool_decide (p ∈ files w)), w)
    | Makedirs d _ =>
        if decide (d = []) then (Raise (OSError "FileNotFoundError"), w)
        else (Ok tt, {| files := files w; dirs := d :: dirs w;
                        hub := hub w; stored := stored w |})
    | HfHubDownload repo name dir =>
        if bool_decide ((repo, name) ∈ hub w)
        then (Ok (dir ++ SLASH :: name),
              {| files := (dir ++ SLASH :: name) :: files w; dirs := dirs w;
                 hub := hub w; stored := stored w |})
        else (Raise (HubError "EntryNotFoundError"), w)
    | JoblibLoad p =>
        match list_find (fun e => e.1 = p) (stored w) with
        | Some (_, (_, clf)) => (Ok clf, w)
        | None => (Raise (OSError "FileNotFoundError"), w)
        end
    end.

End loader_world.

(** ** Records of the dataset ([scripts/collect_data.py], [Record]) *)

Record LabeledRecord : Type := {
  pattern : str;
  type_ : str
}.

#[global] Instance LabeledRecord_eq_dec : EqDecision LabeledRecord.
Proof. solve_decision. Defined.

(** [VALID_TYPES] *)
Definition VALID_TYPES : list str :=
  [py "valid"; py "sqli"; py "xss"; py "cmdi"; py "path-traversal"].

Inductive level : Type := INFO | WARNING | ERROR | DEBUG.

(** ** [scripts/train.py] *)

Module train.

(** Paths, relative to [REPO_ROOT]. *)
Definition DATASET_PATH : str := py "data/processed/dataset.json".
Definition MODEL_DIR : str := py "metamaska/models".
Definition MODEL_PATH : str := py "metamaska/models/payload_clf.joblib".

Record TfidfParams : Type := {
  input : string; lowercase : bool; analyzer : string;
  max_features : Z; ngram_range : Z * Z
}.
Record SvcParams : Type := { C : Z; kernel : string; probability : bool }.

Definition TFIDF_PARAMS : TfidfParams :=
  {| input := "content"; lowercase := true; analyzer := "char";
     max_features := 1024; ngram_range := (1, 4)%Z |}.
Definition SVC_PARAMS : SvcParams :=
  {| C := 10; kernel := "rbf"; probability := true |}.
Definition TEST_SIZE : Q := 25 # 100.
Definition RANDOM_STATE : Z := 42.
Definition MIN_ACCURACY : Q := 98 # 100.

(** [a < b] on the rationals standing for Python floats. *)
Definition Qlt_bool (a b : Q) : bool := negb (Qle_bool b a).

Section Main.
(** The fitted pipeline, whatever scikit-learn makes it. *)
Context {Model : Type}.

(** The calls [main] makes: the file system, pandas, scikit-learn, joblib
    and the logger. *)
Inductive trainE : Type -> Type :=
| PathExists (p : str) : trainE bool
| ReadJson (p : str) (orient : string) : trainE (list LabeledRecord)
| Log (lvl : level) (fmt : string) : trainE unit
| TrainTestSplit (X y : list str) (test_size : Q) (random_state : Z)
                 (stratify : list str)
    : trainE (list str * list str * list str * list str)
| Fit (tfidf : TfidfParams) (svc : SvcParams) (X y : list str) : trainE Model
| Score (pipe : Model) (X y : list str) : trainE Q
| Predict (pipe : Model) (X : list str) : trainE (list str)
| ClassificationReport (y_true y_pred : list str) : trainE string
| Mkdir (p : str) (parents exist_ok : bool) : trainE unit
| JoblibDump (pipe : Model) (p : str) (protocol compress : Z) : trainE unit.

(** [df[name]] for one of the two columns: a frame read from an empty
    array has no columns at all. *)
Definition column (df : list LabeledRecord) (name : string)
           (field : LabeledRecord -> str) : prog trainE (list str) :=
  match df with
  | [] => Throw (KeyError name)
  | _ => Ret (map field df)
  end.

(** [main()].  A [Log] call carries the format string as the source writes
    it, without its arguments. *)
Definition main : prog trainE unit :=
  present ← call (PathExists DATASET_PATH);
  if negb present then
    call (Log ERROR "Dataset not found at %s");;
    call (Log ERROR "Run 'make collect-data' first.");;
    Throw (SystemExit 1)
  else
    call (Log INFO "Loading dataset from %s");;
    df ← call (ReadJson DATASET_PATH "records");
    _ ← column df "type" type_;
    call (Log INFO "  %d records, types: %s");;
    X ← column df "pattern" pattern;
    y ← column df "type" type_;
    call (Log INFO "Splitting %d records (test_size=%.0f%%)");;
    '(train_x, test_x, train_y, test_y) ←
      call (TrainTestSplit X y TEST_SIZE RANDOM_STATE y);
    call (Log INFO "Training pipeline: TfidfVectorizer(char 1-4) → SVC(C=10, rbf)");;
    pipe ← call (Fit TFIDF_PARAMS SVC_PARAMS train_x train_y);
    train_acc ← call (Score pipe train_x train_y);
    test_acc ← call (Score pipe test_x test_y);
    call (Log INFO "  Train accuracy: %.4f");;
    call (Log INFO "  Test accuracy:  %.4f");;
    preds ← call (Predict pipe test_x);
    report ← call (ClassificationReport test_y preds);
    call (Log INFO "\n%s");;
    if Qlt_bool test_acc MIN_ACCURACY then
      call (Log ERROR "Test accuracy %.4f is below minimum threshold %.4f — aborting.");;
      Throw (SystemExit 1)
    else
      call (Mkdir MODEL_DIR true true);;
      call (JoblibDump pipe MODEL_PATH 2 3);;
      call (Log INFO "Model saved to %s").

(** *** Reading a trace of [main] *)

Definition answered (e : entry trainE) : bool :=
  match e with
  | Called _ (Ok _) => true
  | Called _ (Raise _) => false
  end.

Definition score_of (e : entry trainE) : option Q :=
  match e with
  | Called c r =>
      match c in trainE X return result X -> option Q with
      | Score _ _ _ => fun r => match r with Ok a => Some a | Raise _ => None end
      | _ => fun _ => None
      end r
  end.

(** The accuracies [pipe.score] returned, in call order: the training
    accuracy first, the held-out test accuracy second. *)
Definition scores (tr : list (entry trainE)) : list Q := omap score_of tr.

Definition test_accuracy (tr : list (entry trainE)) : option Q :=
  nth_error (scores tr) 1.

(** Calls that change the disk. *)
Definition is_write (e : entry trainE) : bool :=
  match e with
  | Called c _ =>
      match c with
      | Mkdir _ _ _ | JoblibDump _ _ _ _ => true
      | _ => false
      end
  end.

(** Calls into scikit-learn that split or fit. *)
Definition is_split_or_fit (e : entry trainE) : bool :=
  match e with
  | Called c _ =>
      match c with
      | TrainTestSplit _ _ _ _ _ | Fit _ _ _ _ => true
      | _ => false
      end
  end.

Definition dataset_read (e : entry trainE) : option (list LabeledRecord) :=
  match e with
  | Called c r =>
      match c in trainE X return result X -> option (list LabeledRecord) with
      | ReadJson _ _ => fun r => match r with Ok ds => Some ds | Raise _ => None end
      | _ => fun _ => None
      end r
  end.

Definition dataset_of (tr : list (entry trainE)) : option (list LabeledRecord) :=
  head (omap dataset_read tr).

Definition exists_answer (e : entry trainE) : option bool :=
  match e with
  | Called c r =>
      match c in trainE X return result X -> option bool with
      | PathExists _ => fun r => match r with Ok b => Some b | Raise _ => None end
      | _ => fun _ => None
      end r
  end.

(** What [DATASET_PATH.exists()] answered. *)
Definition dataset_present (tr : list (entry trainE)) : option bool :=
  head (omap exists_answer tr).

Definition GATE_MESSAGE : string :=
  "Test accuracy %.4f is below minimum threshold %.4f — aborting.".

End Main.
Arguments trainE : clear implicits.

End train.

(** ** [scripts/collect_data.py] *)

Module collect_data.

Definition OUTPUT_DIR : str := py "data/processed".
Definition OUTPUT_FILE : str := py "data/processed/dataset.json".
Definition MAX_LINES_PER_FILE : nat := 5000.

(** [_make_record]: [None] when the stripped pattern is empty or the type is
    not one of [VALID_TYPES]. *)
Definition _make_record (pattern : str) (type_ : str) : option LabeledRecord :=
  let pattern := strip pattern in
  if bool_decide (pattern = []) || negb (bool_decide (type_ ∈ VALID_TYPES))
  then None
  else Some {| pattern := pattern; type_ := type_ |}.

(** [rec = _make_record(...); if rec: records.append(rec)] *)
Definition append_record (records : list LabeledRecord) (pattern type_ : str)
  : list LabeledRecord :=
  match _make_record pattern type_ with
  | Some rec => records ++ [rec]
  | None => records
  end.

Definition HTTPPARAMS_CSV_URL : str :=
  py "https://raw.githubusercontent.com/Morzeux/HttpParamsDataset/master/payload_full.csv".
Definition PATT_REPO : str := py "swisskyrepo/PayloadsAllTheThings".
Definition PATT_DIRS : list (str * str) :=
  [ (py "SQL Injection/Intruder", py "sqli");
    (py "XSS Injection/Intruders", py "xss");
    (py "Command Injection/Intruder", py "cmdi");
    (py "Directory Traversal/Intruder", py "path-traversal") ].
Definition GITHUB_API : str := py "https://api.github.com".

(** A row of [csv.DictReader]: a header name maps to the field, or to [None]
    (Python's [None], [restval]) when the line was too short. *)
Definition Row : Type := gmap string (option str).

(** An entry of a GitHub directory listing, as far as it is read. *)
Record Item : Type := { name : str; download_url : option str }.

(** A successful HTTP response: [resp.text] and [resp.json()]. *)
Record Response : Type := { text : str; json : list Item }.

(** The calls the collector makes.  [HttpGet] stands for a [get] followed by
    [raise_for_status] inside its [try]: the answer is [None] when a
    [RequestException] was caught.  [SparseCheckout] stands for the four
    [git] commands of one [try]: [false] when a [SubprocessError] or
    [FileNotFoundError] was caught. *)
Inductive collectE : Type -> Type :=
| HttpGet (url : str) (timeout : Z) : collectE (option Response)
| CsvDictReader (text : str) : collectE (list Row)
| TemporaryDirectory : collectE str
| SparseCheckout (repo : str) (tmp_path : str) (dirs : list str) : collectE bool
| IsDir (p : str) : collectE bool
| Glob (dir : str) (pat : string) : collectE (list str)
| ReadText (p : str) (errors : string) : collectE str
| Log (lvl : level) (fmt : string) : collectE unit
| Mkdir (p : str) (parents exist_ok : bool) : collectE unit
| WriteJson (p : str) (records : list LabeledRecord) (indent : Z)
            (ensure_ascii : bool) : collectE unit.

(** [row.get(key, "")] followed by a [str] method: a [None] field has none. *)
Definition row_get_str (row : Row) (key : string) : prog collectE str :=
  match row !! key with
  | None => Ret []
  | Some (Some v) => Ret v
  | Some None => Throw (AttributeError "'NoneType' object has no attribute 'strip'")
  end.

Definition type_map (label : str) : option str :=
  if decide (label = py "norm") then Some (py "valid")
  else if decide (label = py "sqli") then Some (py "sqli")
  else if decide (label = py "xss") then Some (py "xss")
  else None.

(** [collect_httpparams] *)
Definition collect_httpparams : prog collectE (list LabeledRecord) :=
  call (Log INFO "Collecting HttpParamsDataset …");;
  resp ← call (HttpGet HTTPPARAMS_CSV_URL 60);
  match resp with
  | None =>
      call (Log WARNING "HttpParamsDataset download failed: %s");;
      Ret []
  | Some resp =>
      rows ← call (CsvDictReader (text resp));
      records ← for_each rows [] (fun records row =>
        v ← row_get_str row "label";
        label ← match type_map (lower (strip v)) with
                | Some l => Ret (Some l)
                | None =>
                    v ← row_get_str row "attack_type";
                    Ret (type_map (lower (strip v)))
                end;
        match label with
        | None => Ret records
        | Some label =>
            payload ← row_get_str row "payload";
            Ret (append_record records payload label)
        end);
      call (Log INFO "  → %d records from HttpParamsDataset");;
      Ret records
  end.

(** [for line in lines[:MAX_LINES_PER_FILE]: ...] *)
Definition collect_lines (records : list LabeledRecord) (lines : list str)
           (type_ : str) : list LabeledRecord :=
  fold_left (fun records line => append_record records line type_)
            (take MAX_LINES_PER_FILE lines) records.

(** [_sparse_clone_patt] *)
Definition _sparse_clone_patt : prog collectE (list LabeledRecord) :=
  tmp ← call TemporaryDirectory;
  let tmp_path := tmp ++ py "/patt" in
  cloned ← call (SparseCheckout PATT_REPO tmp_path (map fst PATT_DIRS));
  if negb cloned then
    call (Log DEBUG "Sparse clone failed: %s");;
    Ret []
  else
    for_each PATT_DIRS [] (fun records '(dir_rel, type_) =>
      let intruder := tmp_path ++ SLASH :: dir_rel in
      is_dir ← call (IsDir intruder);
      if negb is_dir then Ret records
      else
        txts ← call (Glob intruder "*.txt");
        for_each txts records (fun records txt =>
          content ← call (ReadText txt "replace");
          Ret (collect_lines records (splitlines content) type_))).

(** [_api_download_patt] *)
Definition _api_download_patt : prog collectE (list LabeledRecord) :=
  for_each PATT_DIRS [] (fun records '(dir_rel, type_) =>
    let api_url :=
      GITHUB_API ++ py "/repos/" ++ PATT_REPO ++ py "/contents/" ++ dir_rel in
    resp ← call (HttpGet api_url 30);
    match resp with
    | None =>
        call (Log WARNING "  GitHub API failed for %s: %s");;
        Ret records
    | Some resp =>
        for_each (json resp) records (fun records item =>
          if negb (endswith (name item) (py ".txt")) then Ret records
          else
            match download_url item with
            | None | Some [] => Ret records
            | Some url =>
                file_resp ← call (HttpGet url 60);
                match file_resp with
                | None => Ret records
                | Some file_resp =>
                    Ret (collect_lines records (splitlines (text file_resp)) type_)
                end
            end)
    end).

(** [collect_payloadsallthethings] *)
Definition collect_payloadsallthethings : prog collectE (list LabeledRecord) :=
  call (Log INFO "Collecting PayloadsAllTheThings …");;
  records ← _sparse_clone_patt;
  records ← match records with
            | [] =>
                call (Log INFO "  Sparse clone unavailable, falling back to GitHub API …");;
                _api_download_patt
            | _ => Ret records
            end;
  call (Log INFO "  → %d records from PayloadsAllTheThings");;
  Ret records.

(** The three deferred sources. *)
Definition collect_kaggle_xss : prog collectE (list LabeledRecord) :=
  call (Log INFO "Skipping Kaggle XSS — requires API key. See https://www.kaggle.com/docs/api for setup instructions.");;
  Ret [].

Definition collect_ecml_pkdd : prog collectE (list LabeledRecord) :=
  call (Log INFO "Skipping ECML/PKDD 2007 — upstream link is dead.");;
  Ret [].

Definition collect_hacktricks : prog collectE (list LabeledRecord) :=
  call (Log INFO "Skipping HackTricks — payloads embedded in prose, not yet parseable.");;
  Ret [].

(** [deduplicate]: [seen] is the set of keys met so far, [unique] the records
    kept so far. *)
Fixpoint deduplicate_go (seen : gset (str * str)) (unique : list LabeledRecord)
         (records : list LabeledRecord) : list LabeledRecord :=
  match records with
  | [] => unique
  | r :: rest =>
      let key := (pattern r, type_ r) in
      if decide (key ∈ seen) then deduplicate_go seen unique rest
      else deduplicate_go ({[key]} ∪ seen) (unique ++ [r]) rest
  end.

Definition deduplicate (records : list LabeledRecord) : list LabeledRecord :=
  deduplicate_go ∅ [] records.

(** [main] *)
Definition main : prog collectE unit :=
  let all_records := [] in
  r ← collect_httpparams; let all_records := all_records ++ r in
  r ← collect_payloadsallthethings; let all_records := all_records ++ r in
  r ← collect_kaggle_xss; let all_records := all_records ++ r in
  r ← collect_ecml_pkdd; let all_records := all_records ++ r in
  r ← collect_hacktricks; let all_records := all_records ++ r in
  let all_records := deduplicate all_records in
  call (Log INFO "Total unique records: %d");;
  call (Log INFO "Types present: %s");;
  call (Mkdir OUTPUT_DIR true true);;
  call (WriteJson OUTPUT_FILE all_records 2 false);;
  call (Log INFO "Written to %s").

(** *** Reading a trace of the collector *)

(** The record list a call hands to [json.dumps] for the output file. *)
Definition payload_of {X} (c : collectE X) : option (list LabeledRecord) :=
  match c with
  | WriteJson _ records _ _ => Some records
  | _ => None
  end.

Definition written_by (e : entry collectE) : option (list LabeledRecord) :=
  match e with
  | Called c _ => payload_of c
  end.

(** Every record list written during a run, in order. *)
Definition written (tr : list (entry collectE)) : list (list LabeledRecord) :=
  omap written_by tr.

(** *** The invariant of a record and the meaning of deduplication *)

Definition key (r : LabeledRecord) : str * str := (pattern r, type_ r).

(** The [LabeledRecord] invariant. *)
Definition record_ok (r : LabeledRecord) : Prop :=
  pattern r <> [] /\ strip (pattern r) = pattern r /\ In (type_ r) VALID_TYPES.

(** Keeping the first occurrence of every key, in the order of the input. *)
Fixpoint first_occurrences (records : list LabeledRecord) : list LabeledRecord :=
  match records with
  | [] => []
  | r :: rest => r :: List.filter (fun r' => negb (bool_decide (key r' = key r)))
                                  (first_occurrences rest)
  end.

(** [collects P m]: the program [m] never hands anything to the output file
    and returns only values that satisfy [P]. *)
Fixpoint collects {R} (P : R -> Prop) (m : prog collectE R) : Prop :=
  match m with
  | Ret r => P r
  | Throw _ => True
  | Vis c k => payload_of c = None /\ forall x, collects P (k x)
  end.

End collect_data.

(** ** A small world for the training run

    A disk with the dataset file, the model directory and the model file, a
    log, and a stand-in for scikit-learn: the split keeps the last quarter of
    the records for testing, fitting memorises the training pairs, and every
    [score] call answers with the accuracy the world is configured with. *)

Module train_world.

Definition Model : Type := list (str * str).

Record world : Type := {
  dataset : option (list LabeledRecord);
  model_dir : bool;
  model_file : option Model;
  accuracy : Q;
  log : list (level * string)
}.

Definition set_log (w : world) (l : list (level * string)) : world :=
  {| dataset := dataset w; model_dir := model_dir w; model_file := model_file w;
     accuracy := accuracy w; log := l |}.

Definition lookup_label (m : Model) (x : str) : str :=
  match list_find (fun e => e.1 = x) m with
  | Some (_, (_, l)) => l
  | None => []
  end.

Definition os : handler (train.trainE Model) world :=
  fun X c w =>
    match c in train.trainE _ X return result X * world with
    | train.PathExists p =>
        (Ok (bool_decide (p = train.DATASET_PATH)
             && bool_decide (is_Some (dataset w))), w)
    | train.ReadJson p _ =>
        match dataset w with
        | Some ds => (Ok ds, w)
        | None => (Raise (OSError "FileNotFoundError"), w)
        end
    | train.Log lvl fmt => (Ok tt, set_log w (log w ++ [(lvl, fmt)]))
    | train.TrainTestSplit X y _ _ _ =>
        let n := (length X - length X / 4)%nat in
        (Ok (take n X, drop n X, take n y, drop n y), w)
    | train.Fit _ _ X y => (Ok (zip X y), w)
    | train.Score _ _ _ => (Ok (accuracy w), w)
    | train.Predict m X => (Ok (map (lookup_label m) X), w)
    | train.ClassificationReport _ _ => (Ok "report"%string, w)
    | train.Mkdir _ _ _ =>
        (Ok tt, {| dataset := dataset w; model_dir := true;
                   model_file := model_file w; accuracy := accuracy w;
                   log := log w |})
    | train.JoblibDump m _ _ _ =>
        (Ok tt, {| dataset := dataset w; model_dir := model_dir w;
                   model_file := Some m; accuracy := accuracy w;
                   log := log w |})
    end.

End train_world.

(** ** A small world for the collector: one CSV of five rows, no [git], and a
    GitHub listing with one text file for the SQL directory. *)

Module collector_world.

Import collect_data.

Record world : Type := {
  output : option (list LabeledRecord);
  log : list (level * string)
}.

Definition rows : list Row :=
  [ {[ "payload"%string := Some (py " hello "); "label"%string := Some (py "norm") ]};
    {[ "payload"%string := Some (py "1 OR 1=1"); "label"%string := Some (py "sqli") ]};
    {[ "payload"%string := Some (py "1 OR 1=1"); "label"%string := Some (py "sqli") ]};
    {[ "payload"%string := Some (py "<script>"); "label"%string := Some (py "anom");
       "attack_type"%string := Some (py "XSS ") ]};
    {[ "payload"%string := Some (py "   "); "label"%string := Some (py "norm") ]} ].

Definition sql_listing_url : str :=
  py "https://api.github.com/repos/swisskyrepo/PayloadsAllTheThings/contents/SQL Injection/Intruder".
Definition sql_file_url : str := py "https://raw.example/Auth_Bypass.txt".

Definition os : handler collectE world :=
  fun X c w =>
    match c in collectE X return result X * world with
    | HttpGet url _ =>
        if decide (url = HTTPPARAMS_CSV_URL)
        then (Ok (Some {| text := py "payload,label"; json := [] |}), w)
        else if decide (url = sql_listing_url)
        then (Ok (Some {| text := [];
                          json := [ {| name := py "Auth_Bypass.txt";
                                       download_url := Some sql_file_url |};
                                    {| name := py "README.md";
                                       download_url := Some sql_file_url |} ] |}), w)
        else if decide (url = sql_file_url)
        then (Ok (Some {| text := py "1 OR 1=1" ++ [LF] ++ py "' OR 'a'='a" ++ [CR; LF];
                          json := [] |}), w)
        else (Ok None, w)
    | CsvDictReader _ => (Ok rows, w)
    | TemporaryDirectory => (Ok (py "/tmp/tmpdir"), w)
    | SparseCheckout _ _ _ => (Ok false, w)
    | IsDir _ => (Ok false, w)
    | Glob _ _ => (Ok [], w)
    | ReadText _ _ => (Ok [], w)
    | Log lvl fmt => (Ok tt, {| output := output w; log := log w ++ [(lvl, fmt)] |})
    | Mkdir _ _ _ => (Ok tt, w)
    | WriteJson _ records _ _ => (Ok tt, {| output := Some records; log := log w |})
    end.

Definition empty : world := {| output := None; log := [] |}.

(** The same world with a CSV whose one row is too short to have a label
    ([csv.DictReader] fills the field with [None]). *)
Definition short_rows : list Row :=
  [ {[ "payload"%string := Some (py "1 OR 1=1"); "label"%string := None ]} ].

Definition os_short_row : handler collectE world :=
  fun X c w =>
    match c in collectE X return result X * world with
    | CsvDictReader _ => (Ok short_rows, w)
    | c => os _ c w
    end.

(** The same world where no temporary directory can be created. *)
Definition os_no_tmp : handler collectE world :=
  fun X c w =>
    match c in collectE X return result X * world with
    | TemporaryDirectory => (Raise (OSError "PermissionError"), w)
    | c => os _ c w
    end.

(** The same world where the last log call fails. *)
Definition os_last_log_fails : handler collectE world :=
  fun X c w =>
    match c in collectE X return result X * world with
    | Log lvl fmt =>
        if decide (fmt = "Written to %s"%string)
        then (Raise (OSError "BrokenPipeError"), w)
        else os _ (Log lvl fmt) w
    | c => os _ c w
    end.

Definition expected : list LabeledRecord :=
  [ {| pattern := py "hello"; type_ := py "valid" |};
    {| pattern := py "1 OR 1=1"; type_ := py "sqli" |};
    {| pattern := py "<script>"; type_ := py "xss" |};
    {| pattern := py "' OR 'a'='a"; type_ := py "sqli" |} ].

End collector_world.

(** ** Example inputs *)

Module examples.

Definition present_path : str := py "/opt/metamaska/models/payload_clf.joblib".
Definition missing_path : str := py "/tmp/cache/models/payload_clf.joblib".

Definition disk : loader_world.world :=
  {| loader_world.files := [present_path];
     loader_world.dirs := [py "/opt/metamaska/models"];
     loader_world.hub := [(HF_REPO_ID, HF_FILENAME)];
     loader_world.stored := [] |}.

(** A pipeline over two labels whose [predict] answers [valid] while its
    [predict_proba] puts most of the mass on [sqli]. *)
Definition disagreeing_pipeline : Pipeline :=
  {| pipe_classes_ := [py "sqli"; py "valid"];
     pipe_predict := fun X => Ok (map (fun _ => py "valid") X);
     pipe_predict_proba := fun X => Ok (map (fun _ => [4 # 5; 1 # 5]) X) |}.

(** A pipeline whose [predict] is the argmax of its [predict_proba]. *)
Definition agreeing_pipeline : Pipeline :=
  {| pipe_classes_ := [py "sqli"; py "valid"];
     pipe_predict := fun X => Ok (map (fun _ => py "sqli") X);
     pipe_predict_proba := fun X => Ok (map (fun _ => [4 # 5; 1 # 5]) X) |}.

(** Eight records, four of them with a label outside [VALID_TYPES]. *)
Definition mislabelled : list LabeledRecord :=
  let bogus := {| pattern := py "1 OR 1=1"; type_ := py "bogus" |} in
  let valid := {| pattern := py "hello"; type_ := py "valid" |} in
  [bogus; valid; bogus; valid; bogus; valid; bogus; valid].

(** Eight records with labels of [VALID_TYPES]. *)
Definition labelled : list LabeledRecord :=
  let sqli := {| pattern := py "1 OR 1=1"; type_ := py "sqli" |} in
  let valid := {| pattern := py "hello"; type_ := py "valid" |} in
  [sqli; valid; sqli; valid; sqli; valid; sqli; valid].

Definition train_disk (ds : list LabeledRecord) (acc : Q) : train_world.world :=
  {| train_world.dataset := Some ds; train_world.model_dir := false;
     train_world.model_file := None; train_world.accuracy := acc;
     train_world.log := [] |}.

Definition wrap (clf : Pipeline) : PayloadClassifier :=
  {| payload_clf := clf; classes_ := pipe_classes_ clf |}.

End examples.

(** ** Further readings of records and traces *)

(** Every record has one of the types [T]. *)
Definition typed_in (T : list str) (records : list LabeledRecord) : Prop :=
  Forall (fun r => In (type_ r) T) records.

(** [respects bad P m]: the program [m] makes no call for which [bad] holds
    and returns only values that satisfy [P]. *)
Fixpoint respects {E : Type -> Type} {R} (bad : forall X, E X -> bool)
         (P : R -> Prop) (m : prog E R) : Prop :=
  match m with
  | Ret r => P r
  | Throw _ => True
  | Vis c k => bad _ c = false /\ forall x, respects bad P (k x)
  end.

Definition bad_entry {E : Type -> Type} (bad : forall X, E X -> bool)
           (e : entry E) : bool :=
  match e with
  | Called c _ => bad _ c
  end.

(** An entry whose call was answered with a value. *)
Definition returned {E : Type -> Type} (e : entry E) : bool :=
  match e with
  | Called _ (Ok _) => true
  | Called _ (Raise _) => false
  end.

(** The types of the four directories of [PATT_DIRS]. *)
Definition PATT_TYPES : list str :=
  [py "sqli"; py "xss"; py "cmdi"; py "path-traversal"].

(** The collector's HTTP requests, and its calls on the cloned tree. *)
Definition is_http (X : Type) (c : collect_data.collectE X) : bool :=
  match c with
  | collect_data.HttpGet _ _ => true
  | _ => false
  end.

Definition is_clone (X : Type) (c : collect_data.collectE X) : bool :=
  match c with
  | collect_data.TemporaryDirectory | collect_data.SparseCheckout _ _ _
  | collect_data.IsDir _ | collect_data.Glob _ _ | collect_data.ReadText _ _ => true
  | _ => false
  end.

(** *** What a trace of [train.main] shows of the data flow *)

Module train_flow.

Section Flow.
Context {Model : Type}.










(** The arguments of a [train_test_split] call. *)
Definition split_call (e : entry (train.trainE Model))
  : option (list str * list str * Q * Z * list str) :=
  match e with
  | Called c _ =>
      match c with
      | train.TrainTestSplit X y test_size random_state stratify =>
          Some (X, y, test_size, random_state, stratify)
      | _ => None
      end
  end.

Definition split_calls (tr : list (entry (train.trainE Model))) := omap split_call tr.

End Flow.

End train_flow.

(** *** The loader's calls *)

Definition is_load (X : Type) (c : loadE X) : bool :=
  match c with
  | JoblibLoad _ => true
  | _ => false
  end.

(** The example disk of the loader with a pipeline stored in its model file. *)
Definition disk_with_model : loader_world.world :=
  {| loader_world.files := [examples.present_path];
     loader_world.dirs := [py "/opt/metamaska/models"];
     loader_world.hub := [(HF_REPO_ID, HF_FILENAME)];
     loader_world.stored := [(examples.present_path, examples.agreeing_pipeline)] |}.

(** ** Readings of characters and of the decoding pass *)

(** [count x a]: how often the character [a] occurs in [x]. *)
Abbreviation count x a := (count_occ N.eq_dec x a).

(** A code point that [lower] leaves alone wherever it stands. *)
Definition stable (c : char) : Prop :=
  c <> CAPITAL_SIGMA /\ assoc c Unicode.LOWER = None.

Definition stableb (c : char) : bool :=
  negb (c =? CAPITAL_SIGMA)%N
  && match assoc c Unicode.LOWER with None => true | Some _ => false end.

(** A code point that [lower] produces: a small letter or a mark, which is
    no whitespace and which [lower] leaves alone. *)
Definition lowered (d : char) : Prop :=
  (97 <= d)%N /\ isspace d = false /\ stable d.

Definition loweredb (d : char) : bool :=
  (97 <=? d)%N && negb (isspace d) && stableb d.

(** The character or the byte a token holds. *)
Definition token_char (t : token) : char :=
  match t with
  | Raw c => c
  | Esc b => b
  end.

Definition is_esc (t : token) : bool :=
  match t with
  | Raw _ => false
  | Esc _ => true
  end.

(** [weight] counts ['%'] twice and ['2'] once: no step after the decoding
    pass changes it, and every escape that is decoded lowers it. *)
Definition weight (x : str) : nat := 2 * count x PERCENT + count x 50%N.

(** What holds of an open sequence: the bits read so far cannot lead to a
    code point below 128. *)
Definition wf (st : utf8_state) : Prop :=
  match st with
  | Idle => True
  | Pending need acc lo hi =>
      (128 <= lo)%N
      /\ match need with
         | S (S _) => (2 <= acc * 64 + (lo - 128))%N
         | _ => (2 <= acc)%N
         end
  end.

(* ================================================================= *)
(** * Theorems *)

(** ** The tests of [tests/test_utils.py] and the scenarios of section 8 *)

Example test_unquote :
  unquote (DQ :: py "onfocus=" ++ DQ :: py "alert('Y000')" ++ DQ :: py "+autofocus=" ++ [DQ])
  = DQ :: py "onfocus=" ++ DQ :: py "alert('Y000')" ++ DQ :: py " autofocus=" ++ [DQ].
Proof. reflexivity. Qed.

Example unquote_is_single_pass : unquote (py "%2541") = py "%41".
Proof. reflexivity. Qed.

Example unquote_keeps_malformed_escapes :
  unquote (py "100%") = py "100%"
  /\ unquote (py "%zz%41%4g%4") = py "%zzA%4g%4"
  /\ unquote (py "%%41") = py "%A"
  /\ unquote (py "%2B") = py "+".
Proof. repeat split. Qed.

(** Escaped bytes are read as UTF-8: U+00E9, U+20AC and U+1F600 from their
    two, three and four bytes; a byte that is not UTF-8 becomes U+FFFD. *)
Example unquote_decodes_utf8 :
  unquote (py "%C3%A9") = [233%N]
  /\ unquote (py "%e2%82%ac") = [8364%N]
  /\ unquote (py "%F0%9F%98%80") = [128512%N]
  /\ unquote (py "%E9") = [REPLACEMENT]
  /\ unquote (py "%E2%82x") = [REPLACEMENT; 120%N]
  /\ unquote (py "%C0%80") = [REPLACEMENT; REPLACEMENT]
  /\ unquote (py "%ED%A0%80") = [REPLACEMENT; REPLACEMENT; REPLACEMENT].
Proof. repeat split. Qed.

(** [lower] beyond ASCII: Latin-1, the two small sigmas, and the capital I
    with dot above, which becomes two characters. *)
Example lower_beyond_ascii :
  lower [201%N] = [233%N]
  /\ lower [913; 931]%N = [945; 962]%N
  /\ lower [931; 913]%N = [963; 945]%N
  /\ lower [304%N] = [105; 775]%N.
Proof. repeat split. Qed.

Example transform_scenarios :
  _transform (Some (py "payload" ++ [LF])) = Ok (py "payload")
  /\ _transform (Some (py " payload ")) = Ok (py "payload")
  /\ _transform (Some (DQ :: py "onfocus=" ++ DQ :: py "alert('Y000')" ++ DQ
                        :: py "+autofocus=" ++ [DQ]))
     = Ok (DQ :: py "onfocus=" ++ DQ :: py "alert('y000')" ++ DQ
              :: py " autofocus=" ++ [DQ]).
Proof. repeat split. Qed.

Example test_remove_new_line : remove_new_line (py "payload" ++ [LF]) = py "payload".
Proof. reflexivity. Qed.

Example test_remove_whitespace : remove_whitespace (py " payload ") = py "payload".
Proof. reflexivity. Qed.

(** ** Characters *)

Lemma isspace_In c : isspace c = true <-> In c Unicode.WHITESPACE.
Proof.
  unfold isspace. rewrite existsb_exists. split.
  - intros (x & Hx & E). apply N.eqb_eq in E. now subst.
  - intros H. exists c. split; [exact H|apply N.eqb_refl].
Qed.

Lemma assoc_In c table v : assoc c table = Some v -> In (c, v) table.
Proof.
  induction table as [|[k v'] rest IH]; cbn [assoc]; [discriminate|].
  destruct (N.eqb_spec c k) as [->|_]; [intros [= ->]; now left|].
  destruct (c <? k)%N; [discriminate|]. intros H. right. auto.
Qed.

Lemma stableb_stable c : stableb c = true -> stable c.
Proof.
  unfold stableb, stable. intros H. apply andb_prop in H as [H1 H2].
  apply negb_true_iff, N.eqb_neq in H1. split; [exact H1|].
  now destruct (assoc c Unicode.LOWER).
Qed.

Lemma loweredb_lowered d : loweredb d = true -> lowered d.
Proof.
  unfold loweredb, lowered. intros H.
  apply andb_prop in H as [H H3]. apply andb_prop in H as [H1 H2].
  apply N.leb_le in H1. apply negb_true_iff in H2.
  auto using stableb_stable.
Qed.

Lemma LOWER_entries :
  forallb (fun e => (65 <=? e.1)%N && negb (isspace e.1) && forallb loweredb e.2)
          Unicode.LOWER = true.
Proof. vm_compute. reflexivity. Qed.

Lemma to_lower_full_cases c :
  (assoc c Unicode.LOWER = None /\ to_lower_full c = [c])
  \/ ((65 <= c)%N /\ isspace c = false /\ Forall lowered (to_lower_full c)).
Proof.
  unfold to_lower_full. destruct (assoc c Unicode.LOWER) as [v|] eqn:E; [right|now left].
  apply assoc_In in E.
  pose proof LOWER_entries as H. rewrite forallb_forall in H.
  specialize (H _ E). cbn [fst snd] in H.
  apply andb_prop in H as [H H3]. apply andb_prop in H as [H1 H2].
  apply N.leb_le in H1. apply negb_true_iff in H2.
  split; [exact H1|]. split; [exact H2|].
  rewrite forallb_forall in H3. apply List.Forall_forall.
  intros d Hd. apply loweredb_lowered. auto.
Qed.

Lemma sigmas_lowered : lowered SMALL_SIGMA /\ lowered SMALL_FINAL_SIGMA.
Proof. split; apply loweredb_lowered; vm_compute; reflexivity. Qed.

Lemma isspace_stable c : isspace c = true -> stable c.
Proof.
  intros H. apply isspace_In in H.
  assert (Hall : forallb stableb Unicode.WHITESPACE = true) by (vm_compute; reflexivity).
  rewrite forallb_forall in Hall. apply stableb_stable. auto.
Qed.

(** What one character becomes in [lower]. *)
Lemma lower_go_cons before c t :
  lower_go before (c :: t)
  = (if decide (c = CAPITAL_SIGMA)
     then [if final_sigma before t then SMALL_FINAL_SIGMA else SMALL_SIGMA]
     else to_lower_full c) ++ lower_go (c :: before) t.
Proof. reflexivity. Qed.

Lemma lower_go_In before x d :
  In d (lower_go before x) -> (In d x /\ stable d) \/ lowered d.
Proof.
  revert before. induction x as [|c t IH]; intros before; [intros []|].
  rewrite lower_go_cons, in_app_iff. intros [H|H].
  - destruct (decide (c = CAPITAL_SIGMA)) as [->|Hc].
    + right. destruct H as [<-|[]].
      destruct (final_sigma before t); apply sigmas_lowered.
    + destruct (to_lower_full_cases c) as [[Hn Hc']|(_ & _ & Hl)].
      * rewrite Hc' in H. destruct H as [<-|[]]. left.
        split; [now left|]. split; assumption.
      * right. rewrite List.Forall_forall in Hl. auto.
  - destruct (IH _ H) as [[Hin Hs]|Hl]; [left; split; [now right|exact Hs]|now right].
Qed.

Lemma lower_go_stable before x : Forall stable x -> lower_go before x = x.
Proof.
  intros H. revert before. induction H as [|c t [Hc Hn] _ IH]; intros before.
  - reflexivity.
  - rewrite lower_go_cons. destruct (decide (c = CAPITAL_SIGMA)); [contradiction|].
    unfold to_lower_full. rewrite Hn. cbn [app]. f_equal. apply IH.
Qed.

Lemma lowered_stable d : lowered d -> stable d.
Proof. now intros (_ & _ & H). Qed.

Lemma lower_stable x : Forall stable (lower x).
Proof.
  apply List.Forall_forall. intros d H.
  apply lower_go_In in H as [[_ H]|H]; [exact H|now apply lowered_stable].
Qed.

Lemma lower_fixed x : Forall stable x -> lower x = x.
Proof. apply lower_go_stable. Qed.

Lemma lower_idem x : lower (lower x) = lower x.
Proof. apply lower_fixed, lower_stable. Qed.

Lemma lower_In_below a x : (a < 97)%N -> In a (lower x) -> In a x.
Proof.
  intros Ha H. apply lower_go_In in H as [[H _]|(H & _)]; [exact H|lia].
Qed.

Lemma lower_In_LF x : In LF (lower x) -> In LF x.
Proof. apply lower_In_below. reflexivity. Qed.

Lemma lower_In_CR x : In CR (lower x) -> In CR x.
Proof. apply lower_In_below. reflexivity. Qed.

Lemma lower_In_PLUS x : In PLUS (lower x) -> In PLUS x.
Proof. apply lower_In_below. reflexivity. Qed.

Lemma count_none (a : N) x : ~ In a x -> count x a = 0.
Proof. apply count_occ_not_In. Qed.

Lemma lower_go_count a before x :
  (a < 65)%N -> count (lower_go before x) a = count x a.
Proof.
  intros Ha. revert before. induction x as [|c t IH]; intros before; [reflexivity|].
  rewrite lower_go_cons, count_occ_app, IH. cbn [count_occ].
  assert (Hout : forall out, Forall lowered out -> count out a = 0).
  { intros out Hout. apply count_none. intros Hin.
    rewrite List.Forall_forall in Hout. destruct (Hout _ Hin) as (H & _). lia. }
  destruct (decide (c = CAPITAL_SIGMA)) as [->|Hc].
  - destruct (N.eq_dec CAPITAL_SIGMA a) as [E|_]; [subst a; vm_compute in Ha; discriminate|].
    rewrite Hout; [reflexivity|].
    constructor; [|constructor]. destruct (final_sigma before t); apply sigmas_lowered.
  - destruct (to_lower_full_cases c) as [[_ ->]|(Hge & _ & Hl)].
    + cbn [count_occ]. destruct (N.eq_dec c a); reflexivity.
    + rewrite (Hout _ Hl). destruct (N.eq_dec c a); [lia|reflexivity].
Qed.

Lemma lower_count a x : (a < 65)%N -> count (lower x) a = count x a.
Proof. apply lower_go_count. Qed.

(** ** Bounded case analysis by computation *)

Lemma N_below n c : (c < N.of_nat n)%N -> In c (map N.of_nat (seq 0 n)).
Proof.
  intros H. apply in_map_iff. exists (N.to_nat c).
  split; [apply N2Nat.id|]. apply in_seq. lia.
Qed.

Lemma forall_below (f : N -> bool) n :
  forallb f (map N.of_nat (seq 0 n)) = true ->
  forall c, (c < N.of_nat n)%N -> f c = true.
Proof.
  intros H c Hc. rewrite forallb_forall in H. now apply H, N_below.
Qed.

Lemma isspace_SP : isspace SP = true.
Proof. reflexivity. Qed.

(** ** Strings: [replace], [split] and [join] *)

Lemma replace1_cons old new c t :
  replace1 old new (c :: t) = (if decide (c = old) then new else [c]) ++ replace1 old new t.
Proof. reflexivity. Qed.

Lemma replace1_delete_In old x a :
  In a (replace1 old [] x) <-> In a x /\ a <> old.
Proof.
  unfold replace1. induction x as [|c t IH]; simpl.
  - tauto.
  - destruct (decide (c = old)) as [->|Hne]; simpl; rewrite IH.
    + split; [tauto|]. intros [[->|H] Hn]; [congruence|tauto].
    + split.
      * intros [->|[H Hn]]; auto.
      * intros [[->|H] Hn]; auto.
Qed.

Lemma replace1_absent old new x : ~ In old x -> replace1 old new x = x.
Proof.
  unfold replace1. induction x as [|c t IH]; simpl; intros Hn; [reflexivity|].
  destruct (decide (c = old)) as [->|Hne]; [tauto|].
  simpl. f_equal. apply IH. tauto.
Qed.

Lemma replace1_delete_length old x :
  length (replace1 old [] x) + count x old = length x.
Proof.
  unfold replace1. induction x as [|c t IH]; simpl; [reflexivity|].
  destruct (decide (c = old)) as [->|Hne].
  - destruct (N.eq_dec old old); [simpl; lia|congruence].
  - destruct (N.eq_dec c old); [congruence|simpl; lia].
Qed.

Lemma replace1_count old new x a :
  a <> old -> ~ In a new -> count (replace1 old new x) a = count x a.
Proof.
  intros Hne Hnew. induction x as [|c t IH]; [reflexivity|].
  rewrite replace1_cons, count_occ_app, IH. cbn [count_occ].
  destruct (decide (c = old)) as [->|Hc].
  - rewrite count_none by assumption. destruct (N.eq_dec old a); [congruence|reflexivity].
  - cbn [count_occ]. destruct (N.eq_dec c a); reflexivity.
Qed.

Lemma replace1_delete_count old x a :
  a <> old -> count (replace1 old [] x) a = count x a.
Proof. intros H. apply replace1_count; auto. Qed.

Lemma replace1_char_absent old new x :
  old <> new -> ~ In old (replace1 old [new] x).
Proof.
  intros Hne. unfold replace1. induction x as [|c t IH]; [auto|].
  cbn [flat_map]. destruct (decide (c = old)); cbn [app In]; intros [H|H]; auto.
Qed.

Lemma remove_new_line_length_exact x :
  length (remove_new_line x) + count x LF + count x CR = length x.
Proof.
  unfold remove_new_line.
  pose proof (replace1_delete_length CR (replace1 LF [] x)) as H1.
  pose proof (replace1_delete_length LF x) as H2.
  rewrite (replace1_delete_count LF x CR) in H1 by discriminate. lia.
Qed.

Lemma remove_new_line_In x a :
  In a (remove_new_line x) <-> In a x /\ a <> LF /\ a <> CR.
Proof. unfold remove_new_line. rewrite !replace1_delete_In. tauto. Qed.

Lemma remove_new_line_fixed x :
  ~ In LF x -> ~ In CR x -> remove_new_line x = x.
Proof.
  intros H1 H2. unfold remove_new_line.
  rewrite (replace1_absent LF) by assumption. now apply replace1_absent.
Qed.

Lemma remove_new_line_count x a :
  a <> LF -> a <> CR -> count (remove_new_line x) a = count x a.
Proof.
  intros H1 H2. unfold remove_new_line. now rewrite !replace1_delete_count.
Qed.

Lemma split_go_word cur w x :
  Forall nonspace w -> split_go cur (w ++ x) = split_go (rev w ++ cur) x.
Proof.
  intros Hw. revert cur. induction Hw as [|c w Hc Hw IH]; intros cur; simpl.
  - reflexivity.
  - rewrite Hc, IH. now rewrite <- app_assoc.
Qed.

Lemma split_go_words cur x :
  Forall nonspace cur -> Forall is_word (split_go cur x).
Proof.
  revert cur. induction x as [|c t IH]; intros cur Hcur; simpl.
  - destruct cur as [|a cur']; constructor; [|constructor].
    split.
    + intros E. apply (f_equal (@length _)) in E.
      rewrite length_rev in E. discriminate.
    + apply Forall_rev. exact Hcur.
  - destruct (isspace c) eqn:Hc.
    + destruct cur as [|a cur'].
      * apply IH. constructor.
      * constructor; [|apply IH; constructor].
        split.
        -- intros E. apply (f_equal (@length _)) in E.
           rewrite length_rev in E. discriminate.
        -- apply Forall_rev. exact Hcur.
    + apply IH. constructor; assumption.
Qed.

Lemma split_words x : Forall is_word (split x).
Proof. apply split_go_words. constructor. Qed.

Lemma split_join ws : Forall is_word ws -> split (join [SP] ws) = ws.
Proof.
  unfold split. induction 1 as [|w ws [Hne Hw] Hws IH]; [reflexivity|].
  destruct ws as [|w' ws'].
  - simpl. rewrite <- (app_nil_r w) at 1. rewrite split_go_word by assumption.
    rewrite app_nil_r. simpl.
    destruct (rev w) eqn:E.
    + apply (f_equal (@length _)) in E. rewrite length_rev in E.
      destruct w; [congruence|discriminate].
    + now rewrite <- E, rev_involutive.
  - change (join [SP] (w :: w' :: ws')) with (w ++ SP :: join [SP] (w' :: ws')).
    rewrite split_go_word by assumption. rewrite app_nil_r.
    cbn [split_go]. rewrite isspace_SP.
    destruct (rev w) eqn:E.
    + apply (f_equal (@length _)) in E. rewrite length_rev in E.
      destruct w; [congruence|discriminate].
    + rewrite <- E, rev_involutive. now rewrite IH.
Qed.

Lemma split_remove_whitespace x : split (remove_whitespace x) = split x.
Proof. unfold remove_whitespace. apply split_join, split_words. Qed.

Lemma remove_whitespace_idem x :
  remove_whitespace (remove_whitespace x) = remove_whitespace x.
Proof. unfold remove_whitespace at 1. now rewrite split_remove_whitespace. Qed.

Lemma split_all_space x : Forall (fun c => isspace c = true) x -> split x = [].
Proof.
  unfold split. induction 1 as [|c t Hc _ IH]; [reflexivity|].
  cbn [split_go]. now rewrite Hc.
Qed.

Lemma split_one_word w : is_word w -> split w = [w].
Proof.
  intros Hw. change w with (join [SP] [w]) at 1. apply split_join.
  constructor; [assumption|constructor].
Qed.

Lemma split_go_space cur g x :
  Forall (fun c => isspace c = true) g -> g <> [] ->
  split_go cur (g ++ x)
  = match cur with [] => split_go [] x | _ => rev cur :: split_go [] x end.
Proof.
  intros Hg. revert cur. induction Hg as [|c g Hc Hg IH]; intros cur Hne; [congruence|].
  cbn [app split_go]. rewrite Hc.
  destruct g as [|c' g'].
  - now destruct cur.
  - destruct cur; rewrite IH by discriminate; reflexivity.
Qed.

Lemma split_lead g x :
  Forall (fun c => isspace c = true) g -> split (g ++ x) = split x.
Proof.
  intros Hg. destruct g as [|c g]; [reflexivity|].
  unfold split. now rewrite split_go_space.
Qed.

Lemma rev_nonempty (w : str) : w <> [] -> rev w <> [].
Proof.
  intros H E. apply (f_equal (@length _)) in E. rewrite length_rev in E.
  destruct w; [congruence|discriminate].
Qed.

(** A word followed by whitespace and more text. *)
Lemma split_word_gap w g x :
  is_word w -> Forall (fun c => isspace c = true) g -> g <> [] ->
  split (w ++ g ++ x) = w :: split x.
Proof.
  intros [Hne Hw] Hg Hgne. unfold split.
  rewrite split_go_word by assumption. rewrite app_nil_r.
  rewrite split_go_space by assumption.
  destruct (rev w) eqn:E; [now apply rev_nonempty in E|].
  now rewrite <- E, rev_involutive.
Qed.

Lemma split_word_trail w g :
  is_word w -> Forall (fun c => isspace c = true) g -> split (w ++ g) = [w].
Proof.
  intros Hw Hg. destruct g as [|c g].
  - rewrite app_nil_r. now apply split_one_word.
  - rewrite <- (app_nil_r (c :: g)).
    rewrite split_word_gap; [reflexivity|assumption|assumption|discriminate].
Qed.

(** ** Step 4 as one scan *)

Lemma rstrip_cons_nonspace c t : isspace c = false -> rstrip (c :: t) = c :: rstrip t.
Proof. intros Hc. cbn [rstrip]. rewrite Hc. now destruct (rstrip t). Qed.

Lemma rstrip_cons_space c t :
  isspace c = true -> rstrip (c :: t) = match rstrip t with [] => [] | t' => c :: t' end.
Proof. intros Hc. cbn [rstrip]. now rewrite Hc. Qed.

Lemma rstrip_nil_split t : rstrip t = [] -> split t = [].
Proof.
  unfold split. induction t as [|c t IH]; [reflexivity|].
  cbn [rstrip split_go]. destruct (rstrip t) eqn:E; [|discriminate].
  destruct (isspace c); [auto|discriminate].
Qed.

Lemma split_go_nil cur t : split_go cur t = [] -> cur = [] /\ rstrip t = [].
Proof.
  revert cur. induction t as [|c t IH]; intros cur; cbn [split_go].
  - destruct cur; [auto|discriminate].
  - destruct (isspace c) eqn:Hc.
    + destruct cur; [|discriminate].
      intros H. apply IH in H as [_ H]. split; [reflexivity|].
      rewrite rstrip_cons_space by assumption. now rewrite H.
    + intros H. apply IH in H as [H _]. discriminate.
Qed.

Lemma join_cons_cons sep w w' ws :
  join sep (w :: w' :: ws) = w ++ sep ++ join sep (w' :: ws).
Proof. reflexivity. Qed.

Lemma join_split_go_collapse x :
  (forall cur, cur <> [] ->
     join [SP] (split_go cur x) = rev cur ++ spec.collapse_runs false (rstrip x))
  /\ join [SP] (split_go [] x) = spec.collapse_runs true (rstrip x).
Proof.
  induction x as [|c t [IHG IHH]].
  - split; [|reflexivity].
    intros cur Hcur. destruct cur; [congruence|]. cbn. now rewrite app_nil_r.
  - destruct (isspace c) eqn:Hc.
    + split.
      * intros cur Hcur. cbn [split_go]. rewrite Hc.
        rewrite rstrip_cons_space by assumption.
        destruct cur as [|a cur']; [congruence|].
        destruct (split_go [] t) as [|w ws] eqn:Es.
        -- apply split_go_nil in Es as [_ Es]. rewrite Es. cbn. now rewrite app_nil_r.
        -- destruct (rstrip t) as [|b t'] eqn:Er.
           ++ apply rstrip_nil_split in Er. unfold split in Er. congruence.
           ++ rewrite join_cons_cons, IHH.
              cbn [spec.collapse_runs]. rewrite Hc. reflexivity.
      * cbn [split_go]. rewrite Hc. rewrite rstrip_cons_space by assumption.
        rewrite IHH. destruct (rstrip t) eqn:Er; [reflexivity|].
        cbn [spec.collapse_runs]. now rewrite Hc.
    + split.
      * intros cur Hcur. cbn [split_go]. rewrite Hc.
        rewrite rstrip_cons_nonspace by assumption.
        rewrite IHG by discriminate.
        cbn [spec.collapse_runs rev]. rewrite Hc. now rewrite <- app_assoc.
      * cbn [split_go]. rewrite Hc.
        rewrite rstrip_cons_nonspace by assumption.
        rewrite IHG by discriminate.
        cbn [spec.collapse_runs]. now rewrite Hc.
Qed.

Lemma remove_whitespace_is_collapse_whitespace x :
  remove_whitespace x = spec.collapse_whitespace x.
Proof.
  unfold remove_whitespace, spec.collapse_whitespace, strip, split.
  induction x as [|c t IH]; [reflexivity|].
  cbn [split_go lstrip]. destruct (isspace c) eqn:Hc; [exact IH|].
  destruct (join_split_go_collapse t) as [G _].
  rewrite G by discriminate.
  rewrite rstrip_cons_nonspace by assumption.
  cbn [spec.collapse_runs]. now rewrite Hc.
Qed.

Lemma remove_new_line_is_strip_newlines x : remove_new_line x = spec.strip_newlines x.
Proof.
  unfold remove_new_line, spec.strip_newlines, replace1.
  induction x as [|c t IH]; [reflexivity|].
  cbn [flat_map List.filter].
  destruct (decide (c = LF)) as [->|H1].
  - cbn [app]. rewrite IH. reflexivity.
  - cbn [app flat_map].
    destruct (decide (c = CR)) as [->|H2].
    + cbn [app]. rewrite IH. reflexivity.
    + cbn [app]. rewrite IH.
      rewrite !bool_decide_eq_false_2 by assumption. reflexivity.
Qed.

(** ** What a normalised text looks like *)

Lemma join_In c ws :
  In c (join [SP] ws) -> c = SP \/ exists w, In w ws /\ In c w.
Proof.
  induction ws as [|w ws IH]; [intros []|].
  destruct ws as [|w' ws'].
  - simpl. intros H. right. exists w. auto.
  - rewrite join_cons_cons. rewrite !in_app_iff. intros [H|[H|H]].
    + right. exists w. split; [now left|assumption].
    + left. destruct H as [H|[]]. now symmetry.
    + destruct (IH H) as [->|(v & Hv & Hc)]; [now left|].
      right. exists v. split; [now right|assumption].
Qed.

Lemma remove_whitespace_space x c :
  In c (remove_whitespace x) -> isspace c = true -> c = SP.
Proof.
  unfold remove_whitespace. intros H Hc.
  apply join_In in H as [->|(w & Hw & Hin)]; [reflexivity|].
  pose proof (split_words x) as Hall.
  rewrite List.Forall_forall in Hall. destruct (Hall w Hw) as [_ Hns].
  rewrite List.Forall_forall in Hns. specialize (Hns c Hin).
  unfold nonspace in Hns. congruence.
Qed.

Lemma remove_whitespace_no_LF x : ~ In LF (remove_whitespace x).
Proof.
  intros H. apply remove_whitespace_space in H; [discriminate H|reflexivity].
Qed.

Lemma remove_whitespace_no_CR x : ~ In CR (remove_whitespace x).
Proof.
  intros H. apply remove_whitespace_space in H; [discriminate H|reflexivity].
Qed.

Lemma remove_whitespace_In x c : In c (remove_whitespace x) -> c = SP \/ In c x.
Proof.
  rewrite remove_whitespace_is_collapse_whitespace.
  unfold spec.collapse_whitespace, strip.
  assert (Hr : forall y, In c (rstrip y) -> In c y).
  { induction y as [|a y IH]; [auto|]. cbn [rstrip].
    destruct (rstrip y); [destruct (isspace a)|]; simpl in *; tauto. }
  assert (Hl : forall y, In c (lstrip y) -> In c y).
  { induction y as [|a y IH]; [auto|]. cbn [lstrip].
    destruct (isspace a); simpl in *; tauto. }
  assert (Hc : forall b y, In c (spec.collapse_runs b y) -> c = SP \/ In c y).
  { intros b y. revert b. induction y as [|a y IH]; intros b; [auto|].
    cbn [spec.collapse_runs]. destruct (isspace a), b; simpl;
      intros H; repeat (destruct H as [H|H]; auto); destruct (IH _ H); auto. }
  intros H. apply Hc in H as [->|H]; auto.
Qed.

(** The whitespace step neither adds nor drops a character that is not
    whitespace. *)
Lemma join_count a ws :
  a <> SP -> count (join [SP] ws) a = count (concat ws) a.
Proof.
  intros Ha. induction ws as [|w ws IH]; [reflexivity|].
  destruct ws as [|w' ws'].
  - cbn [join concat]. now rewrite app_nil_r.
  - rewrite join_cons_cons. cbn [concat] in *. rewrite !count_occ_app, IH.
    cbn [count_occ]. destruct (N.eq_dec SP a); [congruence|].
    rewrite count_occ_app. lia.
Qed.

Lemma split_go_count a cur x :
  isspace a = false ->
  count (concat (split_go cur x)) a = count cur a + count x a.
Proof.
  intros Ha. revert cur. induction x as [|c t IH]; intros cur.
  - cbn [split_go]. destruct cur as [|b cur']; [reflexivity|].
    cbn [concat]. rewrite app_nil_r, count_occ_rev. cbn [count_occ]. lia.
  - cbn [split_go count_occ]. destruct (isspace c) eqn:Hc.
    + destruct (N.eq_dec c a) as [->|_]; [congruence|].
      destruct cur as [|b cur'].
      * rewrite IH. reflexivity.
      * cbn [concat]. rewrite count_occ_app, IH, count_occ_rev. cbn [count_occ]. lia.
    + rewrite IH. cbn [count_occ]. destruct (N.eq_dec c a); lia.
Qed.

Lemma remove_whitespace_count a x :
  isspace a = false -> count (remove_whitespace x) a = count x a.
Proof.
  intros Ha. unfold remove_whitespace, split.
  rewrite join_count by (intros ->; discriminate Ha).
  now rewrite split_go_count.
Qed.

(** ** Hexadecimal digits *)

Lemma hex_val_bound c v : hex_val c = Some v -> (c < 103)%N /\ (v < 16)%N.
Proof.
  unfold hex_val.
  destruct ((48 <=? c) && (c <=? 57))%N eqn:E1;
    [|destruct ((65 <=? c) && (c <=? 70))%N eqn:E2;
      [|destruct ((97 <=? c) && (c <=? 102))%N eqn:E3; [|discriminate]]];
    intros [= <-];
    match goal with H : (_ && _)%N = true |- _ =>
      apply andb_prop in H as [H1 H2]; apply N.leb_le in H1, H2 end; lia.
Qed.

Lemma hex_val_hexdigit c v : hex_val c = Some v -> spec.hexdigit c v.
Proof.
  intros H. destruct (hex_val_bound _ _ H) as [Hc _].
  assert (Hall : forallb (fun c =>
            match hex_val c with
            | Some v => bool_decide (nth_error spec.HEX_UPPER (N.to_nat v) = Some c)
                        || bool_decide (nth_error spec.HEX_LOWER (N.to_nat v) = Some c)
            | None => true
            end) (map N.of_nat (seq 0 103)) = true) by (vm_compute; reflexivity).
  pose proof (forall_below _ 103 Hall c Hc) as Hv. cbv beta in Hv. rewrite H in Hv.
  apply orb_prop in Hv as [Hv|Hv]; apply bool_decide_eq_true_1 in Hv;
    [now left|now right].
Qed.

Lemma hexdigit_hex_val c v : spec.hexdigit c v -> hex_val c = Some v.
Proof.
  assert (Hall : forall table, table = spec.HEX_UPPER \/ table = spec.HEX_LOWER ->
            nth_error table (N.to_nat v) = Some c -> hex_val c = Some v).
  { intros table Ht Hn.
    assert (Hlen : length table = 16) by (destruct Ht as [->| ->]; reflexivity).
    assert (Hv : (v < N.of_nat 16)%N).
    { assert (N.to_nat v < length table)%nat by (apply nth_error_Some; congruence). lia. }
    assert (Hchk : forallb (fun v =>
              match nth_error table (N.to_nat v) with
              | Some c => bool_decide (hex_val c = Some v)
              | None => true
              end) (map N.of_nat (seq 0 16)) = true)
      by (destruct Ht as [->| ->]; vm_compute; reflexivity).
    pose proof (forall_below _ 16 Hchk v Hv) as Hc. cbv beta in Hc. rewrite Hn in Hc.
    now apply bool_decide_eq_true_1 in Hc. }
  intros [H|H]; [apply (Hall spec.HEX_UPPER)|apply (Hall spec.HEX_LOWER)]; auto.
Qed.

Lemma hex_val_2 c : hex_val c = Some 2%N -> c = 50%N.
Proof.
  unfold hex_val.
  destruct ((48 <=? c) && (c <=? 57))%N eqn:E1;
    [|destruct ((65 <=? c) && (c <=? 70))%N eqn:E2;
      [|destruct ((97 <=? c) && (c <=? 102))%N eqn:E3; [|discriminate]]];
    intros [= Hv];
    match goal with H : (_ && _)%N = true |- _ =>
      apply andb_prop in H as [H1 H2]; apply N.leb_le in H1, H2 end; lia.
Qed.

(** ** One pass over the escapes *)

Lemma tokenize_plain c t : c <> PERCENT -> tokenize (c :: t) = Raw c :: tokenize t.
Proof. intros H. cbn [tokenize]. now destruct (decide (c = PERCENT)). Qed.

Lemma tokenize_escape h l a b rest :
  hex_val h = Some a -> hex_val l = Some b ->
  tokenize (PERCENT :: h :: l :: rest) = Esc (16 * a + b) :: tokenize rest.
Proof.
  intros Hh Hl. cbn [tokenize].
  destruct (decide (PERCENT = PERCENT)); [|congruence]. now rewrite Hh, Hl.
Qed.

Lemma tokenize_malformed y :
  (forall h l rest, y = h :: l :: rest -> hex_val h = None \/ hex_val l = None) ->
  tokenize (PERCENT :: y) = Raw PERCENT :: tokenize y.
Proof.
  intros H. cbn [tokenize]. destruct (decide (PERCENT = PERCENT)); [|congruence].
  destruct y as [|h [|l rest]]; try reflexivity.
  destruct (H h l rest eq_refl) as [-> | E]; [reflexivity|].
  rewrite E. now destruct (hex_val h).
Qed.

(** Every text is read either as a character followed by the reading of the
    rest, or as an escape followed by the reading of the rest. *)
Lemma tokenize_cases (P : str -> list token -> Prop) :
  P [] [] ->
  (forall c t, P t (tokenize t) -> P (c :: t) (Raw c :: tokenize t)) ->
  (forall h l a b rest,
     hex_val h = Some a -> hex_val l = Some b ->
     P rest (tokenize rest) ->
     P (PERCENT :: h :: l :: rest) (Esc (16 * a + b) :: tokenize rest)) ->
  forall x, P x (tokenize x).
Proof.
  intros Hnil Hraw Hesc x.
  assert (Hle : length x <= length x) by lia.
  revert Hle. generalize (length x) at 2 as n. intros n.
  revert x. induction n as [|n IH]; intros x Hle.
  { destruct x; [exact Hnil|cbn in Hle; lia]. }
  destruct x as [|c t]; [exact Hnil|]. cbn [length] in Hle.
  assert (Hcopy : P (c :: t) (Raw c :: tokenize t)) by (apply Hraw, IH; lia).
  cbn [tokenize]. destruct (decide (c = PERCENT)) as [->|_]; [|exact Hcopy].
  destruct t as [|h [|l rest]]; try exact Hcopy.
  destruct (hex_val h) as [a|] eqn:Hh; [|exact Hcopy].
  destruct (hex_val l) as [b|] eqn:Hl; [|exact Hcopy].
  apply Hesc; [assumption..|]. apply IH. cbn [length] in Hle. lia.
Qed.

Lemma tokenize_no_escape x :
  List.filter is_esc (tokenize x) = [] -> tokenize x = map Raw x.
Proof.
  apply (tokenize_cases (fun x T => List.filter is_esc T = [] -> T = map Raw x)).
  - reflexivity.
  - intros c t IH H. cbn [List.filter is_esc] in H. cbn [map]. f_equal. auto.
  - intros h l a b rest _ _ _ H. discriminate H.
Qed.

Lemma tokenize_no_percent x : ~ In PERCENT x -> tokenize x = map Raw x.
Proof.
  induction x as [|c t IH]; [reflexivity|]. intros H.
  rewrite tokenize_plain by (intros ->; apply H; now left).
  cbn [map]. f_equal. apply IH. intros Hin. apply H. now right.
Qed.

Lemma tokenize_weight x :
  weight (map token_char (tokenize x)) + length (List.filter is_esc (tokenize x))
  <= weight x.
Proof.
  apply (tokenize_cases (fun x T =>
           weight (map token_char T) + length (List.filter is_esc T) <= weight x)).
  - reflexivity.
  - intros c t IH. unfold weight in *. cbn [map token_char List.filter is_esc count_occ].
    destruct (N.eq_dec c PERCENT), (N.eq_dec c 50%N); lia.
  - intros h l a b rest Hh Hl IH. unfold weight in *.
    cbn [map token_char List.filter is_esc count_occ length].
    destruct (hex_val_bound _ _ Hh) as [_ Ha]. destruct (hex_val_bound _ _ Hl) as [_ Hb].
    destruct (N.eq_dec PERCENT PERCENT) as [_|Hn]; [|congruence].
    destruct (N.eq_dec PERCENT 50%N) as [Hn|_]; [discriminate Hn|].
    destruct (N.eq_dec (16 * a + b)%N PERCENT) as [E1|E1].
    + assert (a = 2%N) by (unfold PERCENT, chr in E1; lia). subst a.
      apply hex_val_2 in Hh. subst h.
      destruct (N.eq_dec 50%N PERCENT) as [Hn|_]; [discriminate Hn|].
      destruct (N.eq_dec 50%N 50%N) as [_|Hn]; [|congruence].
      destruct (N.eq_dec (16 * 2 + b)%N 50%N) as [E2|_]; [unfold PERCENT, chr in E1; lia|].
      destruct (N.eq_dec l PERCENT), (N.eq_dec l 50%N); lia.
    + destruct (N.eq_dec (16 * a + b)%N 50%N) as [E2|E2].
      * assert (b = 2%N) by lia. subst b. apply hex_val_2 in Hl. subst l.
        destruct (N.eq_dec 50%N PERCENT) as [Hn|_]; [discriminate Hn|].
        destruct (N.eq_dec 50%N 50%N) as [_|Hn]; [|congruence].
        destruct (N.eq_dec h PERCENT), (N.eq_dec h 50%N); lia.
      * destruct (N.eq_dec h PERCENT), (N.eq_dec h 50%N),
          (N.eq_dec l PERCENT), (N.eq_dec l 50%N); lia.
Qed.

(** ** Decoding the escaped bytes *)

Lemma flush_high st : Forall (fun d => (128 <= d)%N) (flush st).
Proof. destruct st; repeat constructor. unfold REPLACEMENT, chr. lia. Qed.

Lemma lead_spec b :
  wf (lead b).2
  /\ (((b < 128)%N /\ lead b = ([b], Idle))
      \/ ((128 <= b)%N /\ Forall (fun d => (128 <= d)%N) (lead b).1)).
Proof.
  unfold lead.
  repeat match goal with
         | |- context [(?a <? ?c)%N] => destruct (N.ltb_spec a c)
         | |- context [(?a =? ?c)%N] => destruct (N.eqb_spec a c)
         end; cbn [fst snd wf];
    (split; [try exact I; lia|]);
    first [left; split; [assumption|reflexivity]
          |right; split; [lia|repeat constructor; unfold REPLACEMENT, chr; lia]].
Qed.

Lemma continue_spec st b out st' :
  wf st -> continue st b = Some (out, st') ->
  (128 <= b)%N /\ wf st' /\ Forall (fun d => (128 <= d)%N) out.
Proof.
  destruct st as [|need acc lo hi]; [discriminate|].
  cbn [wf continue]. intros [Hlo Hacc].
  destruct ((lo <=? b) && (b <=? hi))%N eqn:E; [|discriminate].
  apply andb_prop in E as [E1 E2]. apply N.leb_le in E1, E2.
  destruct need as [|[|n]]; intros [= <- <-]; cbn [wf];
    (split; [lia|]); (split; [try exact I; destruct n; lia|]);
    repeat constructor; lia.
Qed.

Lemma count_high a out :
  (a < 128)%N -> Forall (fun d => (128 <= d)%N) out -> count out a = 0.
Proof.
  intros Ha H. apply count_none. intros Hin.
  rewrite List.Forall_forall in H. specialize (H _ Hin). lia.
Qed.

(** The characters below 128 of the decoded text are those read as
    themselves and the escaped bytes below 128. *)
Lemma utf8_decode_count a st ts :
  (a < 128)%N -> wf st ->
  count (utf8_decode st ts) a = count (map token_char ts) a.
Proof.
  intros Ha. revert st. induction ts as [|t ts IH]; intros st Hst.
  - cbn [utf8_decode map]. apply count_high; [exact Ha|apply flush_high].
  - destruct t as [c|b]; cbn [utf8_decode map token_char].
    + rewrite count_occ_app, (count_high a (flush st)) by (exact Ha || apply flush_high).
      cbn [count_occ]. now rewrite (IH Idle I).
    + destruct (continue st b) as [[out st']|] eqn:E.
      * destruct (continue_spec _ _ _ _ Hst E) as (Hb & Hst' & Hout).
        rewrite count_occ_app, (count_high a out), (IH st') by assumption.
        cbn [count_occ]. destruct (N.eq_dec b a); [lia|reflexivity].
      * destruct (lead_spec b) as [Hwf Hl].
        destruct (lead b) as [out st'] eqn:El. cbn [fst snd] in *.
        rewrite !count_occ_app, (count_high a (flush st)), (IH st')
          by (assumption || apply flush_high).
        cbn [count_occ].
        destruct Hl as [[Hb [= -> ->]]|[Hb Hout]].
        -- cbn [count_occ]. destruct (N.eq_dec b a); reflexivity.
        -- rewrite (count_high a out) by assumption.
           destruct (N.eq_dec b a); [lia|reflexivity].
Qed.

Lemma utf8_decode_raw x : utf8_decode Idle (map Raw x) = x.
Proof. induction x as [|c t IH]; [reflexivity|]. cbn. now rewrite IH. Qed.

(** ** The decoding pass [unquote] *)

(** Nothing to decode: no ['+'] and no ['%']. *)
Lemma unquote_fixed x : ~ In PLUS x -> ~ In PERCENT x -> unquote x = x.
Proof.
  intros Hp Hc. unfold unquote. rewrite replace1_absent by assumption.
  rewrite tokenize_no_percent by assumption. apply utf8_decode_raw.
Qed.

Lemma unquote_weight x :
  weight (unquote x)
  + length (List.filter is_esc (tokenize (replace1 PLUS [SP] x))) <= weight x.
Proof.
  pose proof (tokenize_weight (replace1 PLUS [SP] x)) as H.
  unfold weight, unquote in *.
  rewrite !utf8_decode_count by (exact I || reflexivity).
  rewrite !(replace1_count PLUS [SP] x) in H
    by (discriminate || (intros [E|[]]; discriminate E)).
  exact H.
Qed.

Lemma replace_plus_cons c t :
  replace1 PLUS [SP] (c :: t)
  = (if decide (c = PLUS) then SP else c) :: replace1 PLUS [SP] t.
Proof. rewrite replace1_cons. now destruct (decide (c = PLUS)). Qed.

Lemma replace_plus_other c t :
  c <> PLUS -> replace1 PLUS [SP] (c :: t) = c :: replace1 PLUS [SP] t.
Proof. intros H. rewrite replace_plus_cons. now destruct (decide (c = PLUS)). Qed.

Lemma unquote_plus y : unquote (PLUS :: y) = SP :: unquote y.
Proof.
  unfold unquote. rewrite replace_plus_cons.
  destruct (decide (PLUS = PLUS)); [|congruence].
  rewrite tokenize_plain by discriminate. reflexivity.
Qed.

Lemma unquote_plain c y :
  c <> PLUS -> c <> PERCENT -> unquote (c :: y) = c :: unquote y.
Proof.
  intros H1 H2. unfold unquote. rewrite replace_plus_other by assumption.
  rewrite tokenize_plain by assumption. reflexivity.
Qed.

Lemma hex_val_not_plus h a : hex_val h = Some a -> h <> PLUS.
Proof. intros H ->. discriminate H. Qed.

(** An escaped byte read when no sequence is open. *)
Lemma unquote_escape h l a b y :
  hex_val h = Some a -> hex_val l = Some b ->
  unquote (PERCENT :: h :: l :: y)
  = utf8_decode Idle (Esc (16 * a + b) :: tokenize (replace1 PLUS [SP] y)).
Proof.
  intros Hh Hl. unfold unquote.
  rewrite (replace_plus_other PERCENT) by discriminate.
  rewrite (replace_plus_other h) by (eapply hex_val_not_plus; eassumption).
  rewrite (replace_plus_other l) by (eapply hex_val_not_plus; eassumption).
  now rewrite (tokenize_escape h l a b).
Qed.

Lemma unquote_escape_ascii h l a b y :
  spec.hexdigit h a -> spec.hexdigit l b -> (16 * a + b < 128)%N ->
  unquote (PERCENT :: h :: l :: y) = (16 * a + b)%N :: unquote y.
Proof.
  intros Hh Hl Hlt. apply hexdigit_hex_val in Hh, Hl.
  rewrite (unquote_escape h l a b) by assumption.
  cbn [utf8_decode continue]. unfold lead.
  rewrite (proj2 (N.ltb_lt _ _) Hlt). reflexivity.
Qed.

Lemma unquote_malformed y :
  ~ spec.two_hexdigits y -> unquote (PERCENT :: y) = PERCENT :: unquote y.
Proof.
  intros H. unfold unquote. rewrite (replace_plus_other PERCENT) by discriminate.
  rewrite tokenize_malformed; [reflexivity|].
  intros h l rest E.
  destruct (hex_val h) as [a|] eqn:Hh; [|now left].
  destruct (hex_val l) as [b|] eqn:Hl; [|now right].
  exfalso. apply H.
  destruct y as [|h' [|l' rest']]; [discriminate E| |].
  { rewrite replace_plus_cons in E. injection E as _ E. discriminate E. }
  rewrite !replace_plus_cons in E. injection E as E1 E2 _.
  destruct (decide (h' = PLUS)); [subst h; discriminate Hh|].
  destruct (decide (l' = PLUS)); [subst l; discriminate Hl|].
  subst h' l'. exists h, l, rest', a, b.
  auto using hex_val_hexdigit.
Qed.

Lemma escape_digits b :
  (b < 256)%N ->
  exists h l,
    spec.escape b = [PERCENT; h; l]
    /\ hex_val h = Some (b / 16)%N /\ hex_val l = Some (b mod 16)%N.
Proof.
  intros Hb. eexists _, _. split; [reflexivity|].
  assert (Hall : forallb (fun b =>
            bool_decide (hex_val (nth (N.to_nat (b / 16)) spec.HEX_UPPER 0%N)
                         = Some (b / 16)%N)
            && bool_decide (hex_val (nth (N.to_nat (b mod 16)) spec.HEX_UPPER 0%N)
                            = Some (b mod 16)%N))
          (map N.of_nat (seq 0 256)) = true) by (vm_compute; reflexivity).
  pose proof (forall_below _ 256 Hall b Hb) as H. cbv beta in H.
  apply andb_prop in H as [H1 H2].
  apply bool_decide_eq_true_1 in H1, H2. auto.
Qed.

Lemma unquote_escaped_byte b y :
  (b < 256)%N ->
  unquote (spec.escape b ++ y)
  = utf8_decode Idle (Esc b :: tokenize (replace1 PLUS [SP] y)).
Proof.
  intros Hb. destruct (escape_digits b Hb) as (h & l & -> & Hh & Hl).
  cbn [app]. rewrite (unquote_escape h l _ _ y Hh Hl).
  do 3 f_equal. symmetry. apply N.div_mod'.
Qed.

(** ** UTF-8: what is encoded is decoded, what is not UTF-8 is replaced *)

Lemma lead_ascii b : (b < 128)%N -> lead b = ([b], Idle).
Proof. intros H. unfold lead. now rewrite (proj2 (N.ltb_lt _ _) H). Qed.

Lemma lead_invalid b :
  (128 <= b < 194 \/ 245 <= b)%N -> lead b = ([REPLACEMENT], Idle).
Proof.
  intros H. unfold lead.
  repeat match goal with
         | |- context [(?a <? ?c)%N] => destruct (N.ltb_spec a c)
         end; try reflexivity; lia.
Qed.

Lemma lead_2 b :
  (194 <= b < 224)%N -> lead b = ([], Pending 1 (b - 192) 128 191).
Proof.
  intros H. unfold lead.
  repeat match goal with
         | |- context [(?a <? ?c)%N] => destruct (N.ltb_spec a c)
         end; try reflexivity; lia.
Qed.

Lemma lead_3 b :
  (224 <= b < 240)%N ->
  lead b = ([], Pending 2 (b - 224) (if (b =? 224)%N then 160 else 128)%N
                                    (if (b =? 237)%N then 159 else 191)%N).
Proof.
  intros H. unfold lead.
  repeat match goal with
         | |- context [(?a <? ?c)%N] => destruct (N.ltb_spec a c)
         end; try reflexivity; lia.
Qed.

Lemma lead_4 b :
  (240 <= b < 245)%N ->
  lead b = ([], Pending 3 (b - 240) (if (b =? 240)%N then 144 else 128)%N
                                    (if (b =? 244)%N then 143 else 191)%N).
Proof.
  intros H. unfold lead.
  repeat match goal with
         | |- context [(?a <? ?c)%N] => destruct (N.ltb_spec a c)
         end; try reflexivity; lia.
Qed.

Lemma continue_last acc lo hi b :
  (lo <= b <= hi)%N ->
  continue (Pending 1 acc lo hi) b = Some ([(acc * 64 + (b - 128))%N], Idle).
Proof.
  intros [H1 H2]. cbn [continue].
  now rewrite (proj2 (N.leb_le _ _) H1), (proj2 (N.leb_le _ _) H2).
Qed.

Lemma continue_more n acc lo hi b :
  (lo <= b <= hi)%N ->
  continue (Pending (S (S n)) acc lo hi) b
  = Some ([], Pending (S n) (acc * 64 + (b - 128)) 128 191).
Proof.
  intros [H1 H2]. cbn [continue].
  now rewrite (proj2 (N.leb_le _ _) H1), (proj2 (N.leb_le _ _) H2).
Qed.

Lemma utf8_decode_lead b ts :
  utf8_decode Idle (Esc b :: ts) = (lead b).1 ++ utf8_decode (lead b).2 ts.
Proof. cbn [utf8_decode continue flush app]. now destruct (lead b). Qed.

Lemma utf8_decode_continue st b out st' ts :
  continue st b = Some (out, st') ->
  utf8_decode st (Esc b :: ts) = out ++ utf8_decode st' ts.
Proof. intros H. cbn [utf8_decode]. now rewrite H. Qed.

Ltac Zify.zify_post_hook ::= Z.to_euclidean_division_equations.

(** Decoding the UTF-8 encoding of a scalar value gives it back. *)
Lemma utf8_decode_encode cp ts :
  spec.scalar cp ->
  utf8_decode Idle (map Esc (spec.utf8_encode cp) ++ ts) = cp :: utf8_decode Idle ts.
Proof.
  unfold spec.scalar, spec.utf8_encode. intros Hs.
  destruct (N.ltb_spec cp 128) as [H1|H1];
    [|destruct (N.ltb_spec cp 2048) as [H2|H2];
      [|destruct (N.ltb_spec cp 65536) as [H3|H3]]];
    cbn [map app].
  - rewrite utf8_decode_lead, lead_ascii by assumption. reflexivity.
  - rewrite utf8_decode_lead, lead_2 by lia. cbn [fst snd app].
    erewrite utf8_decode_continue by (apply continue_last; lia).
    cbn [app]. f_equal. lia.
  - rewrite utf8_decode_lead, lead_3 by lia. cbn [fst snd app].
    erewrite utf8_decode_continue
      by (apply continue_more;
          destruct (N.eqb_spec (224 + cp / 4096) 224),
                   (N.eqb_spec (224 + cp / 4096) 237); lia).
    cbn [app].
    erewrite utf8_decode_continue by (apply continue_last; lia).
    cbn [app]. f_equal. lia.
  - rewrite utf8_decode_lead, lead_4 by lia. cbn [fst snd app].
    erewrite utf8_decode_continue
      by (apply continue_more;
          destruct (N.eqb_spec (240 + cp / 262144) 240),
                   (N.eqb_spec (240 + cp / 262144) 244); lia).
    cbn [app].
    erewrite utf8_decode_continue by (apply continue_more; lia).
    cbn [app].
    erewrite utf8_decode_continue by (apply continue_last; lia).
    cbn [app]. f_equal. lia.
Qed.

Lemma utf8_encode_bytes cp :
  spec.scalar cp -> Forall (fun b => (b < 256)%N) (spec.utf8_encode cp).
Proof.
  unfold spec.scalar, spec.utf8_encode. intros Hs.
  destruct (N.ltb_spec cp 128) as [H1|H1];
    [|destruct (N.ltb_spec cp 2048) as [H2|H2];
      [|destruct (N.ltb_spec cp 65536) as [H3|H3]]];
    repeat constructor; lia.
Qed.

Lemma unquote_escaped_bytes bytes y :
  Forall (fun b => (b < 256)%N) bytes ->
  forall st,
    utf8_decode st (tokenize (replace1 PLUS [SP] (flat_map spec.escape bytes ++ y)))
    = utf8_decode st (map Esc bytes ++ tokenize (replace1 PLUS [SP] y)).
Proof.
  induction 1 as [|b bytes Hb _ IH]; intros st; [reflexivity|].
  cbn [flat_map map]. rewrite <- !app_assoc.
  destruct (escape_digits b Hb) as (h & l & -> & Hh & Hl).
  cbn [app].
  rewrite (replace_plus_other PERCENT) by discriminate.
  rewrite (replace_plus_other h) by (eapply hex_val_not_plus; eassumption).
  rewrite (replace_plus_other l) by (eapply hex_val_not_plus; eassumption).
  rewrite (tokenize_escape h l _ _ _ Hh Hl).
  replace (16 * (b / 16) + b mod 16)%N with b by apply N.div_mod'.
  cbn [utf8_decode].
  destruct (continue st b) as [[out st']|]; [now rewrite IH|].
  destruct (lead b) as [out st']. now rewrite IH.
Qed.

(** A character written as the escapes of its UTF-8 bytes is decoded to that
    character. *)
Lemma unquote_percent_encode cp y :
  spec.scalar cp -> unquote (spec.percent_encode cp ++ y) = cp :: unquote y.
Proof.
  intros Hs. unfold unquote, spec.percent_encode.
  rewrite unquote_escaped_bytes by now apply utf8_encode_bytes.
  now apply utf8_decode_encode.
Qed.

(** The case of the digits of an escape does not matter. *)
Lemma unquote_escape_canonical h l a b y :
  spec.hexdigit h a -> spec.hexdigit l b ->
  unquote (PERCENT :: h :: l :: y) = unquote (spec.escape (16 * a + b) ++ y).
Proof.
  intros Hh Hl. apply hexdigit_hex_val in Hh, Hl.
  destruct (hex_val_bound _ _ Hh) as [_ Ha]. destruct (hex_val_bound _ _ Hl) as [_ Hb].
  rewrite (unquote_escape h l a b) by assumption.
  rewrite unquote_escaped_byte by lia. reflexivity.
Qed.

Lemma lead_flush b :
  (128 <= b)%N -> (lead b).1 ++ flush (lead b).2 = [REPLACEMENT].
Proof.
  intros H. unfold lead.
  repeat match goal with
         | |- context [(?a <? ?c)%N] => destruct (N.ltb_spec a c)
         end; try reflexivity; lia.
Qed.

(** An escaped byte that is no lead byte of UTF-8 is replaced. *)
Lemma unquote_invalid_start b y :
  (128 <= b < 194 \/ 245 <= b < 256)%N ->
  unquote (spec.escape b ++ y) = REPLACEMENT :: unquote y.
Proof.
  intros H. rewrite unquote_escaped_byte by lia.
  rewrite utf8_decode_lead, lead_invalid by lia. reflexivity.
Qed.

(** An escaped byte above 127 that no escape follows is replaced. *)
Lemma unquote_lone_byte b c y :
  (128 <= b < 256)%N -> c <> PERCENT ->
  unquote (spec.escape b ++ c :: y) = REPLACEMENT :: unquote (c :: y).
Proof.
  intros Hb Hc. rewrite unquote_escaped_byte by lia. unfold unquote.
  rewrite replace_plus_cons.
  set (c' := if decide (c = PLUS) then SP else c).
  assert (Hc' : c' <> PERCENT) by (unfold c'; destruct (decide (c = PLUS)); auto; discriminate).
  rewrite tokenize_plain by assumption.
  rewrite utf8_decode_lead. cbn [utf8_decode flush app].
  rewrite app_assoc, lead_flush by lia. reflexivity.
Qed.

Lemma unquote_last_byte b :
  (128 <= b < 256)%N -> unquote (spec.escape b) = [REPLACEMENT].
Proof.
  intros Hb. rewrite <- (app_nil_r (spec.escape b)).
  rewrite unquote_escaped_byte by lia.
  rewrite utf8_decode_lead. cbn [replace1 flat_map tokenize utf8_decode].
  apply lead_flush. lia.
Qed.

(** ** [lower] on ASCII *)

Lemma to_lower_full_upper c :
  (65 <= c <= 90)%N -> to_lower_full c = [(c + 32)%N].
Proof.
  intros [H1 H2].
  assert (Hall : forallb (fun c =>
            if (65 <=? c)%N then bool_decide (to_lower_full c = [(c + 32)%N]) else true)
          (map N.of_nat (seq 0 91)) = true) by (vm_compute; reflexivity).
  pose proof (forall_below _ 91 Hall c ltac:(lia)) as H. cbv beta in H.
  rewrite (proj2 (N.leb_le _ _) H1) in H. now apply bool_decide_eq_true_1 in H.
Qed.

Lemma to_lower_full_ascii c :
  (c < 128)%N -> ~ (65 <= c <= 90)%N -> to_lower_full c = [c].
Proof.
  intros H1 H2.
  assert (Hall : forallb (fun c =>
            if ((65 <=? c) && (c <=? 90))%N then true
            else bool_decide (to_lower_full c = [c]))
          (map N.of_nat (seq 0 128)) = true) by (vm_compute; reflexivity).
  pose proof (forall_below _ 128 Hall c ltac:(lia)) as H. cbv beta in H.
  destruct ((65 <=? c) && (c <=? 90))%N eqn:E.
  - apply andb_prop in E as [E1 E2]. apply N.leb_le in E1, E2. lia.
  - now apply bool_decide_eq_true_1 in H.
Qed.

Lemma to_lower_full_latin1 c :
  (192 <= c <= 222)%N -> c <> 215%N -> to_lower_full c = [(c + 32)%N].
Proof.
  intros [H1 H2] H3.
  assert (Hall : forallb (fun c =>
            if (192 <=? c)%N && negb (c =? 215)%N
            then bool_decide (to_lower_full c = [(c + 32)%N]) else true)
          (map N.of_nat (seq 0 223)) = true) by (vm_compute; reflexivity).
  pose proof (forall_below _ 223 Hall c ltac:(lia)) as H. cbv beta in H.
  rewrite (proj2 (N.leb_le _ _) H1), (proj2 (N.eqb_neq _ _) H3) in H.
  now apply bool_decide_eq_true_1 in H.
Qed.

Lemma lower_no_sigma x :
  ~ In CAPITAL_SIGMA x -> lower x = flat_map to_lower_full x.
Proof.
  unfold lower. generalize (@nil N) as before.
  induction x as [|c t IH]; intros before H; [reflexivity|].
  rewrite lower_go_cons. cbn [flat_map].
  destruct (decide (c = CAPITAL_SIGMA)) as [->|_]; [exfalso; apply H; now left|].
  f_equal. apply IH. intros Hin. apply H. now right.
Qed.

Lemma lower_go_fixed before x :
  Forall (fun c => c <> CAPITAL_SIGMA /\ to_lower_full c = [c]) x ->
  lower_go before x = x.
Proof.
  intros H. revert before. induction H as [|c t [Hc Hl] _ IH]; intros before.
  - reflexivity.
  - rewrite lower_go_cons. destruct (decide (c = CAPITAL_SIGMA)); [contradiction|].
    rewrite Hl. cbn [app]. f_equal. apply IH.
Qed.

Lemma lower_no_upper x d : In d (lower x) -> ~ (65 <= d <= 90)%N.
Proof.
  intros H Hd. apply lower_go_In in H as [[_ [_ Hs]]|(H & _)]; [|lia].
  pose proof (to_lower_full_upper d Hd) as E. unfold to_lower_full in E.
  rewrite Hs in E. injection E as E. lia.
Qed.

(** ** The whitespace step on a text cut into words and gaps *)

Lemma remove_whitespace_blank g :
  Forall (fun c => isspace c = true) g -> remove_whitespace g = [].
Proof. intros H. unfold remove_whitespace. now rewrite split_all_space. Qed.

Lemma remove_whitespace_last_word g w g' :
  Forall (fun c => isspace c = true) g -> is_word w ->
  Forall (fun c => isspace c = true) g' ->
  remove_whitespace (g ++ w ++ g') = w.
Proof.
  intros Hg Hw Hg'. unfold remove_whitespace.
  rewrite split_lead by assumption. now rewrite split_word_trail.
Qed.

Lemma remove_whitespace_word g w gap x :
  Forall (fun c => isspace c = true) g -> is_word w ->
  gap <> [] -> Forall (fun c => isspace c = true) gap ->
  remove_whitespace x <> [] ->
  remove_whitespace (g ++ w ++ gap ++ x) = w ++ SP :: remove_whitespace x.
Proof.
  intros Hg Hw Hne Hgap Hx. unfold remove_whitespace in *.
  rewrite split_lead by assumption. rewrite split_word_gap by assumption.
  destruct (split x) as [|w' ws]; [now destruct Hx|]. reflexivity.
Qed.

(** ** The normaliser [_transform] *)

Lemma transform_nonempty (p : str) :
  p <> [] ->
  _transform (Some p) = Ok (remove_whitespace (lower (remove_new_line (unquote p)))).
Proof. destruct p; [congruence|reflexivity]. Qed.

(** C1. For every non-empty payload [_transform] is the four steps of section
    4.1 in their order, and each step does what the section says.
    Step 1, one pass from left to right: a ['+'] becomes a space; an escape
    [%XX] of a byte below 128 becomes the character with that code; the case
    of the two digits does not matter; the escapes of the UTF-8 bytes of a
    character become that character; an escaped byte above 127 becomes
    U+FFFD when it is no lead byte of UTF-8 or when no escape follows it; a
    ['%'] that no two hexadecimal digits follow stays, and so does every
    other character; what an escape decodes to is not decoded again.
    Step 2: LF and CR are dropped, every other character stays.
    Step 3: [lower] maps A..Z to a..z and the capitals of Latin-1 to their
    small letters, leaves every other character below 128 alone, works
    character by character (the capital sigma apart, which becomes the final
    small sigma at the end of a word), and leaves no capital ASCII letter and
    nothing it would change again.
    Step 4: whitespace is what Python's [isspace] says; a text of whitespace
    only becomes empty, leading and trailing whitespace goes, and a gap of
    whitespace between two words becomes one space.
    Nothing else is done: a text in which none of the four steps finds
    anything to do (for instance one with HTML entities or comment markers)
    comes back unchanged. *)
Theorem transform_is_the_four_steps (p : str) :
  p <> [] ->
  _transform (Some p)
    = Ok (remove_whitespace (lower (remove_new_line (unquote p))))
  (* step 1 *)
  /\ (forall y, unquote (PLUS :: y) = SP :: unquote y)
  /\ (forall h l a b y,
        spec.hexdigit h a -> spec.hexdigit l b -> (16 * a + b < 128)%N ->
        unquote (PERCENT :: h :: l :: y) = (16 * a + b)%N :: unquote y)
  /\ (forall h l a b y,
        spec.hexdigit h a -> spec.hexdigit l b ->
        unquote (PERCENT :: h :: l :: y) = unquote (spec.escape (16 * a + b) ++ y))
  /\ (forall cp y,
        spec.scalar cp -> unquote (spec.percent_encode cp ++ y) = cp :: unquote y)
  /\ (forall b y,
        (128 <= b < 194 \/ 245 <= b < 256)%N ->
        unquote (spec.escape b ++ y) = REPLACEMENT :: unquote y)
  /\ (forall b c y,
        (128 <= b < 256)%N -> c <> PERCENT ->
        unquote (spec.escape b ++ c :: y) = REPLACEMENT :: unquote (c :: y))
  /\ (forall b, (128 <= b < 256)%N -> unquote (spec.escape b) = [REPLACEMENT])
  /\ (forall y, ~ spec.two_hexdigits y -> unquote (PERCENT :: y) = PERCENT :: unquote y)
  /\ (forall c y, c <> PLUS -> c <> PERCENT -> unquote (c :: y) = c :: unquote y)
  /\ unquote (py "%2541") = py "%41"
  (* step 2 *)
  /\ (forall y, remove_new_line (LF :: y) = remove_new_line y)
  /\ (forall y, remove_new_line (CR :: y) = remove_new_line y)
  /\ (forall c y, c <> LF -> c <> CR ->
        remove_new_line (c :: y) = c :: remove_new_line y)
  /\ (forall x, remove_new_line x = spec.strip_newlines x)
  (* step 3 *)
  /\ (forall c, (65 <= c <= 90)%N -> to_lower_full c = [(c + 32)%N])
  /\ (forall c, (c < 128)%N -> ~ (65 <= c <= 90)%N -> to_lower_full c = [c])
  /\ (forall c, (192 <= c <= 222)%N -> c <> 215%N -> to_lower_full c = [(c + 32)%N])
  /\ (forall x, ~ In CAPITAL_SIGMA x -> lower x = flat_map to_lower_full x)
  /\ (lower [913; 931; 32; 931; 913]%N = [945; 962; 32; 963; 945]%N)
  /\ (forall x d, In d (lower x) -> ~ (65 <= d <= 90)%N)
  /\ (forall x, lower (lower x) = lower x)
  (* step 4 *)
  /\ (forall c, isspace c = true
                <-> In c [9; 10; 11; 12; 13; 28; 29; 30; 31; 32; 133; 160; 5760;
                          8192; 8193; 8194; 8195; 8196; 8197; 8198; 8199; 8200;
                          8201; 8202; 8232; 8233; 8239; 8287; 12288]%N)
  /\ (forall g, Forall (fun c => isspace c = true) g -> remove_whitespace g = [])
  /\ (forall g w g',
        Forall (fun c => isspace c = true) g -> is_word w ->
        Forall (fun c => isspace c = true) g' ->
        remove_whitespace (g ++ w ++ g') = w)
  /\ (forall g w gap x,
        Forall (fun c => isspace c = true) g -> is_word w ->
        gap <> [] -> Forall (fun c => isspace c = true) gap ->
        remove_whitespace x <> [] ->
        remove_whitespace (g ++ w ++ gap ++ x) = w ++ SP :: remove_whitespace x)
  /\ (forall x, remove_whitespace x = spec.collapse_whitespace x)
  (* nothing else *)
  /\ (Forall (fun c => c <> PLUS /\ c <> PERCENT /\ isspace c = false
                       /\ c <> CAPITAL_SIGMA /\ to_lower_full c = [c]) p ->
      _transform (Some p) = Ok p).
Proof.
  intros Hne. rewrite (transform_nonempty p Hne).
  split; [reflexivity|].
  split; [apply unquote_plus|].
  split; [apply unquote_escape_ascii|].
  split; [apply unquote_escape_canonical|].
  split; [apply unquote_percent_encode|].
  split; [apply unquote_invalid_start|].
  split; [apply unquote_lone_byte|].
  split; [apply unquote_last_byte|].
  split; [apply unquote_malformed|].
  split; [apply unquote_plain|].
  split; [reflexivity|].
  split; [reflexivity|].
  split; [reflexivity|].
  split.
  { intros c y H1 H2. unfold remove_new_line. rewrite !replace1_cons.
    destruct (decide (c = LF)); [contradiction|]. cbn [app]. rewrite replace1_cons.
    now destruct (decide (c = CR)). }
  split; [apply remove_new_line_is_strip_newlines|].
  split; [apply to_lower_full_upper|].
  split; [apply to_lower_full_ascii|].
  split; [apply to_lower_full_latin1|].
  split; [apply lower_no_sigma|].
  split; [reflexivity|].
  split; [apply lower_no_upper|].
  split; [apply lower_idem|].
  split; [apply isspace_In|].
  split; [apply remove_whitespace_blank|].
  split; [apply remove_whitespace_last_word|].
  split; [apply remove_whitespace_word|].
  split; [apply remove_whitespace_is_collapse_whitespace|].
  intros Hclean. rewrite List.Forall_forall in Hclean.
  assert (Hu : unquote p = p).
  { apply unquote_fixed; intros H; apply Hclean in H; tauto. }
  assert (Hn : remove_new_line p = p).
  { apply remove_new_line_fixed; intros H; apply Hclean in H;
      destruct H as (_ & _ & H & _); discriminate H. }
  assert (Hl : lower p = p).
  { apply lower_go_fixed, List.Forall_forall. intros c H. apply Hclean in H. tauto. }
  rewrite Hu, Hn, Hl. f_equal. unfold remove_whitespace.
  rewrite split_one_word; [reflexivity|].
  split; [assumption|]. apply List.Forall_forall. intros c H.
  apply Hclean in H. unfold nonspace. tauto.
Qed.

(** A payload on which every step has something to do, the escapes of a
    character of two UTF-8 bytes, and a text with HTML entities and a comment
    marker, which comes back unchanged. *)
Lemma transform_is_the_four_steps_witness :
  (let p := py "  %3Cb%3E+SELECT%0a+1" ++ [CR; LF] ++ py " FROM    T " in
   _transform (Some p) = Ok (py "<b> select 1 from t")
   /\ unquote p = py "  <b> SELECT" ++ [LF] ++ py " 1" ++ [CR; LF] ++ py " FROM    T "
   /\ remove_new_line (unquote p) = py "  <b> SELECT 1 FROM    T "
   /\ lower (remove_new_line (unquote p)) = py "  <b> select 1 from    t ")
  /\ unquote (py "%C3%A9") = [233%N]
  /\ _transform (Some (py "&lt;b&gt;/**/")) = Ok (py "&lt;b&gt;/**/").
Proof.
  split; [|split].
  - cbv zeta.
    destruct (transform_is_the_four_steps
                (py "  %3Cb%3E+SELECT%0a+1" ++ [CR; LF] ++ py " FROM    T "))
      as (H1 & _); [discriminate|].
    split; [rewrite H1; reflexivity|]. repeat split.
  - destruct (transform_is_the_four_steps (py "x")) as (_ & _ & _ & _ & H & _);
      [discriminate|].
    assert (Hs : spec.scalar 233) by (left; reflexivity).
    exact (H 233%N [] Hs).
  - assert (Hne : py "&lt;b&gt;/**/" <> []) by discriminate.
    destruct (transform_is_the_four_steps (py "&lt;b&gt;/**/") Hne) as (_ & H).
    repeat (destruct H as (_ & H)). apply H.
    repeat constructor; discriminate.
Defined.

(** The three later steps leave a normalised text alone. *)
Lemma normal_form_fixed_by_later_steps (z : str) :
  let y := remove_whitespace (lower z) in
  remove_whitespace (lower (remove_new_line y)) = y.
Proof.
  intros y.
  rewrite remove_new_line_fixed
    by (apply remove_whitespace_no_LF || apply remove_whitespace_no_CR).
  assert (Hl : lower y = y).
  { apply lower_fixed, List.Forall_forall. intros c Hc.
    apply remove_whitespace_In in Hc as [->|Hc].
    - apply isspace_stable. reflexivity.
    - pose proof (lower_stable z) as Hs. rewrite List.Forall_forall in Hs. auto. }
  rewrite Hl. apply remove_whitespace_idem.
Qed.

(** The three later steps keep the number of ['%'] and of ['2']. *)
Lemma later_steps_weight z :
  weight (remove_whitespace (lower (remove_new_line z))) = weight z.
Proof.
  unfold weight.
  rewrite !remove_whitespace_count by reflexivity.
  rewrite !lower_count by reflexivity.
  now rewrite !remove_new_line_count by discriminate.
Qed.

(** A text that the three later steps map to [y] and that the decoding pass
    produced from [y] is [y] itself. *)
Lemma decoding_pass_fixed (y : str) :
  remove_whitespace (lower (remove_new_line (unquote y))) = y -> unquote y = y.
Proof.
  intros E.
  pose proof (unquote_weight y) as Hw.
  pose proof (later_steps_weight (unquote y)) as Hl. rewrite E in Hl.
  assert (Hesc : List.filter is_esc (tokenize (replace1 PLUS [SP] y)) = []).
  { destruct (List.filter is_esc _); [reflexivity|cbn [length] in Hw; lia]. }
  assert (Hd : unquote y = replace1 PLUS [SP] y).
  { unfold unquote. rewrite (tokenize_no_escape _ Hesc). apply utf8_decode_raw. }
  assert (Hplus : ~ In PLUS y).
  { rewrite <- E. intros H.
    apply remove_whitespace_In in H as [H|H]; [discriminate H|].
    apply lower_In_PLUS, remove_new_line_In in H as [H _].
    rewrite Hd in H. revert H. now apply replace1_char_absent. }
  rewrite Hd. now apply replace1_absent.
Qed.

(** C2 (as amended). When [x] normalises to [y], normalising [y] again gives
    [y] exactly when [y] is not empty and the decoding pass leaves [y]
    unchanged; in particular whenever [y] is not empty and holds neither
    ['+'] nor ['%']. *)
Theorem transform_idempotent_iff_decoded (x y : str) :
  _transform (Some x) = Ok y ->
  (_transform (Some y) = Ok y <-> y <> [] /\ unquote y = y)
  /\ (y <> [] -> ~ In PLUS y -> ~ In PERCENT y -> _transform (Some y) = Ok y).
Proof.
  intros Hx.
  destruct x as [|c t]; [discriminate Hx|].
  cbn [_transform] in Hx. injection Hx as Hy.
  assert (Hsuff : y <> [] -> unquote y = y -> _transform (Some y) = Ok y).
  { intros Hne Hu. rewrite transform_nonempty by assumption. rewrite Hu.
    f_equal. rewrite <- Hy at 1 2. apply normal_form_fixed_by_later_steps. }
  split; [split|].
  - intros H. destruct y as [|d u]; [discriminate H|].
    split; [discriminate|].
    cbn [_transform] in H. injection H as H. now apply decoding_pass_fixed.
  - intros [Hne Hu]. now apply Hsuff.
  - intros Hne Hp Hc. apply Hsuff; [exact Hne|]. now apply unquote_fixed.
Qed.

(** A payload whose normal form holds nothing left to decode. *)
Lemma transform_idempotent_iff_decoded_witness :
  _transform (Some (py "  SELECT%20*  FROM   T ")) = Ok (py "select * from t")
  /\ _transform (Some (py "select * from t")) = Ok (py "select * from t").
Proof.
  split; [reflexivity|].
  destruct (transform_idempotent_iff_decoded
              (py "  SELECT%20*  FROM   T ") (py "select * from t") eq_refl)
    as [_ H].
  apply H; [discriminate| |]; intros Hin;
    repeat (destruct Hin as [Hin|Hin]; [discriminate Hin|]); exact Hin.
Defined.

(** C2 (as stated) fails: one decoding pass can leave an escape behind, which
    the second call decodes; and a whitespace-only payload normalises to the
    empty string, which the second call rejects. *)
Lemma transform_not_idempotent :
  (_transform (Some (py "%2541")) = Ok (py "%41")
   /\ _transform (Some (py "%41")) = Ok (py "a"))
  /\ (_transform (Some (py " ")) = Ok []
      /\ _transform (Some []) = Raise InvalidInputError).
Proof. repeat split. Qed.

(** C3. An empty or absent payload makes [_transform], [predict] and
    [predict_proba] raise the [ValueError] "payload is required." (the
    specification's [InvalidInputError]); the pipeline is never consulted, so
    no label comes back and no other exception can arise. *)
Theorem empty_payload_raises_InvalidInputError (self : PayloadClassifier) :
  _transform None = Raise InvalidInputError
  /\ _transform (Some []) = Raise InvalidInputError
  /\ predict self None = Raise InvalidInputError
  /\ predict self (Some []) = Raise InvalidInputError
  /\ predict_proba self None = Raise InvalidInputError
  /\ predict_proba self (Some []) = Raise InvalidInputError.
Proof. repeat split. Qed.

(** C8. For every non-empty payload the normalised text exists and holds
    neither LF nor CR: none is left after [remove_new_line], lowercasing
    brings none back, and neither does the whitespace step. *)
Theorem transform_has_no_newline (p : str) :
  p <> [] ->
  exists y, _transform (Some p) = Ok y
    /\ ~ In LF y /\ ~ In CR y
    /\ (let a := remove_new_line (unquote p) in
        ~ In LF a /\ ~ In CR a
        /\ ~ In LF (lower a) /\ ~ In CR (lower a)).
Proof.
  intros Hne. eexists. split; [apply transform_nonempty, Hne|].
  split; [apply remove_whitespace_no_LF|].
  split; [apply remove_whitespace_no_CR|].
  cbv zeta.
  assert (H1 : ~ In LF (remove_new_line (unquote p)))
    by (rewrite remove_new_line_In; tauto).
  assert (H2 : ~ In CR (remove_new_line (unquote p)))
    by (rewrite remove_new_line_In; tauto).
  repeat split; try assumption.
  - intros H. now apply lower_In_LF in H.
  - intros H. now apply lower_In_CR in H.
Qed.

(** Newlines typed in and newlines hidden in escapes are both gone. *)
Lemma transform_has_no_newline_witness :
  exists y, _transform (Some (py "A" ++ [LF; CR] ++ py "b%0a%0Dc")) = Ok y
    /\ ~ In LF y /\ ~ In CR y /\ y = py "abc".
Proof.
  destruct (transform_has_no_newline (py "A" ++ [LF; CR] ++ py "b%0a%0Dc"))
    as (y & Hy & H1 & H2 & _); [discriminate|].
  exists y. repeat split; try assumption.
  vm_compute in Hy. now injection Hy as <-.
Defined.

(** C10. A non-empty payload made of whitespace only is accepted by
    [_transform] and normalises to the empty string, which [predict] and
    [predict_proba] hand to the pipeline: the emptiness check looks at the
    payload before normalisation only. *)
Theorem whitespace_payload_reaches_classifier (p : str) (self : PayloadClassifier) :
  p <> [] ->
  Forall (fun c => isspace c = true) p ->
  _transform (Some p) = Ok []
  /\ predict self (Some p) = pipe_predict (payload_clf self) [[]]
  /\ predict_proba self (Some p) = pipe_predict_proba (payload_clf self) [[]].
Proof.
  intros Hne Hsp.
  assert (Ht : _transform (Some p) = Ok []).
  { rewrite transform_nonempty by assumption. f_equal.
    rewrite unquote_fixed
      by (intros H; rewrite List.Forall_forall in Hsp; apply Hsp in H; discriminate H).
    rewrite remove_new_line_is_strip_newlines.
    assert (Hf : Forall (fun c => isspace c = true) (spec.strip_newlines p)).
    { apply List.Forall_forall. intros c Hc. apply filter_In in Hc as [Hc _].
      rewrite List.Forall_forall in Hsp. auto. }
    rewrite lower_fixed.
    - now apply remove_whitespace_blank.
    - eapply Forall_impl; [exact Hf|]. intros c Hc. now apply isspace_stable. }
  unfold predict, predict_proba. rewrite Ht. auto.
Qed.

(** A space, a line feed and a tab. *)
Lemma whitespace_payload_reaches_classifier_witness :
  forallb isspace [SP; LF; chr 9] = true
  /\ _transform (Some [SP; LF; chr 9]) = Ok [].
Proof.
  split; [reflexivity|].
  refine (proj1 (whitespace_payload_reaches_classifier [SP; LF; chr 9]
            {| payload_clf := {| pipe_classes_ := [];
                                 pipe_predict := fun _ => Ok [];
                                 pipe_predict_proba := fun _ => Ok [] |};
               classes_ := [] |} _ _)).
  - discriminate.
  - repeat constructor.
Defined.

(** ** Running programs *)

Section Run.
Context {E : Type -> Type} {W : Type} (h : handler E W).

Lemma run_bind {A B} (m : prog E A) (f : A -> prog E B) w :
  run h (bind m f) w
  = match run h m w with
    | (Ok a, w', tr) =>
        let '(r, w'', tr') := run h (f a) w' in (r, w'', tr ++ tr')
    | (Raise e, w', tr) => (Raise e, w', tr)
    end.
Proof.
  revert w. induction m as [r|e|X c k IH]; intros w; cbn [bind run].
  - now destruct (run h (f r) w) as [[? ?] ?].
  - reflexivity.
  - destruct (h X c w) as [[x|e] w']; [|reflexivity].
    rewrite IH. destruct (run h (k x) w') as [[[a|e] w''] tr]; [|reflexivity].
    now destruct (run h (f a) w'') as [[? ?] ?].
Qed.
End Run.

(** ** The artifact loader [_ensure_model] *)

Lemma ensure_model_nonempty (p : str) :
  p <> [] ->
  _ensure_model (Some p)
  = Vis (IsFile p) (fun present : bool =>
      if present then Ret p
      else Vis (Makedirs (dirname p) true) (fun _ =>
             Vis (HfHubDownload HF_REPO_ID HF_FILENAME (dirname (dirname p))) Ret)).
Proof. destruct p; [congruence|reflexivity]. Qed.

(** C7. [_ensure_model] raises the [ValueError] "payload clf model file
    doesn't exist" (the specification's [ArtifactUnavailableError]) for an
    empty or absent path without touching the world; for a path at which a
    file exists it returns that very path after the one [isfile] test, with
    no directory created and nothing fetched; otherwise it calls
    [os.makedirs(dirname(path), exist_ok=True)] and then [hf_hub_download]
    for the repository [happyhackingspace/metamaska] and the file
    [models/payload_clf.joblib], and returns the path the download returns;
    a failure of either call propagates. *)
Theorem ensure_model_behaviour {W : Type} (h : handler loadE W) (w : W) :
  run h (_ensure_model None) w = (Raise ArtifactUnavailableError, w, [])
  /\ run h (_ensure_model (Some [])) w = (Raise ArtifactUnavailableError, w, [])
  /\ forall p : str, p <> [] ->
     (forall w1, h _ (IsFile p) w = (Ok true, w1) ->
        run h (_ensure_model (Some p)) w
        = (Ok p, w1, [Called (IsFile p) (Ok true)]))
     /\ (forall w1 w2 r w3,
           h _ (IsFile p) w = (Ok false, w1) ->
           h _ (Makedirs (dirname p) true) w1 = (Ok tt, w2) ->
           h _ (HfHubDownload HF_REPO_ID HF_FILENAME (dirname (dirname p))) w2
             = (r, w3) ->
           run h (_ensure_model (Some p)) w
           = (r, w3,
              [Called (IsFile p) (Ok false);
               Called (Makedirs (dirname p) true) (Ok tt);
               Called (HfHubDownload HF_REPO_ID HF_FILENAME (dirname (dirname p))) r]))
     /\ (forall w1 e w2,
           h _ (IsFile p) w = (Ok false, w1) ->
           h _ (Makedirs (dirname p) true) w1 = (Raise e, w2) ->
           run h (_ensure_model (Some p)) w
           = (Raise e, w2,
              [Called (IsFile p) (Ok false);
               Called (Makedirs (dirname p) true) (Raise e)])).
Proof.
  split; [reflexivity|]. split; [reflexivity|].
  intros p Hne. rewrite (ensure_model_nonempty p Hne). repeat split.
  - intros w1 H1. cbn [run]. now rewrite H1.
  - intros w1 w2 r w3 H1 H2 H3.
    cbn [run]. rewrite H1. cbn [run]. rewrite H2. cbn [run]. rewrite H3.
    now destruct r.
  - intros w1 e w2 H1 H2.
    cbn [run]. rewrite H1. cbn [run]. now rewrite H2.
Qed.

(** A path with a file, and a path without one that the hub can serve. *)
Lemma ensure_model_behaviour_witness :
  run loader_world.os (_ensure_model (Some examples.present_path)) examples.disk
    = (Ok examples.present_path, examples.disk,
       [Called (IsFile examples.present_path) (Ok true)])
  /\ exists w',
       run loader_world.os (_ensure_model (Some examples.missing_path)) examples.disk
       = (Ok examples.missing_path, w',
          [Called (IsFile examples.missing_path) (Ok false);
           Called (Makedirs (py "/tmp/cache/models") true) (Ok tt);
           Called (HfHubDownload HF_REPO_ID HF_FILENAME (py "/tmp/cache"))
                  (Ok examples.missing_path)])
       /\ In examples.missing_path (loader_world.files w').
Proof.
  split.
  - destruct (ensure_model_behaviour loader_world.os examples.disk)
      as (_ & _ & H).
    destruct (H examples.present_path) as (H1 & _); [discriminate|].
    apply H1. reflexivity.
  - destruct (ensure_model_behaviour loader_world.os examples.disk)
      as (_ & _ & H).
    destruct (H examples.missing_path) as (_ & H2 & _); [discriminate|].
    eexists. split.
    + eapply H2; reflexivity.
    + now left.
Defined.

(** ** The inference wrapper *)

(** C4 (as amended). For a payload that [_transform] accepts, [predict] and
    [predict_proba] are the pipeline's own [predict] and [predict_proba] on
    the one-element batch holding the normalised payload; the wrapper takes
    no argmax itself, so [predict] is the first-maximum argmax label of
    [predict_proba] for every pipeline whose [predict] is that argmax of its
    own [predict_proba] on that batch. *)
Theorem predict_delegates_to_pipeline
    (self : PayloadClassifier) (payload : option str) (p : str) :
  _transform payload = Ok p ->
  predict self payload = pipe_predict (payload_clf self) [p]
  /\ predict_proba self payload = pipe_predict_proba (payload_clf self) [p]
  /\ (predict_is_argmax (payload_clf self) [p] ->
      exists rows labels,
        predict_proba self payload = Ok rows
        /\ predict self payload = Ok labels
        /\ map Some labels = map (argmax_label (pipe_classes_ (payload_clf self))) rows).
Proof.
  intros Ht. unfold predict, predict_proba. rewrite Ht.
  split; [reflexivity|]. split; [reflexivity|].
  intros (rows & Hr & labels & Hl & Hmap). now exists rows, labels.
Qed.

(** With a pipeline whose [predict] is its argmax, so is the wrapper's. *)
Lemma predict_delegates_to_pipeline_witness :
  predict (examples.wrap examples.agreeing_pipeline) (Some (py "' OR 1=1 --"))
    = Ok [py "sqli"]
  /\ predict_proba (examples.wrap examples.agreeing_pipeline) (Some (py "' OR 1=1 --"))
    = Ok [[4 # 5; 1 # 5]]
  /\ argmax_label [py "sqli"; py "valid"] [4 # 5; 1 # 5] = Some (py "sqli").
Proof.
  destruct (predict_delegates_to_pipeline
              (examples.wrap examples.agreeing_pipeline)
              (Some (py "' OR 1=1 --")) (py "' or 1=1 --") eq_refl)
    as (H1 & H2 & _).
  split; [exact H1|]. split; [exact H2|]. reflexivity.
Defined.

(** C4 (as stated) fails: with a pipeline whose [predict] is not the argmax
    of its [predict_proba], [predict] returns [valid] although [sqli] has the
    largest probability. *)
Lemma predict_is_not_argmax_of_predict_proba :
  predict (examples.wrap examples.disagreeing_pipeline) (Some (py "' OR 1=1 --"))
    = Ok [py "valid"]
  /\ predict_proba (examples.wrap examples.disagreeing_pipeline) (Some (py "' OR 1=1 --"))
    = Ok [[4 # 5; 1 # 5]]
  /\ argmax_label (classes_ (examples.wrap examples.disagreeing_pipeline)) [4 # 5; 1 # 5]
    = Some (py "sqli")
  /\ py "sqli" <> py "valid".
Proof. repeat split. discriminate. Qed.

(** ** The training run [train.main] *)

Import train.

Lemma Qlt_bool_true a b : Qlt_bool a b = true <-> (a < b)%Q.
Proof.
  unfold Qlt_bool. rewrite negb_true_iff, <- not_true_iff_false, Qle_bool_iff.
  split; [apply Qnot_le_lt|apply Qlt_not_le].
Qed.

Lemma Qlt_bool_false a b : Qlt_bool a b = false <-> (b <= a)%Q.
Proof.
  unfold Qlt_bool. rewrite negb_false_iff. apply Qle_bool_iff.
Qed.

Lemma run_Vis_inv {E W X R} (h : handler E W) (c : E X) (k : X -> prog E R)
    w res w' tr :
  run h (Vis c k) w = (res, w', tr) ->
  (exists e, res = Raise e /\ tr = [Called c (Raise e)])
  \/ (exists x w1 tr1,
        run h (k x) w1 = (res, w', tr1) /\ tr = Called c (Ok x) :: tr1).
Proof.
  cbn [run]. destruct (h X c w) as [[x|e] w1].
  - destruct (run h (k x) w1) as [[r w2] tr1] eqn:Hk.
    intros [= <- <- <-]. right. now exists x, w1, tr1.
  - intros [= <- <- <-]. left. now exists e.
Qed.

(** One step of the program whose run is described by hypothesis [H]: either
    the call raised and the run is over, or it was answered and the run goes
    on with the continuation. *)
Ltac step_as H x :=
  cbn [bind mbind prog_bind call column negb] in H; unfold call in H;
  lazymatch type of H with
  | run _ (Vis _ _) _ = _ =>
      let e := fresh "e" in
      let w1 := fresh "w" in
      let tr1 := fresh "tr" in
      apply run_Vis_inv in H as [(e & -> & ->)|(x & w1 & tr1 & H & ->)]
  | run _ (Throw _) _ = _ => cbn [run] in H; injection H as <- <- <-
  | run _ (Ret _) _ = _ => cbn [run] in H; injection H as <- <- <-
  end.

Ltac step_in H := let x := fresh "x" in step_as H x.

(** C5. When the held-out test accuracy that the run computed (the answer of
    its second [pipe.score] call) is below [MIN_ACCURACY] = 0.98, the run
    makes no call that writes to the disk (neither [mkdir] nor [joblib.dump]),
    it ends in an exception, and, every call having been answered, that
    exception is [SystemExit(1)] raised right after the error message of the
    gate was logged (the specification's [AccuracyGateError]). *)
Theorem accuracy_gate_blocks_artifact {Model W : Type}
    (h : handler (trainE Model) W) (w w' : W)
    (res : result unit) (tr : list (entry (trainE Model))) (acc : Q) :
  run h train.main w = (res, w', tr) ->
  test_accuracy tr = Some acc ->
  (acc < MIN_ACCURACY)%Q ->
  existsb is_write tr = false
  /\ (exists e, res = Raise e)
  /\ (forallb answered tr = true ->
      res = Raise (SystemExit 1)
      /\ last tr = Some (Called (Log ERROR GATE_MESSAGE) (Ok tt))).
Proof.
  intros H Hacc Hlt. unfold train.main in H.
  step_in H; [discriminate Hacc|].
  destruct x.
  2:{ do 2 (step_in H; [discriminate Hacc|]). step_in H. discriminate Hacc. }
  do 2 (step_in H; [discriminate Hacc|]).
  destruct x0 as [|r0 ds]; [step_in H; discriminate Hacc|].
  do 3 (step_in H; [discriminate Hacc|]).
  destruct x2 as [[[train_x test_x] train_y] test_y].
  do 4 (step_in H; [discriminate Hacc|]).
  injection Hacc as ->.
  apply Qlt_bool_true in Hlt.
  do 5 (step_in H;
        [split; [reflexivity|split; [eauto|intros Hall; discriminate Hall]]|]).
  rewrite Hlt in H.
  step_in H;
    [split; [reflexivity|split; [eauto|intros Hall; discriminate Hall]]|].
  step_in H.
  repeat match goal with u : unit |- _ => destruct u end.
  split; [reflexivity|]. split; [eauto|]. intros _. split; reflexivity.
Qed.

(** A run whose test accuracy is 0.90: it exits and the model file stays
    absent. *)
Lemma accuracy_gate_blocks_artifact_witness :
  exists w' tr,
    run train_world.os train.main (examples.train_disk examples.labelled (9 # 10))
      = (Raise (SystemExit 1), w', tr)
    /\ test_accuracy tr = Some (9 # 10)
    /\ existsb is_write tr = false
    /\ train_world.model_file w' = None.
Proof.
  set (w := examples.train_disk examples.labelled (9 # 10)).
  set (R := run train_world.os train.main w).
  destruct (accuracy_gate_blocks_artifact train_world.os w
              (snd (fst R)) (fst (fst R)) (snd R) (9 # 10))
    as (Hw & _ & Hres).
  - reflexivity.
  - reflexivity.
  - reflexivity.
  - destruct (Hres eq_refl) as [Hres' _].
    exists (snd (fst R)), (snd R).
    split; [rewrite <- Hres'; reflexivity|].
    split; [reflexivity|]. split; [exact Hw|reflexivity].
Defined.

(** C6 (as stated) fails: [main] has no validation step.  A dataset with four
    of its eight records labelled [bogus] is split, fitted and, the accuracy being high
    enough, written out as an artifact; the run returns normally. *)
Lemma train_accepts_unknown_label :
  (exists r, In r examples.mislabelled /\ ~ In (type_ r) VALID_TYPES)
  /\ exists w' tr,
       run train_world.os train.main (examples.train_disk examples.mislabelled 1)
         = (Ok tt, w', tr)
       /\ existsb is_split_or_fit tr = true
       /\ existsb is_write tr = true
       /\ train_world.model_file w'
          = Some (zip (map pattern (take 6 examples.mislabelled))
                      (map type_ (take 6 examples.mislabelled))).
Proof.
  split.
  - exists {| pattern := py "1 OR 1=1"; type_ := py "bogus" |}.
    split; [now left|].
    intros H. repeat (destruct H as [H|H]; [discriminate H|]). exact H.
  - eexists _, _. repeat split.
Qed.

(** The run of hypothesis [H] has read a non-empty dataset and goes on after
    the point reached: it stopped at a later call that raised. *)
Ltac stopped_after_split :=
  eexists; split; [reflexivity|]; right; right; eexists _, _;
  split; [reflexivity|];
  split; [intros ? Heq; discriminate Heq|intros Hall; discriminate Hall].

(** C6 (as amended). Before any split or fit, [main] checks one thing only:
    that the dataset file exists.  If it does not, the run makes no split, no
    fit and no write and ends in an exception, which is [SystemExit(1)] when
    the two error log calls are answered.  It does not look at the labels:
    for every non-empty array of records read from the file, whatever they
    hold, the calls up to the read are followed by two log calls and then,
    unless one of these raises, by [train_test_split] on all patterns and all
    labels, stratified by the labels.  An exception of the split ends the run
    there.  When every call of the run is answered, the run fits on the
    training part and then, by the accuracy gate alone, either ends in
    [SystemExit(1)] without a write or dumps the fitted pipeline and
    returns. *)
Theorem main_checks_only_that_the_file_exists {Model W : Type}
    (h : handler (trainE Model) W) (w w' : W)
    (res : result unit) (tr : list (entry (trainE Model))) :
  run h train.main w = (res, w', tr) ->
  (dataset_present tr = Some false ->
     existsb is_split_or_fit tr = false
     /\ existsb is_write tr = false
     /\ (exists e, res = Raise e)
     /\ (forallb answered tr = true -> res = Raise (SystemExit 1)))
  /\ (forall ds, dataset_of tr = Some ds -> ds <> [] ->
      exists rest,
        tr = Called (PathExists DATASET_PATH) (Ok true)
             :: Called (Log INFO "Loading dataset from %s") (Ok tt)
             :: Called (ReadJson DATASET_PATH "records") (Ok ds) :: rest
        /\ ((exists e,
               res = Raise e
               /\ rest = [Called (Log INFO "  %d records, types: %s") (Raise e)])
            \/ (exists e,
                  res = Raise e
                  /\ rest = [Called (Log INFO "  %d records, types: %s") (Ok tt);
                             Called (Log INFO "Splitting %d records (test_size=%.0f%%)")
                                    (Raise e)])
            \/ (exists r rest',
                  rest = Called (Log INFO "  %d records, types: %s") (Ok tt)
                         :: Called (Log INFO "Splitting %d records (test_size=%.0f%%)")
                                   (Ok tt)
                         :: Called (TrainTestSplit (map pattern ds) (map type_ ds)
                                      TEST_SIZE RANDOM_STATE (map type_ ds)) r
                         :: rest'
                  /\ (forall e, r = Raise e -> rest' = [] /\ res = Raise e)
                  /\ (forallb answered tr = true ->
                      exists train_x test_x train_y test_y pipe acc,
                        r = Ok (train_x, test_x, train_y, test_y)
                        /\ In (Called (Fit TFIDF_PARAMS SVC_PARAMS train_x train_y)
                                      (Ok pipe)) rest'
                        /\ test_accuracy tr = Some acc
                        /\ ((acc < MIN_ACCURACY)%Q ->
                            res = Raise (SystemExit 1) /\ existsb is_write tr = false)
                        /\ ((MIN_ACCURACY <= acc)%Q ->
                            res = Ok tt
                            /\ In (Called (JoblibDump pipe MODEL_PATH 2 3) (Ok tt))
                                  rest'))))).
Proof.
  intros H. unfold train.main in H.
  step_as H present.
  { split; [intros Hp; discriminate Hp|intros ds Hds; discriminate Hds]. }
  destruct present.
  2:{ split; [|intros ds Hds; do 2 (step_in H; [discriminate Hds|]);
                step_in H; discriminate Hds].
      intros _.
      do 2 (step_in H;
            [repeat split; [eauto|intros Hall; discriminate Hall]|]).
      step_in H. repeat split; eauto. }
  split; [intros Hp; discriminate Hp|].
  intros ds Hds Hne.
  step_in H; [discriminate Hds|]. destruct x.
  step_as H df; [discriminate Hds|].
  injection Hds as ->.
  destruct ds as [|r0 ds]; [congruence|].
  step_in H.
  { eexists. split; [reflexivity|]. left. eauto. }
  destruct x.
  step_in H.
  { eexists. split; [reflexivity|]. right. left. eauto. }
  destruct x.
  step_as H parts.
  { eexists. split; [reflexivity|]. right. right. eexists _, _.
    split; [reflexivity|].
    split; [intros e0 [= <-]; auto|intros Hall; discriminate Hall]. }
  destruct parts as [[[train_x test_x] train_y] test_y].
  step_in H; [stopped_after_split|].
  step_as H pipe; [stopped_after_split|].
  step_as H train_acc; [stopped_after_split|].
  step_as H test_acc; [stopped_after_split|].
  do 5 (step_in H; [stopped_after_split|]).
  destruct (Qlt_bool test_acc MIN_ACCURACY) eqn:Hgate.
  - step_in H; [stopped_after_split|]. step_in H.
    eexists. split; [reflexivity|]. right. right. eexists _, _.
    split; [reflexivity|]. split; [intros ? Heq; discriminate Heq|].
    intros _. exists train_x, test_x, train_y, test_y, pipe, test_acc.
    split; [reflexivity|]. split; [simpl; tauto|]. split; [reflexivity|].
    split; [intros _; split; reflexivity|].
    intros Hge. apply Qlt_bool_true in Hgate.
    exfalso. exact (Qlt_not_le _ _ Hgate Hge).
  - do 3 (step_in H; [stopped_after_split|]). step_in H.
    repeat match goal with u : unit |- _ => destruct u end.
    eexists. split; [reflexivity|]. right. right. eexists _, _.
    split; [reflexivity|]. split; [intros ? Heq; discriminate Heq|].
    intros _. exists train_x, test_x, train_y, test_y, pipe, test_acc.
    split; [reflexivity|]. split; [simpl; tauto|]. split; [reflexivity|].
    split.
    + intros Hlt. apply Qlt_bool_false in Hgate.
      exfalso. exact (Qlt_not_le _ _ Hlt Hgate).
    + intros _. split; [reflexivity|]. simpl. tauto.
Qed.

(** A run over a dataset with unknown labels: the split is called on all
    eight records and the run goes through to the dump. *)
Lemma main_checks_only_that_the_file_exists_witness :
  exists w' tr res,
    run train_world.os train.main (examples.train_disk examples.mislabelled 1)
      = (res, w', tr)
    /\ dataset_of tr = Some examples.mislabelled
    /\ train_flow.split_calls tr
       = [(map pattern examples.mislabelled, map type_ examples.mislabelled,
           TEST_SIZE, RANDOM_STATE, map type_ examples.mislabelled)]
    /\ res = Ok tt.
Proof.
  set (w := examples.train_disk examples.mislabelled 1).
  set (R := run train_world.os train.main w).
  exists (snd (fst R)), (snd R), (fst (fst R)).
  split; [reflexivity|]. split; [reflexivity|]. split; [reflexivity|].
  destruct (main_checks_only_that_the_file_exists train_world.os w
              (snd (fst R)) (fst (fst R)) (snd R) eq_refl)
    as (_ & Hfit).
  destruct (Hfit examples.mislabelled eq_refl) as (rest & _ & Hcases); [discriminate|].
  destruct Hcases as [(e & He & _)|[(e & He & _)|(r & rest' & _ & _ & Hfull)]];
    [discriminate He|discriminate He|].
  destruct (Hfull eq_refl) as (? & ? & ? & ? & ? & acc & _ & _ & Hacc & _ & Hok).
  assert (Hge : (MIN_ACCURACY <= acc)%Q) by (injection Hacc as <-; discriminate).
  destruct (Hok Hge) as [Hres _]. exact Hres.
Defined.

(** ** [strip] *)

Lemma lstrip_head x :
  lstrip x = [] \/ exists c t, lstrip x = c :: t /\ isspace c = false.
Proof.
  induction x as [|c t IH]; [now left|].
  cbn [lstrip]. destruct (isspace c) eqn:Hc; [exact IH|].
  right. now exists c, t.
Qed.

Lemma rstrip_idem x : rstrip (rstrip x) = rstrip x.
Proof.
  induction x as [|c t IH]; [reflexivity|].
  cbn [rstrip]. destruct (rstrip t) as [|b t'] eqn:E.
  - destruct (isspace c) eqn:Hc; [reflexivity|].
    cbn [rstrip]. now rewrite Hc.
  - cbn [rstrip]. cbn [rstrip] in IH. rewrite IH. reflexivity.
Qed.

Lemma strip_idem x : strip (strip x) = strip x.
Proof.
  unfold strip.
  assert (H : lstrip (rstrip (lstrip x)) = rstrip (lstrip x)).
  { destruct (lstrip_head x) as [->|(c & t & -> & Hc)]; [reflexivity|].
    rewrite rstrip_cons_nonspace by assumption.
    cbn [lstrip]. now rewrite Hc. }
  rewrite H. apply rstrip_idem.
Qed.

(** ** Records made by [_make_record] *)

Import collect_data.

Lemma make_record_ok p t r : _make_record p t = Some r -> record_ok r.
Proof.
  unfold _make_record.
  destruct (bool_decide (strip p = [])) eqn:He; [discriminate|].
  destruct (bool_decide (t ∈ VALID_TYPES)) eqn:Ht; [|discriminate].
  cbn. intros [= <-].
  apply bool_decide_eq_false_1 in He. apply bool_decide_eq_true_1 in Ht.
  split; [exact He|]. split; [apply strip_idem|].
  apply list_elem_of_In, Ht.
Qed.

Lemma append_record_ok records p t :
  Forall record_ok records -> Forall record_ok (append_record records p t).
Proof.
  intros H. unfold append_record.
  destruct (_make_record p t) as [r|] eqn:E; [|exact H].
  apply Forall_app. split; [exact H|].
  constructor; [|constructor]. eapply make_record_ok, E.
Qed.

Lemma collect_lines_ok records lines t :
  Forall record_ok records -> Forall record_ok (collect_lines records lines t).
Proof.
  unfold collect_lines. generalize (take MAX_LINES_PER_FILE lines) as ls.
  intros ls. revert records. induction ls as [|l ls IH]; intros records H.
  - exact H.
  - cbn [fold_left]. apply IH, append_record_ok, H.
Qed.

(** ** Collectors return only records made by [_make_record] *)

Lemma run_bind_inv {E W A B} (h : handler E W) (m : prog E A) (f : A -> prog E B)
    w res w' tr :
  run h (bind m f) w = (res, w', tr) ->
  (exists e, run h m w = (Raise e, w', tr) /\ res = Raise e)
  \/ (exists a w1 tr1 tr2,
        run h m w = (Ok a, w1, tr1)
        /\ run h (f a) w1 = (res, w', tr2)
        /\ tr = tr1 ++ tr2).
Proof.
  rewrite run_bind. destruct (run h m w) as [[[a|e] w1] tr1].
  - destruct (run h (f a) w1) as [[r w2] tr2] eqn:Hf.
    intros [= <- <- <-]. right. now exists a, w1, tr1, tr2.
  - intros [= <- <- <-]. left. now exists e.
Qed.

Lemma collects_bind {A B} (Q : A -> Prop) (P : B -> Prop)
    (m : prog collectE A) (f : A -> prog collectE B) :
  collects Q m -> (forall a, Q a -> collects P (f a)) -> collects P (bind m f).
Proof.
  intros Hm Hf. induction m as [r|e|X c k IH]; cbn [collects bind] in *.
  - apply Hf, Hm.
  - trivial.
  - destruct Hm as [Hc Hk]. split; [exact Hc|]. intros x. apply IH, Hk.
Qed.

Lemma collects_for_each {A B} (P : B -> Prop) (xs : list A) (acc : B)
    (body : B -> A -> prog collectE B) :
  P acc ->
  (forall acc x, P acc -> collects P (body acc x)) ->
  collects P (for_each xs acc body).
Proof.
  intros Hacc Hbody. revert acc Hacc.
  induction xs as [|x xs IH]; intros acc Hacc; cbn [for_each].
  - exact Hacc.
  - apply (collects_bind P); [apply Hbody, Hacc|]. intros a Ha. apply IH, Ha.
Qed.

Lemma collects_run {W R} (h : handler collectE W) (P : R -> Prop)
    (m : prog collectE R) w res w' tr :
  collects P m ->
  run h m w = (res, w', tr) ->
  written tr = [] /\ (forall r, res = Ok r -> P r).
Proof.
  revert w res w' tr. induction m as [r|e|X c k IH]; intros w res w' tr Hm.
  - cbn [run]. intros [= <- <- <-]. split; [reflexivity|]. now intros r' [= <-].
  - cbn [run]. intros [= <- <- <-]. split; [reflexivity|]. discriminate.
  - destruct Hm as [Hc Hk]. intros H.
    apply run_Vis_inv in H as [(e & -> & ->)|(x & w1 & tr1 & H & ->)].
    + split; [|discriminate]. unfold written. cbn. now rewrite Hc.
    + destruct (IH x w1 res w' tr1 (Hk x) H) as [Hw Hr].
      split; [|exact Hr]. unfold written in *. cbn. now rewrite Hc.
Qed.

Lemma collects_row_get_str {R} (P : R -> Prop) row key0 (f : str -> prog collectE R) :
  (forall v, collects P (f v)) -> collects P (bind (row_get_str row key0) f).
Proof.
  intros Hf. unfold row_get_str.
  destruct (row !! key0) as [[v|]|]; cbn [bind collects]; auto.
Qed.

Lemma collect_httpparams_collects : collects (Forall record_ok) collect_httpparams.
Proof.
  unfold collect_httpparams. cbn [mbind prog_bind bind call collects].
  split; [reflexivity|]. intros _.
  split; [reflexivity|]. intros [resp|]; cbn [mbind prog_bind bind call collects].
  2:{ split; [reflexivity|]. intros _. constructor. }
  split; [reflexivity|]. intros rows.
  apply (collects_bind (Forall record_ok)).
  - apply collects_for_each; [constructor|].
    intros acc row Hacc. apply collects_row_get_str. intros v.
    apply (collects_bind (fun _ => True)).
    + destruct (type_map (lower (strip v))); cbn [collects]; [trivial|].
      apply collects_row_get_str. intros v'. cbn [collects]. trivial.
    + intros [label|] _; cbn [collects]; [|exact Hacc].
      apply collects_row_get_str. intros payload. cbn [collects].
      apply append_record_ok, Hacc.
  - intros records Hrec. cbn [bind collects]. split; [reflexivity|].
    intros _. exact Hrec.
Qed.

Lemma sparse_clone_patt_collects : collects (Forall record_ok) _sparse_clone_patt.
Proof.
  unfold _sparse_clone_patt. cbn [mbind prog_bind bind call collects].
  split; [reflexivity|]. intros tmp. split; [reflexivity|].
  intros [|]; cbn [negb].
  - apply collects_for_each; [constructor|].
    intros acc [dir_rel ty] Hacc. cbn [bind collects].
    split; [reflexivity|]. intros [|]; cbn [negb bind collects]; [|exact Hacc].
    split; [reflexivity|]. intros txts.
    change (collects (Forall record_ok)
              (for_each txts acc (fun records txt =>
                 content ← call (ReadText txt "replace");
                 Ret (collect_lines records (splitlines content) ty)))).
    apply collects_for_each; [exact Hacc|].
    intros acc' txt Hacc'. cbn [mbind prog_bind bind call collects].
    split; [reflexivity|]. intros content. apply collect_lines_ok, Hacc'.
  - cbn [bind collects]. split; [reflexivity|]. intros _. constructor.
Qed.

Lemma api_download_patt_collects : collects (Forall record_ok) _api_download_patt.
Proof.
  unfold _api_download_patt.
  apply collects_for_each; [constructor|].
  intros acc [dir_rel ty] Hacc. cbn [mbind prog_bind bind call collects].
  split; [reflexivity|]. intros [resp|]; cbn [bind collects].
  2:{ split; [reflexivity|]. intros _. exact Hacc. }
  apply collects_for_each; [exact Hacc|].
  intros acc' item Hacc'.
  destruct (endswith (name item) (py ".txt")); cbn [negb]; [|exact Hacc'].
  destruct (download_url item) as [[|c url]|]; cbn [collects]; try exact Hacc'.
  cbn [mbind prog_bind bind call collects].
  split; [reflexivity|]. intros [file_resp|]; cbn [collects]; [|exact Hacc'].
  apply collect_lines_ok, Hacc'.
Qed.

Lemma collect_payloadsallthethings_collects :
  collects (Forall record_ok) collect_payloadsallthethings.
Proof.
  unfold collect_payloadsallthethings. cbn [mbind prog_bind bind call collects].
  split; [reflexivity|]. intros _.
  apply (collects_bind (Forall record_ok)); [apply sparse_clone_patt_collects|].
  intros records Hrec.
  apply (collects_bind (Forall record_ok)).
  - destruct records as [|r rs]; [|exact Hrec].
    cbn [bind collects]. split; [reflexivity|]. intros _.
    apply api_download_patt_collects.
  - intros records' Hrec'. cbn [bind collects]. split; [reflexivity|].
    intros _. exact Hrec'.
Qed.

Lemma deferred_sources_collect :
  collects (Forall record_ok) collect_kaggle_xss
  /\ collects (Forall record_ok) collect_ecml_pkdd
  /\ collects (Forall record_ok) collect_hacktricks.
Proof. repeat split; intros; constructor. Qed.

(** ** [deduplicate] keeps the first occurrence of every key *)

Lemma key_inj r r' : key r = key r' -> r = r'.
Proof. destruct r, r'. unfold key. cbn. now intros [= -> ->]. Qed.

Lemma filter_filter_bool {A} (f g : A -> bool) l :
  List.filter f (List.filter g l) = List.filter (fun x => g x && f x) l.
Proof.
  induction l as [|a l IH]; [reflexivity|].
  cbn [List.filter]. destruct (g a); cbn [andb List.filter]; [|exact IH].
  destruct (f a); now rewrite IH.
Qed.

Lemma deduplicate_go_first_occurrences seen unique records :
  deduplicate_go seen unique records
  = unique ++ List.filter (fun r => negb (bool_decide (key r ∈ seen)))
                          (first_occurrences records).
Proof.
  revert seen unique. induction records as [|r rest IH]; intros seen unique.
  - cbn. now rewrite app_nil_r.
  - cbn [deduplicate_go first_occurrences List.filter].
    fold (key r). rewrite filter_filter_bool.
    destruct (decide (key r ∈ seen)) as [Hin|Hnin].
    + rewrite (bool_decide_eq_true_2 _ Hin). cbn [negb].
      rewrite IH. f_equal. apply filter_ext. intros r'.
      destruct (bool_decide (key r' = key r)) eqn:E; cbn [negb andb]; [|reflexivity].
      apply bool_decide_eq_true_1 in E. rewrite E.
      now rewrite (bool_decide_eq_true_2 _ Hin).
    + rewrite (bool_decide_eq_false_2 _ Hnin). cbn [negb].
      rewrite IH, <- app_assoc. cbn [app]. do 2 f_equal.
      apply filter_ext. intros r'.
      destruct (decide (key r' = key r)) as [E|E].
      * rewrite (bool_decide_eq_true_2 _ E). cbn [negb andb].
        rewrite bool_decide_eq_true_2; [reflexivity|].
        rewrite E. apply elem_of_union_l, elem_of_singleton. reflexivity.
      * rewrite (bool_decide_eq_false_2 _ E). cbn [negb andb].
        f_equal. apply bool_decide_ext.
        rewrite elem_of_union, elem_of_singleton. tauto.
Qed.

Lemma deduplicate_first_occurrences records :
  deduplicate records = first_occurrences records.
Proof.
  unfold deduplicate. rewrite deduplicate_go_first_occurrences. cbn [app].
  induction (first_occurrences records) as [|r l IH]; [reflexivity|].
  cbn [List.filter]. rewrite bool_decide_eq_false_2 by set_solver.
  cbn [negb]. now rewrite IH.
Qed.

Lemma first_occurrences_In records r :
  In r (first_occurrences records) <-> In r records.
Proof.
  induction records as [|a rest IH]; [reflexivity|].
  cbn [first_occurrences In]. rewrite filter_In, IH.
  split.
  - intros [H|[H _]]; auto.
  - intros [H|H]; [now left|].
    destruct (decide (key r = key a)) as [E|E].
    + left. symmetry. now apply key_inj.
    + right. split; [exact H|]. now rewrite bool_decide_eq_false_2.
Qed.

Lemma NoDup_map_filter {A B} (g : A -> B) (f : A -> bool) l :
  NoDup (map g l) -> NoDup (map g (List.filter f l)).
Proof.
  induction l as [|a l IH]; [trivial|].
  cbn [map List.filter]. rewrite NoDup_cons. intros [Hnin Hnd].
  destruct (f a); [|now apply IH].
  cbn [map]. rewrite NoDup_cons. split; [|now apply IH].
  intros Hin. apply Hnin.
  rewrite list_elem_of_In, in_map_iff in *.
  destruct Hin as (x & Hx & Hin). exists x. split; [exact Hx|].
  now apply filter_In in Hin as [Hin _].
Qed.

Lemma first_occurrences_NoDup records : NoDup (map key (first_occurrences records)).
Proof.
  induction records as [|a rest IH]; [constructor|].
  cbn [first_occurrences map]. rewrite NoDup_cons. split.
  - rewrite list_elem_of_In, in_map_iff. intros (r & Hk & Hin).
    apply filter_In in Hin as [_ Hf].
    rewrite bool_decide_eq_true_2 in Hf by exact Hk. discriminate Hf.
  - now apply NoDup_map_filter.
Qed.

Lemma first_occurrences_sublist records :
  sublist (first_occurrences records) records.
Proof.
  induction records as [|a rest IH]; [constructor|].
  cbn [first_occurrences]. apply sublist_skip.
  etransitivity; [|exact IH].
  generalize (first_occurrences rest) as l. intros l.
  induction l as [|b l IHl]; [constructor|].
  cbn [List.filter]. destruct (negb _); now constructor.
Qed.

(** ** The collector's output *)

Lemma written_app tr1 tr2 : written (tr1 ++ tr2) = written tr1 ++ written tr2.
Proof. unfold written. apply omap_app. Qed.

Lemma deduplicate_ok collected :
  Forall record_ok collected -> Forall record_ok (deduplicate collected).
Proof.
  rewrite deduplicate_first_occurrences, !List.Forall_forall.
  intros H r Hr. apply H. now apply first_occurrences_In.
Qed.

(** One collector of [main] in hypothesis [H]: it wrote nothing, and it either
    raised or returned records that satisfy the invariant. *)
Ltac collector_in H lemma :=
  let e := fresh "e" in
  let recs := fresh "recs" in
  let w1 := fresh "w" in
  let tr1 := fresh "tr" in
  let tr2 := fresh "tr" in
  let Hc := fresh "Hc" in
  let Hw := fresh "Hw" in
  let Hok := fresh "Hok" in
  apply run_bind_inv in H as [(e & Hc & ->)|(recs & w1 & tr1 & tr2 & Hc & H & ->)];
  [ destruct (collects_run _ _ _ _ _ _ _ lemma Hc) as [Hw _]
  | destruct (collects_run _ _ _ _ _ _ _ lemma Hc) as [Hw Hok];
    specialize (Hok _ eq_refl) ].

Lemma filter_eq_app_cons {A} (f : A -> bool) l pre r post :
  List.filter f l = pre ++ r :: post ->
  exists l1 l2, l = l1 ++ r :: l2 /\ List.filter f l1 = pre /\ f r = true.
Proof.
  revert pre. induction l as [|a l IH]; intros pre Heq.
  - destruct pre; discriminate Heq.
  - cbn [List.filter] in Heq. destruct (f a) eqn:Ha.
    + destruct pre as [|b pre].
      * injection Heq as -> _. exists [], l. cbn. auto.
      * injection Heq as -> Heq. destruct (IH pre Heq) as (l1 & l2 & -> & Hl1 & Hr).
        exists (b :: l1), l2. cbn [app List.filter]. rewrite Ha, Hl1. auto.
    + destruct (IH pre Heq) as (l1 & l2 & -> & Hl1 & Hr).
      exists (a :: l1), l2. cbn [app List.filter]. rewrite Ha. auto.
Qed.

(** Where a record stands in [first_occurrences records]: after exactly the
    records that come before its first occurrence in [records]. *)
Lemma first_occurrences_split records pre r post :
  first_occurrences records = pre ++ r :: post ->
  exists before after,
    records = before ++ r :: after
    /\ ~ In r before
    /\ pre = first_occurrences before
    /\ (forall x, In x pre <-> In x before).
Proof.
  revert pre post. induction records as [|a rest IH]; intros pre post Heq.
  - destruct pre; discriminate Heq.
  - cbn [first_occurrences] in Heq. destruct pre as [|b pre].
    + injection Heq as -> _. exists [], rest. cbn. tauto.
    + injection Heq as -> Heq.
      apply filter_eq_app_cons in Heq as (l1 & l2 & Hfo & Hl1 & Hr).
      destruct (IH l1 l2 Hfo) as (before & after & -> & Hnin & Hpre & Hin).
      apply negb_true_iff, bool_decide_eq_false_1 in Hr.
      exists (b :: before), after. split; [reflexivity|]. split.
      { intros [->|H]; [now apply Hr|contradiction]. }
      split.
      { cbn [first_occurrences]. now rewrite <- Hpre, Hl1. }
      intros x. cbn [In]. rewrite <- Hl1, filter_In, Hin.
      split; [tauto|]. intros [->|H]; [now left|].
      destruct (decide (key x = key b)) as [Hk|Hk].
      * left. symmetry. now apply key_inj.
      * right. split; [exact H|]. now rewrite bool_decide_eq_false_2.
Qed.

(** C9. Every record list that the collector hands to the output file is the
    deduplication of what the five collectors returned, in the order in which
    [main] runs them (each in the state the one before left).  Every
    collected record, hence every record written, has a non-empty pattern
    that equals its own [strip] and a type of [VALID_TYPES].  In the list
    written no [(pattern, type)] pair occurs twice and every collected pair
    occurs; and the order is that of first occurrences: the list is a
    subsequence of the collected one, and the records written before a
    record are exactly those collected before its first occurrence. *)
Theorem emitted_records_valid_and_deduplicated {W : Type}
    (h : handler collectE W) (w w' : W)
    (res : result unit) (tr : list (entry collectE)) (out : list LabeledRecord) :
  run h collect_data.main w = (res, w', tr) ->
  In out (written tr) ->
  exists recs1 w1 tr1 recs2 w2 tr2 recs3 w3 tr3 recs4 w4 tr4 recs5 w5 tr5,
    run h collect_httpparams w = (Ok recs1, w1, tr1)
    /\ run h collect_payloadsallthethings w1 = (Ok recs2, w2, tr2)
    /\ run h collect_kaggle_xss w2 = (Ok recs3, w3, tr3)
    /\ run h collect_ecml_pkdd w3 = (Ok recs4, w4, tr4)
    /\ run h collect_hacktricks w4 = (Ok recs5, w5, tr5)
    /\ let collected := recs1 ++ recs2 ++ recs3 ++ recs4 ++ recs5 in
       out = deduplicate collected
       /\ Forall record_ok collected
       /\ Forall record_ok out
       /\ NoDup (map key out)
       /\ (forall r, In r out <-> In r collected)
       /\ (forall r, In r collected -> count_occ LabeledRecord_eq_dec out r = 1)
       /\ sublist out collected
       /\ (forall pre r post, out = pre ++ r :: post ->
             exists before after,
               collected = before ++ r :: after
               /\ ~ In r before
               /\ pre = deduplicate before
               /\ (forall x, In x pre <-> In x before))
       /\ out = first_occurrences collected.
Proof.
  intros H Hout. unfold collect_data.main in H. cbn [mbind prog_bind] in H.
  destruct deferred_sources_collect as (Hk & He & Hh).
  apply run_bind_inv in H
    as [(e & Hc1 & ->)|(recs1 & w1 & tr1 & rest1 & Hc1 & H & ->)].
  { destruct (collects_run h _ _ _ _ _ _ collect_httpparams_collects Hc1) as [Hw _].
    rewrite Hw in Hout. destruct Hout. }
  destruct (collects_run h _ _ _ _ _ _ collect_httpparams_collects Hc1) as [Hw1 Hok1].
  apply run_bind_inv in H
    as [(e & Hc2 & ->)|(recs2 & w2 & tr2 & rest2 & Hc2 & H & ->)].
  { destruct (collects_run h _ _ _ _ _ _ collect_payloadsallthethings_collects Hc2)
      as [Hw _].
    rewrite written_app, Hw1, Hw in Hout. destruct Hout. }
  destruct (collects_run h _ _ _ _ _ _ collect_payloadsallthethings_collects Hc2)
    as [Hw2 Hok2].
  apply run_bind_inv in H
    as [(e & Hc3 & ->)|(recs3 & w3 & tr3 & rest3 & Hc3 & H & ->)].
  { destruct (collects_run h _ _ _ _ _ _ Hk Hc3) as [Hw _].
    rewrite !written_app, Hw1, Hw2, Hw in Hout. destruct Hout. }
  destruct (collects_run h _ _ _ _ _ _ Hk Hc3) as [Hw3 Hok3].
  apply run_bind_inv in H
    as [(e & Hc4 & ->)|(recs4 & w4 & tr4 & rest4 & Hc4 & H & ->)].
  { destruct (collects_run h _ _ _ _ _ _ He Hc4) as [Hw _].
    rewrite !written_app, Hw1, Hw2, Hw3, Hw in Hout. destruct Hout. }
  destruct (collects_run h _ _ _ _ _ _ He Hc4) as [Hw4 Hok4].
  apply run_bind_inv in H
    as [(e & Hc5 & ->)|(recs5 & w5 & tr5 & rest5 & Hc5 & H & ->)].
  { destruct (collects_run h _ _ _ _ _ _ Hh Hc5) as [Hw _].
    rewrite !written_app, Hw1, Hw2, Hw3, Hw4, Hw in Hout. destruct Hout. }
  destruct (collects_run h _ _ _ _ _ _ Hh Hc5) as [Hw5 Hok5].
  rewrite !written_app, Hw1, Hw2, Hw3, Hw4, Hw5 in Hout. cbn [app] in Hout.
  replace ((((([] ++ recs1) ++ recs2) ++ recs3) ++ recs4) ++ recs5)
    with (recs1 ++ recs2 ++ recs3 ++ recs4 ++ recs5) in H
    by (cbn [app]; now rewrite <- !app_assoc).
  set (collected := recs1 ++ recs2 ++ recs3 ++ recs4 ++ recs5) in *.
  assert (Hout' : out = deduplicate collected).
  { do 3 (step_in H; [destruct Hout|]).
    step_in H; [destruct Hout as [Hout|[]]; now symmetry|].
    step_in H; [destruct Hout as [Hout|[]]; now symmetry|].
    step_in H. destruct Hout as [Hout|[]]; now symmetry. }
  assert (Hall : Forall record_ok collected).
  { unfold collected. repeat (apply Forall_app; split); auto. }
  exists recs1, w1, tr1, recs2, w2, tr2, recs3, w3, tr3, recs4, w4, tr4, recs5, w5, tr5.
  do 5 (split; [assumption|]).
  cbv zeta. fold collected. subst out.
  split; [reflexivity|]. split; [exact Hall|].
  split; [now apply deduplicate_ok|].
  rewrite deduplicate_first_occurrences.
  pose proof (first_occurrences_NoDup collected) as Hnd.
  split; [exact Hnd|].
  split; [intros r; apply first_occurrences_In|].
  split.
  { intros r Hr. apply NoDup_fmap_1 in Hnd.
    apply first_occurrences_In in Hr.
    apply NoDup_ListNoDup in Hnd.
    pose proof (proj1 (List.NoDup_count_occ LabeledRecord_eq_dec _) Hnd r) as Hle.
    apply (count_occ_In LabeledRecord_eq_dec) in Hr. lia. }
  split; [apply first_occurrences_sublist|].
  split; [|reflexivity].
  intros pre r post Hsplit.
  destruct (first_occurrences_split _ _ _ _ Hsplit) as (before & after & E1 & E2 & E3 & E4).
  exists before, after. rewrite deduplicate_first_occurrences. auto.
Qed.

(** A run over five CSV rows and one listed text file: four records are
    written, duplicates and blank patterns dropped, all of them collected. *)
Lemma emitted_records_valid_and_deduplicated_witness :
  exists w' tr,
    run collector_world.os collect_data.main collector_world.empty = (Ok tt, w', tr)
    /\ written tr = [collector_world.expected]
    /\ collector_world.output w' = Some collector_world.expected
    /\ Forall record_ok collector_world.expected
    /\ NoDup (map key collector_world.expected)
    /\ exists collected,
         collector_world.expected = deduplicate collected
         /\ sublist collector_world.expected collected
         /\ Forall record_ok collected.
Proof.
  set (R := run collector_world.os collect_data.main collector_world.empty).
  assert (HR : R = (fst (fst R), snd (fst R), snd R)) by now destruct R as [[? ?] ?].
  assert (Hw : written (snd R) = [collector_world.expected]) by (vm_compute; reflexivity).
  destruct (emitted_records_valid_and_deduplicated collector_world.os
              collector_world.empty (snd (fst R)) (fst (fst R)) (snd R)
              collector_world.expected HR)
    as (recs1 & w1 & tr1 & recs2 & w2 & tr2 & recs3 & w3 & tr3 & recs4 & w4 & tr4
        & recs5 & w5 & tr5 & _ & _ & _ & _ & _ & Hd & Hall & Hok & Hnd & _ & _ & Hsub & _).
  - rewrite Hw. now left.
  - exists (snd (fst R)), (snd R).
    split; [vm_compute; reflexivity|]. split; [exact Hw|].
    split; [vm_compute; reflexivity|]. split; [exact Hok|]. split; [exact Hnd|].
    exists (recs1 ++ recs2 ++ recs3 ++ recs4 ++ recs5). auto.
Defined.

(* ================================================================= *)
(** * Further properties of the code *)

(** ** [_make_record] *)

(** X1. [_make_record] returns [None] exactly when the stripped pattern is
    empty or the type is not one of [VALID_TYPES]; otherwise it returns the
    record of the stripped pattern and the type as given.  Surrounding
    whitespace of the pattern never matters, and making a record again from
    the fields of a record it returned gives that record back. *)
Theorem make_record_characterised (p t : str) :
  (_make_record p t = None <-> strip p = [] \/ ~ In t VALID_TYPES)
  /\ (forall r, _make_record p t = Some r
                <-> r = {| pattern := strip p; type_ := t |}
                    /\ strip p <> [] /\ In t VALID_TYPES)
  /\ _make_record (strip p) t = _make_record p t
  /\ (forall r, _make_record p t = Some r
                -> _make_record (pattern r) (type_ r) = Some r).
Proof.
  assert (Hchar : forall q r, _make_record q t = Some r
                    <-> r = {| pattern := strip q; type_ := t |}
                        /\ strip q <> [] /\ In t VALID_TYPES).
  { intros q r. unfold _make_record.
    destruct (bool_decide (strip q = [])) eqn:He;
      destruct (bool_decide (t ∈ VALID_TYPES)) eqn:Ht; cbn [orb negb];
      try apply bool_decide_eq_true_1 in He;
      try apply bool_decide_eq_false_1 in He;
      try apply bool_decide_eq_true_1 in Ht;
      try apply bool_decide_eq_false_1 in Ht;
      rewrite ?list_elem_of_In in Ht.
    - split; [discriminate|]. intros (_ & H & _). contradiction.
    - split; [discriminate|]. intros (_ & H & _). contradiction.
    - split; [intros [= <-]; auto|]. now intros (-> & _).
    - split; [discriminate|]. intros (_ & _ & H). contradiction. }
  assert (Hstrip : _make_record (strip p) t = _make_record p t).
  { unfold _make_record. now rewrite strip_idem. }
  split; [|split; [apply Hchar|split; [exact Hstrip|]]].
  - destruct (_make_record p t) as [r|] eqn:E.
    + apply Hchar in E as (_ & Hne & Hin).
      split; [discriminate|]. intros [H|H]; contradiction.
    + split; [intros _|reflexivity].
      destruct (decide (strip p = [])) as [H|H]; [now left|].
      right. intros Hin.
      assert (Hs : _make_record p t = Some {| pattern := strip p; type_ := t |})
        by (apply Hchar; auto).
      congruence.
  - intros r Hr. apply Hchar in Hr as (-> & Hne & Hin). cbn [pattern type_].
    rewrite Hstrip. apply Hchar. auto.
Qed.

(** ** [deduplicate] *)

Lemma first_occurrences_fixed records :
  NoDup (map key records) -> first_occurrences records = records.
Proof.
  induction records as [|r rest IH]; [reflexivity|].
  cbn [map first_occurrences]. rewrite NoDup_cons. intros [Hnin Hnd].
  rewrite IH by assumption. f_equal.
  apply forallb_filter_id. apply forallb_forall. intros r' Hin.
  rewrite bool_decide_eq_false_2; [reflexivity|].
  intros E. apply Hnin. rewrite list_elem_of_In, in_map_iff.
  exists r'. auto.
Qed.

(** X2. For every list of records, whatever they hold, [deduplicate] returns
    a subsequence of it in which no [(pattern, type)] pair occurs twice and
    in which every record of the input still occurs; a list without repeated
    pairs comes back unchanged, so deduplicating twice changes nothing more,
    and the result is never longer than the input. *)
Theorem deduplicate_properties (records : list LabeledRecord) :
  NoDup (map key (deduplicate records))
  /\ sublist (deduplicate records) records
  /\ (forall r, In r (deduplicate records) <-> In r records)
  /\ (NoDup (map key records) -> deduplicate records = records)
  /\ deduplicate (deduplicate records) = deduplicate records
  /\ length (deduplicate records) <= length records.
Proof.
  rewrite !deduplicate_first_occurrences.
  split; [apply first_occurrences_NoDup|].
  split; [apply first_occurrences_sublist|].
  split; [intros r; apply first_occurrences_In|].
  split; [apply first_occurrences_fixed|].
  split; [apply first_occurrences_fixed, first_occurrences_NoDup|].
  apply sublist_length, first_occurrences_sublist.
Qed.

(** ** The loop over the lines of one file *)

Lemma append_lines_shape (t : str) (ls : list str) (records : list LabeledRecord) :
  exists added,
    fold_left (fun records line => append_record records line t) ls records
      = records ++ added
    /\ length added <= length ls
    /\ Forall (fun r => type_ r = t
                        /\ exists line, In line ls /\ pattern r = strip line) added.
Proof.
  revert records. induction ls as [|l ls IH]; intros records.
  - exists []. cbn. rewrite app_nil_r. repeat split; constructor.
  - cbn [fold_left]. destruct (IH (append_record records l t)) as (added & E & Hlen & Hall).
    assert (Hmono : Forall (fun r => type_ r = t
                      /\ exists line, In line (l :: ls) /\ pattern r = strip line) added).
    { eapply Forall_impl; [exact Hall|].
      intros r (Ht & line & Hin & Hp). split; [exact Ht|].
      exists line. split; [now right|exact Hp]. }
    destruct (_make_record l t) as [r|] eqn:Hr.
    + assert (Ha : append_record records l t = records ++ [r])
        by (unfold append_record; now rewrite Hr).
      rewrite Ha in E |- *.
      exists (r :: added). rewrite E, <- app_assoc. cbn [app length].
      split; [reflexivity|]. split; [lia|].
      constructor; [|exact Hmono].
      unfold _make_record in Hr.
      destruct (bool_decide (strip l = []) || negb (bool_decide (t ∈ VALID_TYPES)));
        [discriminate|].
      injection Hr as <-. cbn [type_ pattern]. split; [reflexivity|].
      exists l. split; [now left|reflexivity].
    + assert (Ha : append_record records l t = records)
        by (unfold append_record; now rewrite Hr).
      rewrite Ha in E |- *.
      exists added. split; [exact E|]. split; [cbn [length]; lia|exact Hmono].
Qed.

(** X6. From one file, the loop [for line in lines[:MAX_LINES_PER_FILE]]
    only appends to the records it was given: it adds at most 5000 records
    and at most one per line, each of the file's type and with the stripped
    text of one of the first 5000 lines as its pattern; lines after the
    first 5000 have no effect, and a type outside [VALID_TYPES] adds nothing. *)
Theorem collect_lines_bounded (records : list LabeledRecord) (lines : list str) (t : str) :
  (exists added,
     collect_lines records lines t = records ++ added
     /\ length added <= Nat.min MAX_LINES_PER_FILE (length lines)
     /\ Forall (fun r => type_ r = t
                  /\ exists line, In line (take MAX_LINES_PER_FILE lines)
                                  /\ pattern r = strip line) added)
  /\ (forall more, MAX_LINES_PER_FILE <= length lines ->
        collect_lines records (lines ++ more) t = collect_lines records lines t)
  /\ (~ In t VALID_TYPES -> collect_lines records lines t = records).
Proof.
  split; [|split].
  - unfold collect_lines.
    destruct (append_lines_shape t (take MAX_LINES_PER_FILE lines) records)
      as (added & E & Hlen & Hall).
    exists added. split; [exact E|]. split; [|exact Hall].
    rewrite length_take in Hlen. exact Hlen.
  - intros more Hlen. unfold collect_lines. now rewrite take_app_le.
  - intros Hnot. unfold collect_lines.
    generalize (take MAX_LINES_PER_FILE lines) as ls. intros ls.
    induction ls as [|l ls IH]; [reflexivity|].
    cbn [fold_left]. unfold append_record at 2, _make_record.
    rewrite (bool_decide_eq_false_2 (t ∈ VALID_TYPES))
      by (rewrite list_elem_of_In; exact Hnot).
    cbn [negb]. rewrite orb_true_r. exact IH.
Qed.

(** ** Which source yields which types *)

Lemma append_record_typed T records p t :
  In t T -> typed_in T records -> typed_in T (append_record records p t).
Proof.
  intros Ht H. unfold append_record, _make_record.
  destruct (bool_decide (strip p = []) || negb (bool_decide (t ∈ VALID_TYPES)));
    [exact H|].
  apply Forall_app. split; [exact H|]. constructor; [exact Ht|constructor].
Qed.

Lemma collect_lines_typed T records lines t :
  In t T -> typed_in T records -> typed_in T (collect_lines records lines t).
Proof.
  intros Ht. unfold collect_lines. generalize (take MAX_LINES_PER_FILE lines) as ls.
  intros ls. revert records. induction ls as [|l ls IH]; intros records H; [exact H|].
  cbn [fold_left]. now apply IH, append_record_typed.
Qed.

Lemma type_map_range l t :
  type_map l = Some t -> In t [py "valid"; py "sqli"; py "xss"].
Proof.
  unfold type_map.
  repeat (destruct (decide _); [intros [= <-]; cbn; tauto|]). discriminate.
Qed.

Lemma collect_httpparams_typed :
  collects (typed_in [py "valid"; py "sqli"; py "xss"]) collect_httpparams.
Proof.
  set (T := [py "valid"; py "sqli"; py "xss"]).
  unfold collect_httpparams. cbn [mbind prog_bind bind call collects].
  split; [reflexivity|]. intros _.
  split; [reflexivity|]. intros [resp|]; cbn [mbind prog_bind bind call collects].
  2:{ split; [reflexivity|]. intros _. constructor. }
  split; [reflexivity|]. intros rows.
  apply (collects_bind (typed_in T)).
  - apply collects_for_each; [constructor|].
    intros acc row Hacc. apply collects_row_get_str. intros v.
    apply (collects_bind (fun label => forall t, label = Some t -> In t T)).
    + destruct (type_map (lower (strip v))) as [t|] eqn:E; cbn [collects].
      * intros t' [= <-]. eapply type_map_range, E.
      * apply collects_row_get_str. intros v'. cbn [collects].
        intros t' E'. eapply type_map_range, E'.
    + intros [label|] Hl; cbn [collects]; [|exact Hacc].
      apply collects_row_get_str. intros payload. cbn [collects].
      apply append_record_typed; [now apply Hl|exact Hacc].
  - intros records Hrec. cbn [bind collects]. split; [reflexivity|].
    intros _. exact Hrec.
Qed.

(** X3. In every run of [collect_httpparams], whether it returns or raises
    (as it does with [AttributeError] on a CSV row too short to have a
    label), nothing is handed to the output file; and whatever the download
    and the CSV hold, every record of a run that returns satisfies the record
    invariant and has one of the three types [valid], [sqli], [xss] (the
    images of the CSV labels [norm], [sqli], [xss]), never [cmdi] or
    [path-traversal]. *)
Theorem httpparams_yields_valid_sqli_xss {W : Type}
    (h : handler collectE W) (w w' : W)
    (res : result (list LabeledRecord)) (tr : list (entry collectE)) :
  run h collect_httpparams w = (res, w', tr) ->
  written tr = []
  /\ (forall recs, res = Ok recs ->
        Forall (fun r => record_ok r
                         /\ In (type_ r) [py "valid"; py "sqli"; py "xss"]
                         /\ type_ r <> py "cmdi"
                         /\ type_ r <> py "path-traversal") recs).
Proof.
  intros H.
  destruct (collects_run h _ _ _ _ _ _ collect_httpparams_typed H) as [Hw Ht].
  destruct (collects_run h _ _ _ _ _ _ collect_httpparams_collects H) as [_ Hok].
  split; [exact Hw|]. intros recs ->.
  specialize (Ht _ eq_refl). specialize (Hok _ eq_refl).
  unfold typed_in in Ht. rewrite List.Forall_forall in *.
  intros r Hr. split; [now apply Hok|]. split; [now apply Ht|].
  specialize (Ht r Hr).
  split; intros E; rewrite E in Ht;
    repeat (destruct Ht as [Ht|Ht]; [discriminate Ht|]); exact Ht.
Qed.

(** The five rows of the example CSV give four records, one of them twice;
    with a row that has no label the run ends in [AttributeError]; neither
    run writes. *)
Lemma httpparams_yields_valid_sqli_xss_witness :
  (exists w' tr,
     run collector_world.os collect_httpparams collector_world.empty
       = (Ok [ {| pattern := py "hello"; type_ := py "valid" |};
               {| pattern := py "1 OR 1=1"; type_ := py "sqli" |};
               {| pattern := py "1 OR 1=1"; type_ := py "sqli" |};
               {| pattern := py "<script>"; type_ := py "xss" |} ], w', tr)
     /\ written tr = [])
  /\ (exists w' tr,
        run collector_world.os_short_row collect_httpparams collector_world.empty
          = (Raise (AttributeError "'NoneType' object has no attribute 'strip'"), w', tr)
        /\ written tr = []).
Proof.
  split.
  - set (R := run collector_world.os collect_httpparams collector_world.empty).
    assert (HR : R = (Ok [ {| pattern := py "hello"; type_ := py "valid" |};
                           {| pattern := py "1 OR 1=1"; type_ := py "sqli" |};
                           {| pattern := py "1 OR 1=1"; type_ := py "sqli" |};
                           {| pattern := py "<script>"; type_ := py "xss" |} ],
                      snd (fst R), snd R)) by (vm_compute; reflexivity).
    exists (snd (fst R)), (snd R). split; [exact HR|].
    exact (proj1 (httpparams_yields_valid_sqli_xss collector_world.os
                    collector_world.empty _ _ _ HR)).
  - set (R := run collector_world.os_short_row collect_httpparams collector_world.empty).
    assert (HR : R = (Raise (AttributeError "'NoneType' object has no attribute 'strip'"),
                      snd (fst R), snd R)) by (vm_compute; reflexivity).
    exists (snd (fst R)), (snd R). split; [exact HR|].
    exact (proj1 (httpparams_yields_valid_sqli_xss collector_world.os_short_row
                    collector_world.empty _ _ _ HR)).
Defined.

Lemma respects_bind {E A B} (bad : forall X, E X -> bool)
    (Q : A -> Prop) (P : B -> Prop) (m : prog E A) (f : A -> prog E B) :
  respects bad Q m -> (forall a, Q a -> respects bad P (f a)) ->
  respects bad P (bind m f).
Proof.
  intros Hm Hf. induction m as [r|e|X c k IH]; cbn [respects bind] in *.
  - apply Hf, Hm.
  - trivial.
  - destruct Hm as [Hc Hk]. split; [exact Hc|]. intros x. apply IH, Hk.
Qed.

Lemma respects_for_each {E A B} (bad : forall X, E X -> bool) (P : B -> Prop)
    (xs : list A) (acc : B) (body : B -> A -> prog E B) :
  P acc ->
  (forall acc x, In x xs -> P acc -> respects bad P (body acc x)) ->
  respects bad P (for_each xs acc body).
Proof.
  revert acc. induction xs as [|x xs IH]; intros acc Hacc Hbody; cbn [for_each].
  - exact Hacc.
  - apply (respects_bind bad P); [apply Hbody; [now left|exact Hacc]|].
    intros a Ha. apply IH; [exact Ha|].
    intros acc' x' Hin. apply Hbody. now right.
Qed.

Lemma respects_run {E W R} (h : handler E W) (bad : forall X, E X -> bool)
    (P : R -> Prop) (m : prog E R) w res w' tr :
  respects bad P m ->
  run h m w = (res, w', tr) ->
  existsb (bad_entry bad) tr = false /\ (forall r, res = Ok r -> P r).
Proof.
  revert w res w' tr. induction m as [r|e|X c k IH]; intros w res w' tr Hm.
  - cbn [run]. intros [= <- <- <-]. split; [reflexivity|]. now intros r' [= <-].
  - cbn [run]. intros [= <- <- <-]. split; [reflexivity|]. discriminate.
  - destruct Hm as [Hc Hk]. intros H.
    apply run_Vis_inv in H as [(e & -> & ->)|(x & w1 & tr1 & H & ->)].
    + split; [|discriminate]. cbn. now rewrite Hc.
    + destruct (IH x w1 res w' tr1 (Hk x) H) as [Hw Hr].
      split; [|exact Hr]. cbn. now rewrite Hc.
Qed.

Lemma PATT_DIRS_types dir_rel ty :
  In (dir_rel, ty) PATT_DIRS -> In ty PATT_TYPES.
Proof.
  intros H. repeat (destruct H as [[= <- <-]|H]; [cbn; tauto|]). destruct H.
Qed.

(** Records of the PayloadsAllTheThings types that satisfy the invariant. *)
Lemma sparse_clone_patt_respects :
  respects is_http (fun recs => typed_in PATT_TYPES recs /\ Forall record_ok recs)
           _sparse_clone_patt.
Proof.
  unfold _sparse_clone_patt. cbn [mbind prog_bind bind call respects].
  split; [reflexivity|]. intros tmp. split; [reflexivity|].
  intros [|]; cbn [negb].
  - apply respects_for_each; [split; constructor|].
    intros acc [dir_rel ty] Hin [Hacc Hok]. apply PATT_DIRS_types in Hin.
    cbn [bind respects].
    split; [reflexivity|]. intros [|]; cbn [negb bind respects]; [|now split].
    split; [reflexivity|]. intros txts.
    change (respects is_http
              (fun recs => typed_in PATT_TYPES recs /\ Forall record_ok recs)
              (for_each txts acc (fun records txt =>
                 content ← call (ReadText txt "replace");
                 Ret (collect_lines records (splitlines content) ty)))).
    apply respects_for_each; [now split|].
    intros acc' txt _ [Hacc' Hok']. cbn [mbind prog_bind bind call respects].
    split; [reflexivity|]. intros content.
    split; [now apply collect_lines_typed|now apply collect_lines_ok].
  - cbn [bind respects]. split; [reflexivity|]. intros _. split; constructor.
Qed.

Lemma api_download_patt_respects :
  respects is_clone (fun recs => typed_in PATT_TYPES recs /\ Forall record_ok recs)
           _api_download_patt.
Proof.
  unfold _api_download_patt.
  apply respects_for_each; [split; constructor|].
  intros acc [dir_rel ty] Hin [Hacc Hok]. apply PATT_DIRS_types in Hin.
  cbn [mbind prog_bind bind call respects].
  split; [reflexivity|]. intros [resp|]; cbn [bind respects].
  2:{ split; [reflexivity|]. intros _. now split. }
  apply respects_for_each; [now split|].
  intros acc' item _ [Hacc' Hok'].
  destruct (endswith (name item) (py ".txt")); cbn [negb]; [|now split].
  destruct (download_url item) as [[|c url]|]; cbn [respects]; try now split.
  cbn [mbind prog_bind bind call respects].
  split; [reflexivity|]. intros [file_resp|]; cbn [respects]; [|now split].
  split; [now apply collect_lines_typed|now apply collect_lines_ok].
Qed.

Lemma collect_payloadsallthethings_typed :
  respects (fun _ _ => false)
           (fun recs => typed_in PATT_TYPES recs /\ Forall record_ok recs)
           collect_payloadsallthethings.
Proof.
  assert (Hweak : forall bad (m : prog collectE (list LabeledRecord)) P,
            respects bad P m -> respects (fun _ _ => false) P m).
  { intros bad m P. induction m as [r|e|X c k IH]; cbn [respects]; auto.
    intros [_ Hk]. split; [reflexivity|]. intros x. apply IH, Hk. }
  unfold collect_payloadsallthethings. cbn [mbind prog_bind bind call respects].
  split; [reflexivity|]. intros _.
  eapply respects_bind; [eapply Hweak, sparse_clone_patt_respects|].
  intros records Hrec.
  eapply respects_bind with (Q := fun recs => typed_in PATT_TYPES recs
                                              /\ Forall record_ok recs).
  - destruct records as [|r rs]; [|exact Hrec].
    cbn [bind respects]. split; [reflexivity|]. intros _.
    eapply Hweak, api_download_patt_respects.
  - intros records' Hrec'. cbn [bind respects]. split; [reflexivity|].
    intros _. exact Hrec'.
Qed.

(** X4. In every run of [collect_payloadsallthethings], whether it returns
    or raises, nothing is handed to the output file; and whatever git, the
    file system and the GitHub API answer, every record of a run that returns
    satisfies the record invariant and has one of the four attack types of
    [PATT_DIRS], never [valid]. *)
Theorem payloadsallthethings_yields_attack_types {W : Type}
    (h : handler collectE W) (w w' : W)
    (res : result (list LabeledRecord)) (tr : list (entry collectE)) :
  run h collect_payloadsallthethings w = (res, w', tr) ->
  written tr = []
  /\ (forall recs, res = Ok recs ->
        Forall (fun r => record_ok r
                         /\ In (type_ r) [py "sqli"; py "xss"; py "cmdi"; py "path-traversal"]
                         /\ type_ r <> py "valid") recs).
Proof.
  intros H.
  destruct (respects_run h _ _ _ _ _ _ _ collect_payloadsallthethings_typed H)
    as [_ Ht].
  destruct (collects_run h _ _ _ _ _ _ collect_payloadsallthethings_collects H)
    as [Hw _].
  split; [exact Hw|]. intros recs ->.
  destruct (Ht _ eq_refl) as [Hty Hok]. unfold typed_in in Hty.
  rewrite List.Forall_forall in *.
  intros r Hr. split; [now apply Hok|]. split; [now apply Hty|].
  intros E. specialize (Hty r Hr). rewrite E in Hty.
  repeat (destruct Hty as [Hty|Hty]; [discriminate Hty|]). exact Hty.
Qed.

(** Without [git], the listed text file of the SQL directory gives two
    records; where creating the temporary directory fails the run raises;
    neither run writes. *)
Lemma payloadsallthethings_yields_attack_types_witness :
  (exists w' tr,
     run collector_world.os collect_payloadsallthethings collector_world.empty
       = (Ok [ {| pattern := py "1 OR 1=1"; type_ := py "sqli" |};
               {| pattern := py "' OR 'a'='a"; type_ := py "sqli" |} ], w', tr)
     /\ written tr = [])
  /\ (exists w' tr,
        run collector_world.os_no_tmp collect_payloadsallthethings collector_world.empty
          = (Raise (OSError "PermissionError"), w', tr)
        /\ written tr = []).
Proof.
  split.
  - set (R := run collector_world.os collect_payloadsallthethings collector_world.empty).
    assert (HR : R = (Ok [ {| pattern := py "1 OR 1=1"; type_ := py "sqli" |};
                           {| pattern := py "' OR 'a'='a"; type_ := py "sqli" |} ],
                      snd (fst R), snd R)) by (vm_compute; reflexivity).
    exists (snd (fst R)), (snd R). split; [exact HR|].
    exact (proj1 (payloadsallthethings_yields_attack_types collector_world.os
                    collector_world.empty _ _ _ HR)).
  - set (R := run collector_world.os_no_tmp collect_payloadsallthethings
                collector_world.empty).
    assert (HR : R = (Raise (OSError "PermissionError"), snd (fst R), snd R))
      by (vm_compute; reflexivity).
    exists (snd (fst R)), (snd R). split; [exact HR|].
    exact (proj1 (payloadsallthethings_yields_attack_types collector_world.os_no_tmp
                    collector_world.empty _ _ _ HR)).
Defined.

Lemma existsb_cons_false {A} (f : A -> bool) a l :
  f a = false -> existsb f (a :: l) = existsb f l.
Proof. intros H. cbn. now rewrite H. Qed.

(** X5. [collect_payloadsallthethings] goes to the GitHub API only as a
    fallback: in every run that makes an HTTP request, the sparse clone ran
    first, made no HTTP request itself and returned no record, the fallback
    was logged, and what follows never touches the clone (no temporary
    directory, no [git], no directory test, listing or file read). *)
Theorem patt_api_is_only_a_fallback {W : Type}
    (h : handler collectE W) (w w' : W)
    (res : result (list LabeledRecord)) (tr : list (entry collectE)) :
  run h collect_payloadsallthethings w = (res, w', tr) ->
  existsb (bad_entry is_http) tr = true ->
  exists w0 w1 tr1 tr2,
    run h _sparse_clone_patt w0 = (Ok [], w1, tr1)
    /\ existsb (bad_entry is_http) tr1 = false
    /\ existsb (bad_entry is_clone) tr2 = false
    /\ tr = Called (collect_data.Log INFO "Collecting PayloadsAllTheThings …") (Ok tt)
            :: tr1
            ++ Called (collect_data.Log INFO
                 "  Sparse clone unavailable, falling back to GitHub API …") (Ok tt)
            :: tr2.
Proof.
  intros H Hhttp. unfold collect_payloadsallthethings in H.
  step_in H; [discriminate Hhttp|]. cbn beta in H.
  rewrite existsb_cons_false in Hhttp by reflexivity.
  apply run_bind_inv in H
    as [(e & Hc & ->)|(recs & w1 & tr1 & tr2 & Hc & H & ->)].
  { destruct (respects_run h _ _ _ _ _ _ _ sparse_clone_patt_respects Hc) as [Hn _].
    congruence. }
  destruct (respects_run h _ _ _ _ _ _ _ sparse_clone_patt_respects Hc) as [Hn _].
  rewrite existsb_app, Hn in Hhttp. cbn [orb] in Hhttp.
  destruct recs as [|r rs].
  2:{ cbn [bind] in H. step_in H; [discriminate Hhttp|]. step_in H.
      discriminate Hhttp. }
  cbn [bind mbind prog_bind call] in H.
  step_in H; [discriminate Hhttp|]. cbn beta in H.
  destruct x, x0.
  exists w0, w1, tr1, tr. split; [exact Hc|]. split; [exact Hn|].
  split; [|reflexivity].
  apply run_bind_inv in H
    as [(e & Ha & ->)|(recs & w3 & tr3 & tr4 & Ha & H & ->)].
  { now destruct (respects_run h _ _ _ _ _ _ _ api_download_patt_respects Ha). }
  destruct (respects_run h _ _ _ _ _ _ _ api_download_patt_respects Ha) as [Hcl _].
  rewrite existsb_app, Hcl. cbn [orb].
  step_in H; [reflexivity|]. step_in H. reflexivity.
Qed.

(** In the example world [git] is not available and the API is used. *)
Lemma patt_api_is_only_a_fallback_witness :
  exists w0 w1 tr1,
    run collector_world.os _sparse_clone_patt w0 = (Ok [], w1, tr1)
    /\ existsb (bad_entry is_http) tr1 = false.
Proof.
  set (R := run collector_world.os collect_payloadsallthethings collector_world.empty).
  destruct (patt_api_is_only_a_fallback collector_world.os collector_world.empty
              (snd (fst R)) (fst (fst R)) (snd R))
    as (w0 & w1 & tr1 & tr2 & Hc & Hn & _).
  - vm_compute. reflexivity.
  - vm_compute. reflexivity.
  - now exists w0, w1, tr1.
Defined.

(** ** When the collector writes *)

Lemma run_returned_prefix {E W R} (h : handler E W) (m : prog E R) w res w' tr :
  run h m w = (res, w', tr) ->
  forall pre e post, tr = pre ++ e :: post -> forallb returned pre = true.
Proof.
  revert w res w' tr. induction m as [r|e0|X c k IH]; intros w res w' tr.
  - cbn [run]. intros [= <- <- <-] [|a pre] e post Heq; discriminate Heq.
  - cbn [run]. intros [= <- <- <-] [|a pre] e post Heq; discriminate Heq.
  - intros H. apply run_Vis_inv in H as [(e0 & -> & ->)|(x & w1 & tr1 & H & ->)];
      intros [|a pre] e post Heq; try reflexivity.
    + destruct pre; discriminate Heq.
    + injection Heq as <- Heq. cbn [forallb returned]. eapply IH; eassumption.
Qed.

(** X7. A run of the collector's [main] hands a record list to the output
    file at most once: by the call [WriteJson OUTPUT_FILE _ 2 false], made
    right after [OUTPUT_DIR.mkdir(parents=True, exist_ok=True)] was answered,
    every call before it having been answered and none of them a write.  A
    run that wrote nothing ended in an exception (of a collector, of one of
    the two summary log calls or of the [mkdir]), and a run that returns has
    written.  After the write no call is made but the final
    [log.info("Written to %s")], made exactly when the write was answered,
    and the run ends as that call ends: an exception of the write or of the
    final log call ends the run with the list already handed over. *)
Theorem collector_writes_once_at_the_end {W : Type}
    (h : handler collectE W) (w w' : W)
    (res : result unit) (tr : list (entry collectE)) :
  run h collect_data.main w = (res, w', tr) ->
  ((written tr = [] /\ exists e, res = Raise e)
   \/ exists out r pre post,
        written tr = [out]
        /\ written pre = []
        /\ forallb returned pre = true
        /\ tr = pre ++ [Called (collect_data.Mkdir OUTPUT_DIR true true) (Ok tt);
                        Called (WriteJson OUTPUT_FILE out 2 false) r] ++ post
        /\ (forall e, r = Raise e -> post = [] /\ res = Raise e)
        /\ (r = Ok tt ->
            post = [Called (collect_data.Log INFO "Written to %s") res]))
  /\ (res = Ok tt -> written tr <> []).
Proof.
  intros H. pose proof H as Hrun.
  unfold collect_data.main in H. cbn [mbind prog_bind] in H.
  destruct deferred_sources_collect as (Hk & He & Hh).
  collector_in H collect_httpparams_collects.
  { split; [left; split; [exact Hw|eauto]|discriminate]. }
  collector_in H collect_payloadsallthethings_collects.
  { rewrite written_app, Hw, Hw0. split; [left; split; [reflexivity|eauto]|discriminate]. }
  collector_in H Hk.
  { rewrite !written_app, Hw, Hw0, Hw1.
    split; [left; split; [reflexivity|eauto]|discriminate]. }
  collector_in H He.
  { rewrite !written_app, Hw, Hw0, Hw1, Hw2.
    split; [left; split; [reflexivity|eauto]|discriminate]. }
  collector_in H Hh.
  { rewrite !written_app, Hw, Hw0, Hw1, Hw2, Hw3.
    split; [left; split; [reflexivity|eauto]|discriminate]. }
  rewrite !written_app, Hw, Hw0, Hw1, Hw2, Hw3. cbn [app].
  set (out := deduplicate _) in H.
  do 3 (step_in H; [split; [left; split; [reflexivity|eauto]|discriminate]|]).
  repeat match goal with u : unit |- _ => destruct u end.
  set (pre := tr0 ++ tr ++ tr1 ++ tr2 ++ tr3
              ++ [Called (collect_data.Log INFO "Total unique records: %d") (Ok tt);
                  Called (collect_data.Log INFO "Types present: %s") (Ok tt)]).
  assert (Hpre : written pre = []).
  { unfold pre. rewrite !written_app, Hw, Hw0, Hw1, Hw2, Hw3. reflexivity. }
  step_in H.
  { split; [|discriminate]. right.
    exists out, (Raise e), pre, [].
    split; [reflexivity|]. split; [exact Hpre|].
    match goal with |- _ /\ (?t = ?rhs) /\ _ =>
      assert (E : t = rhs) by (unfold pre; rewrite <- !app_assoc; reflexivity) end.
    rewrite E in Hrun.
    split; [exact (run_returned_prefix h _ _ _ _ _ Hrun pre _ _ eq_refl)|].
    split; [exact E|]. split; [intros e0 [= <-]; auto|discriminate]. }
  destruct x.
  step_in H.
  { split; [|discriminate]. right.
    exists out, (Ok tt), pre, [Called (collect_data.Log INFO "Written to %s") (Raise e)].
    split; [reflexivity|]. split; [exact Hpre|].
    match goal with |- _ /\ (?t = ?rhs) /\ _ =>
      assert (E : t = rhs) by (unfold pre; rewrite <- !app_assoc; reflexivity) end.
    rewrite E in Hrun.
    split; [exact (run_returned_prefix h _ _ _ _ _ Hrun pre _ _ eq_refl)|].
    split; [exact E|]. split; [discriminate|reflexivity]. }
  destruct x.
  step_in H. split; [|discriminate]. right.
  exists out, (Ok tt), pre, [Called (collect_data.Log INFO "Written to %s") (Ok tt)].
  split; [reflexivity|]. split; [exact Hpre|].
  match goal with |- _ /\ (?t = ?rhs) /\ _ =>
    assert (E : t = rhs) by (unfold pre; rewrite <- !app_assoc; reflexivity) end.
  rewrite E in Hrun.
  split; [exact (run_returned_prefix h _ _ _ _ _ Hrun pre _ _ eq_refl)|].
  split; [exact E|]. split; [discriminate|reflexivity].
Qed.

(** The example run writes once and returns; where the final log call fails,
    the run raises with the list already written. *)
Lemma collector_writes_once_at_the_end_witness :
  (exists w' tr,
     run collector_world.os collect_data.main collector_world.empty = (Ok tt, w', tr)
     /\ written tr <> [])
  /\ (exists w' tr,
        run collector_world.os_last_log_fails collect_data.main collector_world.empty
          = (Raise (OSError "BrokenPipeError"), w', tr)
        /\ written tr = [collector_world.expected]
        /\ collector_world.output w' = Some collector_world.expected).
Proof.
  split.
  - set (R := run collector_world.os collect_data.main collector_world.empty).
    assert (HR : R = (Ok tt, snd (fst R), snd R)) by (vm_compute; reflexivity).
    exists (snd (fst R)), (snd R). split; [exact HR|].
    now apply (collector_writes_once_at_the_end collector_world.os
                 collector_world.empty (snd (fst R)) (Ok tt) (snd R) HR).
  - set (R := run collector_world.os_last_log_fails collect_data.main
                collector_world.empty).
    assert (HR : R = (Raise (OSError "BrokenPipeError"), snd (fst R), snd R))
      by (vm_compute; reflexivity).
    exists (snd (fst R)), (snd R). split; [exact HR|].
    destruct (collector_writes_once_at_the_end collector_world.os_last_log_fails
                collector_world.empty (snd (fst R)) _ (snd R) HR)
      as [[[Hnone _]|(out & r & pre & post & Hout & _)] _].
    + vm_compute in Hnone. discriminate Hnone.
    + split; vm_compute; reflexivity.
Defined.

(** ** The data flow of the training run *)

Import train_flow.







(** X9. When the dataset file holds an empty array, the training run ends
    in [KeyError('type')], raised by the first column lookup right after the
    file was read: nothing is split, fitted, scored or written. *)
Theorem train_on_empty_dataset_raises_KeyError {Model W : Type}
    (h : handler (trainE Model) W) (w w' : W)
    (res : result unit) (tr : list (entry (trainE Model))) :
  run h train.main w = (res, w', tr) ->
  dataset_of tr = Some [] ->
  res = Raise (KeyError "type")
  /\ tr = [Called (PathExists DATASET_PATH) (Ok true);
           Called (train.Log INFO "Loading dataset from %s") (Ok tt);
           Called (ReadJson DATASET_PATH "records") (Ok [])]
  /\ existsb is_split_or_fit tr = false
  /\ existsb is_write tr = false
  /\ scores tr = [].
Proof.
  intros H Hds. unfold train.main in H.
  step_as H present; [discriminate Hds|].
  destruct present.
  2:{ do 2 (step_in H; [discriminate Hds|]). step_in H. discriminate Hds. }
  step_in H; [discriminate Hds|].
  step_as H df; [discriminate Hds|].
  injection Hds as ->. step_in H.
  repeat match goal with u : unit |- _ => destruct u end.
  repeat split.
Qed.

(** The example disk with an empty array in the dataset file. *)
Lemma train_on_empty_dataset_raises_KeyError_witness :
  exists w' tr,
    run train_world.os train.main (examples.train_disk [] 1)
      = (Raise (KeyError "type"), w', tr)
    /\ train_world.model_file w' = None.
Proof.
  set (w := examples.train_disk [] 1).
  set (R := run train_world.os train.main w).
  destruct (train_on_empty_dataset_raises_KeyError train_world.os w
              (snd (fst R)) (fst (fst R)) (snd R) eq_refl eq_refl)
    as (Hres & _).
  exists (snd (fst R)), (snd R). split; [|reflexivity].
  rewrite <- Hres. reflexivity.
Defined.

(** ** The constructor [PayloadClassifier.__init__] *)

Lemma ensure_model_never_loads path :
  respects is_load (fun _ : str => True) (_ensure_model path).
Proof.
  destruct path as [[|c t]|]; cbn [_ensure_model respects]; trivial.
  cbn [mbind prog_bind bind call respects].
  split; [reflexivity|]. intros [|]; cbn [respects bind]; [trivial|].
  split; [reflexivity|]. intros _. unfold call. cbn [bind respects].
  split; [reflexivity|]. intros _. exact I.
Qed.

(** X10. The constructor first runs [_ensure_model]; if that raises (as it
    does, with no call made, for an empty or absent file name), the
    exception propagates and [joblib.load] is never called.  Otherwise
    [joblib.load] is called exactly once, last, on the very path
    [_ensure_model] returned; its failure propagates, and on success the new
    object holds the loaded pipeline and that pipeline's own [classes_]. *)
Theorem init_loads_what_ensure_model_returns {W : Type}
    (h : handler loadE W) (w w' : W) (path : option str)
    (res : result PayloadClassifier) (tr : list (entry loadE)) :
  run h (__init__ path) w = (res, w', tr) ->
  ((exists e, run h (_ensure_model path) w = (Raise e, w', tr)
              /\ res = Raise e
              /\ existsb (bad_entry is_load) tr = false)
   \/ (exists model_path w0 tr0 r,
         run h (_ensure_model path) w = (Ok model_path, w0, tr0)
         /\ existsb (bad_entry is_load) tr0 = false
         /\ h _ (JoblibLoad model_path) w0 = (r, w')
         /\ tr = tr0 ++ [Called (JoblibLoad model_path) r]
         /\ res = match r with
                  | Ok clf => Ok {| payload_clf := clf; classes_ := pipe_classes_ clf |}
                  | Raise e => Raise e
                  end))
  /\ (path = None \/ path = Some [] ->
      res = Raise ArtifactUnavailableError /\ tr = [] /\ w' = w)
  /\ (forall self, res = Ok self -> classes_ self = pipe_classes_ (payload_clf self)).
Proof.
  intros H.
  assert (Hmain :
    (exists e, run h (_ensure_model path) w = (Raise e, w', tr)
               /\ res = Raise e
               /\ existsb (bad_entry is_load) tr = false)
    \/ (exists model_path w0 tr0 r,
          run h (_ensure_model path) w = (Ok model_path, w0, tr0)
          /\ existsb (bad_entry is_load) tr0 = false
          /\ h _ (JoblibLoad model_path) w0 = (r, w')
          /\ tr = tr0 ++ [Called (JoblibLoad model_path) r]
          /\ res = match r with
                   | Ok clf => Ok {| payload_clf := clf; classes_ := pipe_classes_ clf |}
                   | Raise e => Raise e
                   end)).
  { unfold __init__ in H. cbn [mbind prog_bind] in H.
    apply run_bind_inv in H
      as [(e & Hc & ->)|(model_path & w0 & tr0 & tr1 & Hc & H & ->)].
    - left. exists e. split; [exact Hc|]. split; [reflexivity|].
      now destruct (respects_run h _ _ _ _ _ _ _ (ensure_model_never_loads path) Hc).
    - right. exists model_path, w0, tr0.
      destruct (respects_run h _ _ _ _ _ _ _ (ensure_model_never_loads path) Hc)
        as [Hn _].
      unfold call in H. cbn [mbind prog_bind bind run] in H.
      destruct (h Pipeline (JoblibLoad model_path) w0) as [[clf|e] w1] eqn:Hl;
        cbn [bind run] in H; injection H as <- <- <-.
      + exists (Ok clf). repeat split; assumption.
      + exists (Raise e). repeat split; assumption. }
  split; [exact Hmain|]. split.
  - intros [-> | ->]; cbn in H; injection H as <- <- <-; auto.
  - intros self ->.
    destruct Hmain as [(e & _ & He & _)|(mp & w0 & tr0 & r & _ & _ & _ & _ & Hr)];
      [discriminate He|].
    destruct r as [clf|e]; [|discriminate Hr]. now injection Hr as ->.
Qed.

(** With a model file on the disk: one [isfile] test, one [joblib.load]. *)
Lemma init_loads_what_ensure_model_returns_witness :
  exists self,
    run loader_world.os (__init__ (Some examples.present_path)) disk_with_model
      = (Ok self, disk_with_model,
         [Called (IsFile examples.present_path) (Ok true);
          Called (JoblibLoad examples.present_path) (Ok examples.agreeing_pipeline)])
    /\ classes_ self = [py "sqli"; py "valid"].
Proof.
  set (R := run loader_world.os (__init__ (Some examples.present_path)) disk_with_model).
  assert (HR : R = (Ok (examples.wrap examples.agreeing_pipeline), disk_with_model,
                    snd R)) by reflexivity.
  destruct (init_loads_what_ensure_model_returns loader_world.os disk_with_model
              disk_with_model (Some examples.present_path) _ (snd R) HR)
    as (_ & _ & Hcl).
  exists (examples.wrap examples.agreeing_pipeline). split; [reflexivity|].
  rewrite (Hcl _ eq_refl). reflexivity.
Defined.

(** ** Where the download is asked to go *)

Lemma drop_while_app_stop (f : char -> bool) l x r :
  forallb f l = true -> f x = false -> drop_while f (l ++ x :: r) = x :: r.
Proof.
  intros Hl Hx. induction l as [|a l IH]; cbn [app drop_while].
  - now rewrite Hx.
  - cbn [forallb] in Hl. apply andb_prop in Hl as [Ha Hl]. rewrite Ha. now apply IH.
Qed.

Lemma forallb_rev_true {A} (f : A -> bool) l :
  forallb f l = true -> forallb f (rev l) = true.
Proof.
  rewrite !forallb_forall. intros H x Hx. apply H. now apply in_rev.
Qed.

Lemma dirname_join (a : str) (c : char) (b : str) :
  c <> SLASH ->
  forallb (fun x => negb (bool_decide (x = SLASH))) b = true ->
  dirname ((a ++ [c]) ++ SLASH :: b) = a ++ [c].
Proof.
  intros Hc Hb. unfold dirname.
  rewrite rev_app_distr. cbn [rev]. rewrite <- app_assoc. cbn [app].
  rewrite drop_while_app_stop;
    [|now apply forallb_rev_true
     |now rewrite bool_decide_eq_true_2].
  cbn [rev]. rewrite rev_involutive.
  assert (Hns : all_slashes ((a ++ [c]) ++ [SLASH]) = false).
  { unfold all_slashes. rewrite !forallb_app. cbn [forallb].
    rewrite (bool_decide_eq_false_2 (c = SLASH)) by assumption.
    cbn [andb]. now rewrite andb_false_r. }
  rewrite Hns. rewrite rev_app_distr. cbn [rev app drop_while].
  rewrite bool_decide_eq_true_2 by reflexivity.
  rewrite rev_app_distr. cbn [rev app drop_while].
  rewrite (bool_decide_eq_false_2 (c = SLASH)) by assumption.
  cbn [rev]. now rewrite rev_involutive.
Qed.

(** X11. For a model path of the default shape, [<root>/models/payload_clf.joblib]
    with [<root>] not ending in a slash, [_ensure_model] tests that path,
    and when no file is there it creates [<root>/models] and asks the hub to
    place [HF_FILENAME] under [<root>]: the place [local_dir/filename] of the
    download is the path that was asked for. *)
Theorem ensure_model_downloads_to_the_path (root0 : str) (c : char) :
  c <> SLASH ->
  let root := root0 ++ [c] in
  let path := root ++ SLASH :: HF_FILENAME in
  dirname path = root ++ py "/models"
  /\ dirname (dirname path) = root
  /\ dirname (dirname path) ++ SLASH :: HF_FILENAME = path
  /\ _ensure_model (Some path)
     = Vis (IsFile path) (fun present : bool =>
         if present then Ret path
         else Vis (Makedirs (root ++ py "/models") true) (fun _ =>
                Vis (HfHubDownload HF_REPO_ID HF_FILENAME root) Ret)).
Proof.
  intros Hc root path.
  assert (H1 : dirname path = root ++ py "/models").
  { unfold path, HF_FILENAME.
    change (py "models/payload_clf.joblib")
      with ((py "model" ++ [chr 115]) ++ SLASH :: py "payload_clf.joblib").
    change (root ++ SLASH :: (py "model" ++ [chr 115]) ++ SLASH :: py "payload_clf.joblib")
      with (root ++ (SLASH :: py "model" ++ [chr 115]) ++ SLASH :: py "payload_clf.joblib").
    rewrite app_assoc.
    replace (root ++ SLASH :: py "model" ++ [chr 115])
      with ((root ++ SLASH :: py "model") ++ [chr 115])
      by (now rewrite <- app_assoc).
    rewrite dirname_join; [|discriminate|reflexivity].
    rewrite <- app_assoc. reflexivity. }
  assert (H2 : dirname (dirname path) = root).
  { rewrite H1. unfold root. apply dirname_join; [exact Hc|reflexivity]. }
  split; [exact H1|]. split; [exact H2|]. split; [now rewrite H2|].
  rewrite ensure_model_nonempty.
  - now rewrite H2, H1.
  - unfold path, root. now destruct root0.
Qed.

(** The example path that the hub has to serve. *)
Lemma ensure_model_downloads_to_the_path_witness :
  dirname examples.missing_path = py "/tmp/cache/models"
  /\ dirname (dirname examples.missing_path) = py "/tmp/cache"
  /\ py "/tmp/cache" ++ SLASH :: HF_FILENAME = examples.missing_path.
Proof.
  assert (Hc : chr 101 <> SLASH) by discriminate.
  destruct (ensure_model_downloads_to_the_path (py "/tmp/cach") (chr 101) Hc)
    as (H1 & H2 & H3 & _).
  split; [exact H1|]. split; [exact H2|]. reflexivity.
Defined.

(** ** Where the records of the output come from *)

Lemma deferred_sources_empty :
  collects (fun recs => recs = []) collect_kaggle_xss
  /\ collects (fun recs => recs = []) collect_ecml_pkdd
  /\ collects (fun recs => recs = []) collect_hacktricks.
Proof. repeat split. Qed.

(** X12. The three deferred sources contribute nothing: every record list
    the collector writes is the deduplication of what [collect_httpparams]
    returned followed by what [collect_payloadsallthethings] returned, the
    second run in the state the first left; and every [valid] record of the
    output was returned by [collect_httpparams]. *)
Theorem output_comes_from_the_two_sources {W : Type}
    (h : handler collectE W) (w w' : W)
    (res : result unit) (tr : list (entry collectE)) (out : list LabeledRecord) :
  run h collect_data.main w = (res, w', tr) ->
  In out (written tr) ->
  exists recs1 w1 tr1 recs2 w2 tr2,
    run h collect_httpparams w = (Ok recs1, w1, tr1)
    /\ run h collect_payloadsallthethings w1 = (Ok recs2, w2, tr2)
    /\ out = deduplicate (recs1 ++ recs2)
    /\ (forall r, In r out -> type_ r = py "valid" -> In r recs1).
Proof.
  intros H Hout. unfold collect_data.main in H. cbn [mbind prog_bind] in H.
  destruct deferred_sources_empty as (Hk & He & Hh).
  apply run_bind_inv in H
    as [(e & Hc1 & ->)|(recs1 & w1 & tr1 & rest1 & Hc1 & H & ->)].
  { destruct (collects_run h _ _ _ _ _ _ collect_httpparams_collects Hc1) as [Hw _].
    rewrite Hw in Hout. destruct Hout. }
  destruct (collects_run h _ _ _ _ _ _ collect_httpparams_collects Hc1) as [Hw1 _].
  apply run_bind_inv in H
    as [(e & Hc2 & ->)|(recs2 & w2 & tr2 & rest2 & Hc2 & H & ->)].
  { destruct (collects_run h _ _ _ _ _ _ collect_payloadsallthethings_collects Hc2)
      as [Hw _].
    rewrite written_app, Hw1, Hw in Hout. destruct Hout. }
  destruct (collects_run h _ _ _ _ _ _ collect_payloadsallthethings_collects Hc2)
    as [Hw2 _].
  apply run_bind_inv in H
    as [(e & Hc3 & ->)|(recs3 & w3 & tr3 & rest3 & Hc3 & H & ->)].
  { destruct (collects_run h _ _ _ _ _ _ Hk Hc3) as [Hw _].
    rewrite !written_app, Hw1, Hw2, Hw in Hout. destruct Hout. }
  destruct (collects_run h _ _ _ _ _ _ Hk Hc3) as [Hw3 E3].
  rewrite (E3 _ eq_refl) in H.
  apply run_bind_inv in H
    as [(e & Hc4 & ->)|(recs4 & w4 & tr4 & rest4 & Hc4 & H & ->)].
  { destruct (collects_run h _ _ _ _ _ _ He Hc4) as [Hw _].
    rewrite !written_app, Hw1, Hw2, Hw3, Hw in Hout. destruct Hout. }
  destruct (collects_run h _ _ _ _ _ _ He Hc4) as [Hw4 E4].
  rewrite (E4 _ eq_refl) in H.
  apply run_bind_inv in H
    as [(e & Hc5 & ->)|(recs5 & w5 & tr5 & rest5 & Hc5 & H & ->)].
  { destruct (collects_run h _ _ _ _ _ _ Hh Hc5) as [Hw _].
    rewrite !written_app, Hw1, Hw2, Hw3, Hw4, Hw in Hout. destruct Hout. }
  destruct (collects_run h _ _ _ _ _ _ Hh Hc5) as [Hw5 E5].
  rewrite (E5 _ eq_refl) in H.
  rewrite !written_app, Hw1, Hw2, Hw3, Hw4, Hw5 in Hout. cbn [app] in Hout.
  rewrite !app_nil_r in H.
  assert (Hout' : out = deduplicate (recs1 ++ recs2)).
  { do 3 (step_in H; [destruct Hout|]).
    step_in H; [destruct Hout as [Hout|[]]; now symmetry|].
    step_in H; [destruct Hout as [Hout|[]]; now symmetry|].
    step_in H. destruct Hout as [Hout|[]]; now symmetry. }
  exists recs1, w1, tr1, recs2, w2, tr2.
  split; [exact Hc1|]. split; [exact Hc2|]. split; [exact Hout'|].
  intros r Hr Hvalid. subst out.
  rewrite deduplicate_first_occurrences in Hr.
  apply first_occurrences_In, in_app_or in Hr as [Hr|Hr]; [exact Hr|].
  exfalso.
  destruct (respects_run h _ _ _ _ _ _ _ collect_payloadsallthethings_typed Hc2)
    as [_ Ht].
  destruct (Ht _ eq_refl) as [Hty _]. unfold typed_in in Hty.
  rewrite List.Forall_forall in Hty. specialize (Hty r Hr). rewrite Hvalid in Hty.
  repeat (destruct Hty as [Hty|Hty]; [discriminate Hty|]). exact Hty.
Qed.

(** In the example run the one [valid] record comes from the CSV. *)
Lemma output_comes_from_the_two_sources_witness :
  exists recs1 w1 tr1,
    run collector_world.os collect_httpparams collector_world.empty
      = (Ok recs1, w1, tr1)
    /\ In {| pattern := py "hello"; type_ := py "valid" |} recs1.
Proof.
  set (R := run collector_world.os collect_data.main collector_world.empty).
  destruct (output_comes_from_the_two_sources collector_world.os
              collector_world.empty (snd (fst R)) (fst (fst R)) (snd R)
              collector_world.expected)
    as (recs1 & w1 & tr1 & recs2 & w2 & tr2 & Hc1 & _ & _ & Hv).
  - vm_compute. reflexivity.
  - vm_compute. now left.
  - exists recs1, w1, tr1. split; [exact Hc1|].
    apply Hv; [now left|reflexivity].
Defined.
